(** * glfly: a shallow embedding of [src/main.cxx]

    The program opens a GLFW window, builds one shader program from two
    files, draws one triangle per frame until the close flag of the window
    is set, and tears down.  Everything the program does is a call into
    GLFW, GL or the C++ standard library; the embedding therefore threads a
    [World] through the functions of the source: the part of the state of
    those libraries the program depends on, the text written to the two
    standard streams, and the ordered log of the library calls issued.
    What the libraries answer (does [glfwInit] succeed, what is the link
    status, which events does a poll deliver) is read from an [Env]. *)

From stdpp Require Import base numbers strings list gmap.
From Equations Require Import Equations.
From Stdlib Require Import Ascii String QArith.

Local Open Scope Z_scope.

(** ** Text: [std::string], [std::ifstream], [std::getline] *)

Module Text.

Definition LF : ascii := "010"%char.
Definition CR : ascii := "013"%char.
Definition NUL : ascii := "000"%char.

(** ["\n"] as a one-character string. *)
Definition endl : string := String LF EmptyString.

(** The state of an input file stream: the characters not yet extracted
    and the two state bits [std::getline] reads and writes. *)
Record ifstream := Ifstream {
  buf : string;
  eofbit : bool;
  failbit : bool
}.

(** [std::ifstream streamIn{fileName}]: a file that cannot be opened
    leaves the stream with [failbit] set. The file system maps the paths
    that can be opened for reading to the characters the stream delivers. *)
Definition ifstream_open (fs : gmap string string) (fileName : string) : ifstream :=
  match fs !! fileName with
  | Some content => Ifstream content false false
  | None => Ifstream EmptyString false true
  end.

(** The extraction loop of [std::getline]: characters are moved to the
    line until the delimiter ['\n'] is met (extracted, not stored: the
    rest of the input comes back as [Some]) or the input ends ([None]). *)
Fixpoint extract_line (input : string) : string * option string :=
  match input with
  | EmptyString => (EmptyString, None)
  | String c rest =>
      if Ascii.eqb c LF then (EmptyString, Some rest)
      else let '(line, r) := extract_line rest in (String c line, r)
  end.

Definition is_empty (s : string) : bool :=
  match s with EmptyString => true | String _ _ => false end.

(** [std::getline(streamIn, s)], with the stream converted to [bool] as
    the [while] does: a stream that is not good only gets [failbit]; one
    that is good has [s] replaced by the line extracted, [eofbit] set when
    the input ended first, and [failbit] set when nothing at all, not even
    a delimiter, was extracted. *)
Definition getline (streamIn : ifstream) (s : string) : ifstream * string * bool :=
  if eofbit streamIn || failbit streamIn
  then (Ifstream (buf streamIn) (eofbit streamIn) true, s, false)
  else match extract_line (buf streamIn) with
       | (line, Some rest) => (Ifstream rest false false, line, true)
       | (line, None) =>
           (Ifstream EmptyString true (is_empty line), line, negb (is_empty line))
       end.

(** What is left to do for the loop of [readFile]: nothing once a state
    bit is set, else at most one round per character and one more. *)
Definition rounds_left (streamIn : ifstream) : nat :=
  if eofbit streamIn || failbit streamIn then 0%nat
  else S (String.length (buf streamIn)).

(** A value together with the equation that it is what was computed: the
    loop below needs it to show that a successful [getline] made progress. *)
Definition inspect {A : Type} (a : A) : {b : A | a = b} := exist _ a eq_refl.

(** The [while (std::getline(streamIn, s)) { streamOut << s << '\n'; }]
    of [readFile]. *)
Equations? readFile_loop (streamIn : ifstream) (s streamOut : string) : string
  by wf (rounds_left streamIn) lt :=
  readFile_loop streamIn s streamOut with inspect (getline streamIn s) := {
    | exist _ (streamIn', s', true) _ =>
        readFile_loop streamIn' s' (streamOut +:+ s' +:+ endl)
    | exist _ (_, _, false) _ => streamOut }.
Proof.
  assert (shorter : ∀ input line rest,
    extract_line input = (line, Some rest) →
    (String.length rest < String.length input)%nat).
  { induction input as [|c input IH]; intros line rest; simpl.
    - discriminate.
    - destruct (Ascii.eqb c LF).
      + intros [= _ <-]. lia.
      + destruct (extract_line input) as [l r] eqn:E.
        intros [= _ ->]. specialize (IH _ _ eq_refl). lia. }
  match goal with H : getline _ _ = _ |- _ => revert H end.
  unfold getline, rounds_left.
  destruct (eofbit streamIn || failbit streamIn); [discriminate|].
  destruct (extract_line (buf streamIn)) as [line [rest|]] eqn:E.
  - intros [= <- _]. simpl. apply shorter in E. lia.
  - intros [= <- _ _]. simpl. lia.
Qed.

(** [std::string readFile(const char* const fileName)]. *)
Definition readFile (fs : gmap string string) (fileName : string) : string :=
  readFile_loop (ifstream_open fs fileName) EmptyString EmptyString.

(** The lines of a text, as the specification of [readFile] speaks of them:
    the pieces between line feeds, a last piece without a line feed
    counting when it is not empty. *)
Fixpoint file_lines (content : string) : list string :=
  match content with
  | EmptyString => []
  | String c rest =>
      if Ascii.eqb c LF then EmptyString :: file_lines rest
      else match file_lines rest with
           | [] => [String c EmptyString]
           | line :: lines => String c line :: lines
           end
  end.

(** Each line followed by one line feed, all concatenated. *)
Fixpoint terminate_lines (lines : list string) : string :=
  match lines with
  | [] => EmptyString
  | line :: lines => line +:+ endl +:+ terminate_lines lines
  end.

Fixpoint ends_with_LF (s : string) : bool :=
  match s with
  | EmptyString => false
  | String c EmptyString => Ascii.eqb c LF
  | String _ rest => ends_with_LF rest
  end.

(** The text with a final line feed added when a last line lacks it. *)
Definition with_final_LF (content : string) : string :=
  if is_empty content || ends_with_LF content then content
  else content +:+ endl.

(** No line holds a line feed: the test used to say so. *)
Fixpoint has_LF (s : string) : bool :=
  match s with
  | EmptyString => false
  | String c rest => Ascii.eqb c LF || has_LF rest
  end.

(** A carriage return directly followed by a line feed somewhere. *)
Fixpoint has_CRLF (s : string) : bool :=
  match s with
  | EmptyString => false
  | String c rest =>
      match rest with
      | String d _ => (Ascii.eqb c CR && Ascii.eqb d LF) || has_CRLF rest
      | EmptyString => false
      end
  end.

(** A text of one line that ends in carriage return and line feed. *)
Definition crlf_text : string := String "a" (String CR (String LF EmptyString)).

End Text.

(** ** Constants of the GLFW and GL headers

    [GLFW/glfw3.h] and [glad/gl.h] are not part of the repository; the
    values are those of the public headers. *)

Module GLFW.
Definition GLFW_RELEASE : Z := 0.
Definition GLFW_PRESS : Z := 1.
Definition GLFW_REPEAT : Z := 2.
Definition GLFW_KEY_Q : Z := 81.
Definition GLFW_KEY_W : Z := 87.
Definition GLFW_KEY_F4 : Z := 293.
Definition GLFW_KEY_UP : Z := 265.
Definition GLFW_MOD_SHIFT : Z := 1.
Definition GLFW_MOD_CONTROL : Z := 2.
Definition GLFW_MOD_ALT : Z := 4.
Definition GLFW_DECORATED : Z := 0x00020005.
Definition GLFW_CONTEXT_VERSION_MAJOR : Z := 0x00022002.
Definition GLFW_CONTEXT_VERSION_MINOR : Z := 0x00022003.
Definition GLFW_OPENGL_FORWARD_COMPAT : Z := 0x00022006.
Definition GLFW_OPENGL_DEBUG_CONTEXT : Z := 0x00022007.
Definition GLFW_OPENGL_PROFILE : Z := 0x00022008.
Definition GLFW_OPENGL_CORE_PROFILE : Z := 0x00032001.
End GLFW.

Module GL.
Definition GL_TRUE : Z := 1.
Definition GL_TRIANGLES : Z := 0x0004.
Definition GL_COLOR_BUFFER_BIT : Z := 0x00004000.
Definition GL_VERSION : Z := 0x1F02.
Definition GL_DEBUG_OUTPUT_SYNCHRONOUS_ARB : Z := 0x8242.
Definition GL_FRAGMENT_SHADER : Z := 0x8B30.
Definition GL_VERTEX_SHADER : Z := 0x8B31.
Definition GL_LINK_STATUS : Z := 0x8B82.
Definition GL_INFO_LOG_LENGTH : Z := 0x8B84.
End GL.

Definition EXIT_SUCCESS : Z := 0.
Definition EXIT_FAILURE : Z := 1.

Export Text GLFW GL.

(** ** The library calls the program issues

    One constructor per GLFW, glad or GL function called anywhere in
    [main.cxx], with the arguments the program passes.  [GLuint] names and
    the [GLFWwindow*] are [N] ([0] is the null pointer and the GL name of
    no object), [int], [GLint], [GLsizei] and [GLenum] values are [Z], the
    four [float] arguments of [glClearColor] are rationals. *)
Inductive Call :=
| glfwInit_
| glfwSetErrorCallback_
| glfwWindowHint_ (hint value : Z)
| glfwCreateWindow_ (width height : Z) (title : string) (monitor share : N)
| glfwTerminate_
| glfwMakeContextCurrent_ (window : N)
| gladLoadGL_
| glEnable_ (cap : Z)
| glDebugMessageCallbackARB_
| glGetString_ (name : Z)
| glfwSwapInterval_ (interval : Z)
| glfwSetKeyCallback_ (window : N)
| glCreateShader_ (type : Z)
| glShaderSource_ (shader : N) (count : Z) (source : string)
| glCompileShader_ (shader : N)
| glCreateProgram_
| glAttachShader_ (program shader : N)
| glLinkProgram_ (program : N)
| glGetProgramiv_ (program : N) (pname : Z)
| glGetProgramInfoLog_ (program : N) (bufSize : Z)
| glGetShaderiv_ (shader : N) (pname : Z)
| glGetShaderInfoLog_ (shader : N) (bufSize : Z)
| glDetachShader_ (program shader : N)
| glDeleteShader_ (shader : N)
| glGenVertexArrays_ (n : Z)
| glBindVertexArray_ (array : N)
| glfwWindowShouldClose_ (window : N)
| glfwGetFramebufferSize_ (window : N)
| glViewport_ (x y width height : Z)
| glClearColor_ (red green blue alpha : Q)
| glClear_ (mask : Z)
| glUseProgram_ (program : N)
| glDrawArrays_ (mode first count : Z)
| glfwSwapBuffers_ (window : N)
| glfwPollEvents_
| glfwSetWindowShouldClose_ (window : N) (value : bool)
| glfwDestroyWindow_ (window : N)
| glDeleteVertexArrays_ (n : Z) (array : N).

(** The calls into GL (the [gl*] functions, and the glad loader that
    resolves them), as opposed to the calls into GLFW. *)
Definition is_gl_call (c : Call) : bool :=
  match c with
  | gladLoadGL_ | glEnable_ _ | glDebugMessageCallbackARB_ | glGetString_ _
  | glCreateShader_ _ | glShaderSource_ _ _ _ | glCompileShader_ _
  | glCreateProgram_ | glAttachShader_ _ _ | glLinkProgram_ _
  | glGetProgramiv_ _ _ | glGetProgramInfoLog_ _ _ | glGetShaderiv_ _ _
  | glGetShaderInfoLog_ _ _ | glDetachShader_ _ _ | glDeleteShader_ _
  | glGenVertexArrays_ _ | glBindVertexArray_ _ | glViewport_ _ _ _ _
  | glClearColor_ _ _ _ _ | glClear_ _ | glUseProgram_ _
  | glDrawArrays_ _ _ _ | glDeleteVertexArrays_ _ _ => true
  | _ => false
  end.

Definition is_draw_call (c : Call) : bool :=
  match c with glDrawArrays_ _ _ _ => true | _ => false end.

(** The calls that retrieve diagnostic text of a failed build. *)
Definition is_info_log_call (c : Call) : bool :=
  match c with
  | glGetProgramInfoLog_ _ _ | glGetShaderInfoLog_ _ _ => true
  | _ => false
  end.

(** The two teardown calls on the window and on the windowing library. *)
Definition is_teardown_call (c : Call) : bool :=
  match c with
  | glfwDestroyWindow_ _ | glfwTerminate_ => true
  | _ => false
  end.

(** The handles of [ProgramData], told apart by their name space. *)
Inductive Handle :=
| ProgramHandle (program : N)
| VertexArrayHandle (array : N).

Global Instance Handle_eq_dec : EqDecision Handle.
Proof. solve_decision. Defined.

(** The handle a call asks GL to release, if it names one.  The source
    calls no [glDeleteProgram], so no call names a program handle. *)
Definition released_by (c : Call) : option Handle :=
  match c with
  | glDeleteVertexArrays_ _ array => Some (VertexArrayHandle array)
  | _ => None
  end.

(** The handle a call needs to be valid. *)
Definition used_by (c : Call) : option Handle :=
  match c with
  | glUseProgram_ program => Some (ProgramHandle program)
  | glBindVertexArray_ array => Some (VertexArrayHandle array)
  | _ => None
  end.

(** How many calls of a sequence satisfy a test. *)
Definition count_calls (test : Call → bool) (cs : list Call) : nat :=
  List.length (List.filter test cs).

(** ** The state the program runs in *)

(** Shader and program objects share one GL name space.  A shader object
    keeps its stage, its source, whether the last compilation succeeded
    and whether [glDeleteShader] found it attached (it is then deleted
    when the last program detaches it); a program object keeps the shaders
    attached and the result of the last link.  Both keep their information
    log. *)
Inductive GLObject :=
| ShaderObject (type : Z) (source : string) (compiled flagged : bool)
    (log : string)
| ProgramObject (attached : list N) (linked : bool) (log : string).

Record World := mkWorld {
  should_close : bool;            (* the close flag of the window *)
  key_callback : option N;        (* the window [keyCallback] is installed on *)
  error_callback : bool;          (* [errorCallbackGLFW] is installed *)
  objects : gmap N GLObject;      (* live shader and program objects *)
  vertex_arrays : gset N;         (* vertex array names in use *)
  cout : string;                  (* text written to [std::cout] *)
  cerr : string;                  (* text written to [std::cerr] *)
  calls : list Call;              (* the library calls so far, in order *)
  polls : nat                     (* how often events were polled *)
}.

Definition initial_world : World :=
  mkWorld false None false ∅ ∅ EmptyString EmptyString [] 0.

Definition log_call (c : Call) (w : World) : World :=
  mkWorld (should_close w) (key_callback w) (error_callback w) (objects w)
          (vertex_arrays w) (cout w) (cerr w) (calls w ++ [c]) (polls w).

Definition set_should_close (b : bool) (w : World) : World :=
  mkWorld b (key_callback w) (error_callback w) (objects w)
          (vertex_arrays w) (cout w) (cerr w) (calls w) (polls w).

Definition set_key_callback (b : option N) (w : World) : World :=
  mkWorld (should_close w) b (error_callback w) (objects w)
          (vertex_arrays w) (cout w) (cerr w) (calls w) (polls w).

Definition set_error_callback (b : bool) (w : World) : World :=
  mkWorld (should_close w) (key_callback w) b (objects w)
          (vertex_arrays w) (cout w) (cerr w) (calls w) (polls w).

Definition set_objects (m : gmap N GLObject) (w : World) : World :=
  mkWorld (should_close w) (key_callback w) (error_callback w) m
          (vertex_arrays w) (cout w) (cerr w) (calls w) (polls w).

Definition set_vertex_arrays (s : gset N) (w : World) : World :=
  mkWorld (should_close w) (key_callback w) (error_callback w) (objects w)
          s (cout w) (cerr w) (calls w) (polls w).

Definition write_cout (text : string) (w : World) : World :=
  mkWorld (should_close w) (key_callback w) (error_callback w) (objects w)
          (vertex_arrays w) (cout w +:+ text) (cerr w) (calls w) (polls w).

Definition write_cerr (text : string) (w : World) : World :=
  mkWorld (should_close w) (key_callback w) (error_callback w) (objects w)
          (vertex_arrays w) (cout w) (cerr w +:+ text) (calls w) (polls w).

Definition count_poll (w : World) : World :=
  mkWorld (should_close w) (key_callback w) (error_callback w) (objects w)
          (vertex_arrays w) (cout w) (cerr w) (calls w) (S (polls w)).

(** The three actions GLFW reports for a key. *)
Inductive KeyAction := Release | Press | Repeat.

Definition action_code (a : KeyAction) : Z :=
  match a with
  | Release => GLFW_RELEASE
  | Press => GLFW_PRESS
  | Repeat => GLFW_REPEAT
  end.

(** What a poll can deliver: a key event, the request of the window
    system to close the window, or an event the program installs no
    handler for. *)
Inductive Event :=
| KeyEvent (key scancode : Z) (action : KeyAction) (mods : Z)
| CloseRequest
| OtherEvent.

(** What the build and the surroundings of a run decide. *)
Record Env := mkEnv {
  DEBUG : bool;                   (* the macro [DEBUG] is defined *)
  APPLE : bool;                   (* the macro [__APPLE__] is defined *)
  cplusplus : string;             (* [STRING(__cplusplus)] *)
  files : gmap string string;     (* the files that can be read *)
  glfwInit_succeeds : bool;
  created_window : N;             (* what [glfwCreateWindow] returns *)
  glfw_error : string;            (* how GLFW describes its failure *)
  ARB_debug_output : bool;        (* [GLAD_GL_ARB_debug_output] *)
  gl_version : string;            (* [glGetString(GL_VERSION)] *)
  compiles : Z → string → bool;   (* compile status, by stage and source *)
  (* link status and logs, from the stage and source of each shader *)
  links : list (Z * string) → bool;
  program_log : list (Z * string) → string;
  shader_log : Z → string → string;
  framebuffer_size : nat → Z * Z; (* at the n-th frame *)
  events : nat → list Event       (* delivered by the n-th poll *)
}.

(** ** Computations: state, [throw], [std::exit], and a loop bound *)

Inductive Outcome (A : Type) :=
| Returned (a : A) (w : World)
| Thrown (what : string) (w : World)    (* a [std::runtime_error] in flight *)
| Exited (status : Z) (w : World)       (* [std::exit] was called *)
| OutOfFuel (w : World).                (* the frame loop is still running *)
Arguments Returned {A} a w.
Arguments Thrown {A} what w.
Arguments Exited {A} status w.
Arguments OutOfFuel {A} w.

Definition M (A : Type) : Type := World → Outcome A.

Global Instance M_ret : MRet M := λ A a w, Returned a w.

Global Instance M_bind : MBind M := λ A B k m w,
  match m w with
  | Returned a w' => k a w'
  | Thrown what w' => Thrown what w'
  | Exited status w' => Exited status w'
  | OutOfFuel w' => OutOfFuel w'
  end.

Definition call (c : Call) : M unit := λ w, Returned () (log_call c w).
Definition modify (f : World → World) : M unit := λ w, Returned () (f w).
Definition gets {A} (f : World → A) : M A := λ w, Returned (f w) w.
Definition throw {A} (what : string) : M A := λ w, Thrown what w.
Definition std_exit {A} (status : Z) : M A := λ w, Exited status w.
Definition out_of_fuel {A} : M A := λ w, OutOfFuel w.
Definition when (b : bool) (m : M unit) : M unit := if b then m else mret ().

(** The state an outcome ends in. *)
Definition final_world {A} (o : Outcome A) : World :=
  match o with
  | Returned _ w | Thrown _ w | Exited _ w | OutOfFuel w => w
  end.

(** The macros [DEBUG_LOG_LINE] and [DEBUG_ERROR_LINE]: empty unless
    [DEBUG] is defined. *)
Definition DEBUG_LOG_LINE (env : Env) (s : string) : M unit :=
  when (DEBUG env) (modify (write_cout (s +:+ endl))).

Definition DEBUG_ERROR_LINE (env : Env) (s : string) : M unit :=
  when (DEBUG env) (modify (write_cerr (s +:+ endl))).

(** ** The GL and GLFW functions, as far as the program depends on them *)

(** [int] to [bool], as in [if (status)]. *)
Definition nonzero (z : Z) : bool := negb (z =? 0).

(** [std::string::c_str] read as a NUL-terminated string: the characters
    before the first NUL. *)
Fixpoint c_str (s : string) : string :=
  match s with
  | EmptyString => EmptyString
  | String c rest => if Ascii.eqb c NUL then EmptyString else String c (c_str rest)
  end.

(** A name that is neither [0] nor in use. *)
Definition new_name (used : gset N) : N := fresh ({[0%N]} ∪ used).

Definition has_attached (shader : N) (o : GLObject) : bool :=
  match o with
  | ProgramObject attached _ _ => bool_decide (shader ∈ attached)
  | ShaderObject _ _ _ _ _ => false
  end.

Definition attached_somewhere (m : gmap N GLObject) (shader : N) : bool :=
  bool_decide (map_Exists (λ _ o, has_attached shader o = true) m).

(** The stage and the source of each shader attached to a program. *)
Definition stages (m : gmap N GLObject) (attached : list N) : list (Z * string) :=
  omap (λ shader, match m !! shader with
                  | Some (ShaderObject type source _ _ _) => Some (type, source)
                  | _ => None
                  end) attached.

(** Every shader attached to a program was compiled successfully. *)
Definition all_compiled (m : gmap N GLObject) (attached : list N) : bool :=
  forallb (λ shader, match m !! shader with
                     | Some (ShaderObject _ _ compiled _ _) => compiled
                     | _ => false
                     end) attached.

(** The value of [GL_INFO_LOG_LENGTH]: the terminating NUL counts, and an
    empty log has length [0]. *)
Definition info_log_length (log : string) : Z :=
  if is_empty log then 0 else Z.of_nat (String.length log) + 1.

(** A [std::string] resized to [size] (filled with NUL) after
    [glGet*InfoLog] wrote at most [size - 1] characters and a NUL to it. *)
Fixpoint fill_buffer (size : nat) (log : string) : string :=
  match size with
  | O => EmptyString
  | S size' =>
      match size', log with
      | S _, String c rest => String c (fill_buffer size' rest)
      | _, _ => String NUL (fill_buffer size' EmptyString)
      end
  end.

Definition update_objects (f : gmap N GLObject → gmap N GLObject) : M unit :=
  modify (λ w, set_objects (f (objects w)) w).

Definition glCreateShader (type : Z) : M N :=
  call (glCreateShader_ type);;
  shader ← gets (λ w, new_name (dom (objects w)));
  update_objects
    (insert shader (ShaderObject type EmptyString false false EmptyString));;
  mret shader.

Definition glShaderSource (shader : N) (count : Z) (source : string) : M unit :=
  call (glShaderSource_ shader count source);;
  update_objects (alter (λ o, match o with
                              | ShaderObject type _ compiled flagged log =>
                                  ShaderObject type source compiled flagged log
                              | _ => o
                              end) shader).

Definition glCompileShader (env : Env) (shader : N) : M unit :=
  call (glCompileShader_ shader);;
  update_objects (alter (λ o, match o with
                              | ShaderObject type source _ flagged _ =>
                                  ShaderObject type source
                                    (compiles env type source) flagged
                                    (shader_log env type source)
                              | _ => o
                              end) shader).

Definition glCreateProgram : M N :=
  call glCreateProgram_;;
  program ← gets (λ w, new_name (dom (objects w)));
  update_objects (insert program (ProgramObject [] false EmptyString));;
  mret program.

Definition glAttachShader (program shader : N) : M unit :=
  call (glAttachShader_ program shader);;
  update_objects (alter (λ o, match o with
                              | ProgramObject attached linked log =>
                                  ProgramObject (attached ++ [shader]) linked log
                              | _ => o
                              end) program).

(** [glLinkProgram]: the link fails when a shader attached was not
    compiled successfully; what else decides it is left to [links]. *)
Definition glLinkProgram (env : Env) (program : N) : M unit :=
  call (glLinkProgram_ program);;
  update_objects (λ m, alter (λ o, match o with
                                   | ProgramObject attached _ _ =>
                                       ProgramObject attached
                                         (all_compiled m attached &&
                                          links env (stages m attached))
                                         (program_log env (stages m attached))
                                   | _ => o
                                   end) program m).

Definition glGetProgramiv (program : N) (pname : Z) : M Z :=
  call (glGetProgramiv_ program pname);;
  o ← gets (λ w, objects w !! program);
  mret (match o with
        | Some (ProgramObject _ linked log) =>
            if pname =? GL_LINK_STATUS then (if linked then GL_TRUE else 0)
            else if pname =? GL_INFO_LOG_LENGTH then info_log_length log
            else 0
        | _ => 0
        end).

Definition glGetProgramInfoLog (program : N) (bufSize : Z) : M string :=
  call (glGetProgramInfoLog_ program bufSize);;
  o ← gets (λ w, objects w !! program);
  mret (match o with
        | Some (ProgramObject _ _ log) => fill_buffer (Z.to_nat bufSize) log
        | _ => fill_buffer (Z.to_nat bufSize) EmptyString
        end).

Definition glGetShaderiv (shader : N) (pname : Z) : M Z :=
  call (glGetShaderiv_ shader pname);;
  o ← gets (λ w, objects w !! shader);
  mret (match o with
        | Some (ShaderObject _ _ _ _ log) =>
            if pname =? GL_INFO_LOG_LENGTH then info_log_length log else 0
        | _ => 0
        end).

Definition glGetShaderInfoLog (shader : N) (bufSize : Z) : M string :=
  call (glGetShaderInfoLog_ shader bufSize);;
  o ← gets (λ w, objects w !! shader);
  mret (match o with
        | Some (ShaderObject _ _ _ _ log) => fill_buffer (Z.to_nat bufSize) log
        | _ => fill_buffer (Z.to_nat bufSize) EmptyString
        end).

(** A shader flagged for deletion goes when nothing has it attached. *)
Definition collect (shader : N) (m : gmap N GLObject) : gmap N GLObject :=
  match m !! shader with
  | Some (ShaderObject _ _ _ true _) =>
      if attached_somewhere m shader then m else delete shader m
  | _ => m
  end.

Definition remove_one (shader : N) (attached : list N) : list N :=
  List.remove N.eq_dec shader attached.

Definition glDetachShader (program shader : N) : M unit :=
  call (glDetachShader_ program shader);;
  update_objects (λ m,
    collect shader
      (alter (λ o, match o with
                   | ProgramObject attached linked log =>
                       ProgramObject (remove_one shader attached) linked log
                   | _ => o
                   end) program m)).

(** [glDeleteShader] flags the shader for deletion. *)
Definition flag_for_deletion (o : GLObject) : GLObject :=
  match o with
  | ShaderObject type source compiled _ log =>
      ShaderObject type source compiled true log
  | _ => o
  end.

Definition glDeleteShader (shader : N) : M unit :=
  call (glDeleteShader_ shader);;
  update_objects (λ m, collect shader (alter flag_for_deletion shader m)).

Definition glGenVertexArrays (n : Z) : M N :=
  call (glGenVertexArrays_ n);;
  array ← gets (λ w, new_name (vertex_arrays w));
  modify (λ w, set_vertex_arrays ({[array]} ∪ vertex_arrays w) w);;
  mret array.

Definition glDeleteVertexArrays (n : Z) (array : N) : M unit :=
  call (glDeleteVertexArrays_ n array);;
  modify (λ w, set_vertex_arrays (vertex_arrays w ∖ {[array]}) w).

Definition glfwInit (env : Env) : M bool :=
  call glfwInit_;; mret (glfwInit_succeeds env).

Definition glfwSetWindowShouldClose (window : N) (value : bool) : M unit :=
  call (glfwSetWindowShouldClose_ window value);;
  modify (set_should_close value).

Definition glfwWindowShouldClose (window : N) : M bool :=
  call (glfwWindowShouldClose_ window);; gets should_close.

Definition glfwGetFramebufferSize (env : Env) (window : N) : M (Z * Z) :=
  call (glfwGetFramebufferSize_ window);;
  gets (λ w, framebuffer_size env (polls w)).

(** [glfwDestroyWindow] destroys the window and its context.  The window
    was created with no context to share objects with (the [share] of
    [glfwCreateWindow] is the null pointer), so the GL objects of the
    context are destroyed with it; and no callback of the window is
    called any more. *)
Definition glfwDestroyWindow (window : N) : M unit :=
  call (glfwDestroyWindow_ window);;
  modify (λ w, set_key_callback None
                 (set_vertex_arrays ∅ (set_objects ∅ w))).

(** ** The functions of [main.cxx] *)

(** [errorCallbackGLFW], compiled only when [DEBUG] is defined. *)
Definition errorCallbackGLFW (env : Env) (description : string) : M unit :=
  DEBUG_ERROR_LINE env ("GLFW error: " +:+ description).

(** [glfwCreateWindow]: on failure GLFW reports its error to the error
    callback, when one is installed, and returns the null pointer. *)
Definition glfwCreateWindow (env : Env) (width height : Z) (title : string)
    (monitor share : N) : M N :=
  call (glfwCreateWindow_ width height title monitor share);;
  (if (created_window env =? 0)%N
   then installed ← gets error_callback;
        when installed (errorCallbackGLFW env (glfw_error env))
   else mret ());;
  mret (created_window env).

(** [void keyCallback(GLFWwindow*, int key, int, int action, int mods)]. *)
Definition keyCallback (window : N) (key scancode action mods : Z) : M unit :=
  let keyUp := Z.land action GLFW_KEY_UP in
  let keyQ := key =? GLFW_KEY_Q in
  let keyW := key =? GLFW_KEY_W in
  let keyF4 := key =? GLFW_KEY_F4 in
  let keyCtrl := Z.land mods GLFW_MOD_CONTROL in
  let keyAlt := Z.land mods GLFW_MOD_ALT in
  if nonzero keyUp &&
     ((nonzero keyCtrl && (keyQ || keyW)) || (nonzero keyAlt && keyF4))
  then glfwSetWindowShouldClose window true
  else mret ().

(** What GLFW does with one event of a poll: a key event goes to the key
    callback of the window, the close request of the window system sets
    the close flag (the program installs no close callback). *)
Definition deliver (ev : Event) : M unit :=
  match ev with
  | KeyEvent key scancode action mods =>
      installed ← gets key_callback;
      match installed with
      | Some window => keyCallback window key scancode (action_code action) mods
      | None => mret ()
      end
  | CloseRequest => modify (set_should_close true)
  | OtherEvent => mret ()
  end.

Fixpoint deliver_all (evs : list Event) : M unit :=
  match evs with
  | [] => mret ()
  | ev :: evs => deliver ev;; deliver_all evs
  end.

Definition glfwPollEvents (env : Env) : M unit :=
  call glfwPollEvents_;;
  n ← gets polls;
  modify count_poll;;
  deliver_all (events env n).

(** [GLFWwindow* initializeWindow()]. *)
Definition initializeWindow (env : Env) : M N :=
  ok ← glfwInit env;
  if negb ok then
    DEBUG_ERROR_LINE env "GLFW error: Initialization failed";;
    mret 0%N
  else
    when (DEBUG env)
      (call glfwSetErrorCallback_;; modify (set_error_callback true));;
    let windowWidth := 640 in
    let windowHeight := 480 in
    let windowTitle := "3D Flying Camera Test" in
    let windowMonitor := 0%N in
    let windowShare := 0%N in
    let windowGLMajor := 3 in
    let windowGLMinor := 3 in
    call (glfwWindowHint_ GLFW_CONTEXT_VERSION_MAJOR windowGLMajor);;
    call (glfwWindowHint_ GLFW_CONTEXT_VERSION_MINOR windowGLMinor);;
    call (glfwWindowHint_ GLFW_OPENGL_PROFILE GLFW_OPENGL_CORE_PROFILE);;
    call (glfwWindowHint_ GLFW_DECORATED 1);;
    when (DEBUG env) (call (glfwWindowHint_ GLFW_OPENGL_DEBUG_CONTEXT 1));;
    when (APPLE env) (call (glfwWindowHint_ GLFW_OPENGL_FORWARD_COMPAT GL_TRUE));;
    window ← glfwCreateWindow env windowWidth windowHeight windowTitle
                windowMonitor windowShare;
    if (window =? 0)%N then
      call glfwTerminate_;;
      mret 0%N
    else
      call (glfwMakeContextCurrent_ window);;
      call gladLoadGL_;;
      when (DEBUG env)
        (if ARB_debug_output env then
           DEBUG_LOG_LINE env "GL extension GL_ARB_debug_output available";;
           call (glEnable_ GL_DEBUG_OUTPUT_SYNCHRONOUS_ARB);;
           call glDebugMessageCallbackARB_
         else
           DEBUG_LOG_LINE env "GL extension GL_ARB_debug_output unavailable");;
      DEBUG_LOG_LINE env ("C++ version: " +:+ cplusplus env);;
      when (DEBUG env)
        (call (glGetString_ GL_VERSION);;
         DEBUG_LOG_LINE env ("OpenGL version: " +:+ gl_version env));;
      call (glfwSwapInterval_ 1);;
      call (glfwSetKeyCallback_ window);;
      modify (set_key_callback (Some window));;
      mret window.

(** [GLuint createShader(GLenum type, const std::string& source)]. *)
Definition createShader (env : Env) (type : Z) (source : string) : M N :=
  shader ← glCreateShader type;
  glShaderSource shader 1 (c_str source);;
  glCompileShader env shader;;
  mret shader.

(** The retrieval of the information log of a shader, inside the
    [#ifdef DEBUG] block of [createProgram]. *)
Definition report_shader_log (env : Env) (shader : N) (label : string) : M unit :=
  logLength ← glGetShaderiv shader GL_INFO_LOG_LENGTH;
  if 0 <? logLength then
    log ← glGetShaderInfoLog shader logLength;
    DEBUG_ERROR_LINE env (label +:+ log)
  else mret ().

(** The body of [if (!status)] inside the [#ifdef DEBUG] block of
    [createProgram]. *)
Definition report_build_failure (env : Env)
    (program vertexShader fragmentShader : N) : M unit :=
  programLogLength ← glGetProgramiv program GL_INFO_LOG_LENGTH;
  programLog ← glGetProgramInfoLog program programLogLength;
  DEBUG_ERROR_LINE env ("GL program error: " +:+ programLog);;
  report_shader_log env vertexShader "GL vertex shader error: ";;
  report_shader_log env fragmentShader "GL fragment shader error: ".

(** [GLuint createProgram(const std::string&, const std::string&)]. *)
Definition createProgram (env : Env) (vertexSource fragmentSource : string) : M N :=
  vertexShader ← createShader env GL_VERTEX_SHADER vertexSource;
  fragmentShader ← createShader env GL_FRAGMENT_SHADER fragmentSource;
  program ← glCreateProgram;
  glAttachShader program vertexShader;;
  glAttachShader program fragmentShader;;
  glLinkProgram env program;;
  status ← glGetProgramiv program GL_LINK_STATUS;
  when (DEBUG env && negb (nonzero status))
    (report_build_failure env program vertexShader fragmentShader);;
  glDetachShader program vertexShader;;
  glDetachShader program fragmentShader;;
  glDeleteShader vertexShader;;
  glDeleteShader fragmentShader;;
  if negb (nonzero status) then throw "Error creating GL program"
  else mret program.

(** [struct ProgramData]. *)
Record ProgramData := mkProgramData {
  program : N;
  vao : N;
  vertexCount : Z
}.

(** [ProgramData initializeGL()]. *)
Definition initializeGL (env : Env) : M ProgramData :=
  let vertexSource := readFile (files env) "shaders/main.vert" in
  let fragmentSource := readFile (files env) "shaders/main.frag" in
  program ← createProgram env vertexSource fragmentSource;
  vao ← glGenVertexArrays 1;
  call (glBindVertexArray_ vao);;
  call (glBindVertexArray_ 0%N);;
  mret (mkProgramData program vao 3).

(** The body of the [while] of [mainLoop]: one frame. *)
Definition frame (env : Env) (window : N) (programData : ProgramData) : M unit :=
  '(width, height) ← glfwGetFramebufferSize env window;
  call (glViewport_ 0 0 width height);;
  call (glClearColor_ 0%Q (1 # 2)%Q 1%Q 1%Q);;
  call (glClear_ GL_COLOR_BUFFER_BIT);;
  call (glUseProgram_ (program programData));;
  call (glBindVertexArray_ (vao programData));;
  call (glDrawArrays_ GL_TRIANGLES 0 (vertexCount programData));;
  call (glfwSwapBuffers_ window);;
  glfwPollEvents env.

(** [void mainLoop(GLFWwindow*, const ProgramData&)]; [fuel] bounds the
    number of times the condition of the [while] is evaluated. *)
Fixpoint mainLoop (fuel : nat) (env : Env) (window : N)
    (programData : ProgramData) : M unit :=
  match fuel with
  | O => out_of_fuel
  | S fuel =>
      close ← glfwWindowShouldClose window;
      if negb close then
        frame env window programData;;
        mainLoop fuel env window programData
      else mret ()
  end.

(** [void cleanUp(GLFWwindow*, ProgramData&)]. The window goes first,
    and its context with it: [glDeleteVertexArrays] is called when no
    context is current and the vertex array is gone already. GL does not
    say what such a call does; here it finds nothing to delete and has no
    effect. *)
Definition cleanUp (window : N) (programData : ProgramData) : M unit :=
  glfwDestroyWindow window;;
  glDeleteVertexArrays 1 (vao programData);;
  call glfwTerminate_.

(** [int main(int, char **argv)], whose arguments are not used. *)
Definition main (fuel : nat) (env : Env) : M Z :=
  window ← initializeWindow env;
  if (window =? 0)%N then std_exit EXIT_FAILURE
  else
    programData ← initializeGL env;
    mainLoop fuel env window programData;;
    cleanUp window programData;;
    mret 0.

(** How the process ends. An exception that leaves [main] is caught by
    nobody: [std::terminate] aborts the process. *)
Inductive Termination :=
| ExitStatus (status : Z)
| Aborted (what : string)
| StillRunning.

Definition termination (o : Outcome Z) : Termination :=
  match o with
  | Returned status _ => ExitStatus status
  | Exited status _ => ExitStatus status
  | Thrown what _ => Aborted what
  | OutOfFuel _ => StillRunning
  end.

(** The process, started in the initial state. *)
Definition run (fuel : nat) (env : Env) : Outcome Z :=
  main fuel env initial_world.

(** ** Notions of the specification *)

(** The quit chords as the specification names them: control with Q or
    with W, alt with F4, a modifier being part of the chord when its bit
    is set in [mods] (other modifiers may be held as well). *)
Definition control_held (mods : Z) : bool := Z.testbit mods 1.
Definition alt_held (mods : Z) : bool := Z.testbit mods 2.

Definition quit_chord (key mods : Z) : bool :=
  (control_held mods && ((key =? GLFW_KEY_Q) || (key =? GLFW_KEY_W)))
  || (alt_held mods && (key =? GLFW_KEY_F4)).

(** A key event that is the press of a quit chord. *)
Definition quit_chord_pressed (key : Z) (action : KeyAction) (mods : Z) : bool :=
  match action with
  | Press => quit_chord key mods
  | Release | Repeat => false
  end.

(** The calls of one frame, in order, up to and including the poll: the
    size is the one [glfwGetFramebufferSize] answered in that frame. *)
Definition frame_calls (window : N) (size : Z * Z) (programData : ProgramData)
    : list Call :=
  [ glfwGetFramebufferSize_ window;
    glViewport_ 0 0 (fst size) (snd size);
    glClearColor_ 0%Q (1 # 2)%Q 1%Q 1%Q;
    glClear_ GL_COLOR_BUFFER_BIT;
    glUseProgram_ (program programData);
    glBindVertexArray_ (vao programData);
    glDrawArrays_ GL_TRIANGLES 0 (vertexCount programData);
    glfwSwapBuffers_ window;
    glfwPollEvents_ ].

(** The only call a handler of the program makes during a poll. *)
Definition is_close_request (c : Call) : bool :=
  match c with glfwSetWindowShouldClose_ _ true => true | _ => false end.

(** An event that asks for the window to be closed: the close request,
    or the press of a quit chord when [keyCallback] is installed. *)
Definition closes_window (installed : option N) (ev : Event) : Prop :=
  match ev with
  | KeyEvent key _ action mods =>
      is_Some installed ∧ quit_chord_pressed key action mods = true
  | CloseRequest => True
  | OtherEvent => False
  end.

(** What the delivery of events may change: the close flag, which it can
    set and never clears, and the log, which gains close requests only. *)
Definition handlers_ran (w w' : World) : Prop :=
  key_callback w' = key_callback w ∧
  error_callback w' = error_callback w ∧
  objects w' = objects w ∧
  vertex_arrays w' = vertex_arrays w ∧
  cout w' = cout w ∧
  cerr w' = cerr w ∧
  polls w' = polls w ∧
  (should_close w = true → should_close w' = true) ∧
  ∃ cs, calls w' = calls w ++ cs ∧ Forall (λ c, is_close_request c = true) cs.

(** A state of the GL objects in which what is attached to a program is
    a live object: an object that does not exist is attached nowhere. *)
Definition attachments_live (m : gmap N GLObject) : Prop :=
  ∀ name attached linked log shader,
    m !! name = Some (ProgramObject attached linked log) →
    shader ∈ attached → shader ∈ dom m.

(** ** What a build does, spelled out *)

(** The shader object [createShader] makes. *)
Definition compiled_shader (env : Env) (type : Z) (source : string) : GLObject :=
  ShaderObject type (c_str source) (compiles env type (c_str source)) false
    (shader_log env type (c_str source)).

(** The stages [createProgram] hands to the link. *)
Definition build_stages (vertexSource fragmentSource : string) : list (Z * string) :=
  [(GL_VERTEX_SHADER, c_str vertexSource);
   (GL_FRAGMENT_SHADER, c_str fragmentSource)].

(** The link status [createProgram] reads back: both shaders compiled and
    the link itself succeeded. *)
Definition link_succeeds (env : Env) (vertexSource fragmentSource : string) : bool :=
  compiles env GL_VERTEX_SHADER (c_str vertexSource) &&
  compiles env GL_FRAGMENT_SHADER (c_str fragmentSource) &&
  links env (build_stages vertexSource fragmentSource).

(** The calls of the [#ifdef DEBUG] block of [createProgram] for one
    shader, and for the whole block. *)
Definition shader_diagnostics (env : Env) (shader : N) (type : Z)
    (source : string) : list Call :=
  let logLength := info_log_length (shader_log env type (c_str source)) in
  glGetShaderiv_ shader GL_INFO_LOG_LENGTH
  :: (if 0 <? logLength then [glGetShaderInfoLog_ shader logLength] else []).

Definition diagnostics (env : Env) (vs fs p : N)
    (vertexSource fragmentSource : string) : list Call :=
  if DEBUG env && negb (link_succeeds env vertexSource fragmentSource) then
    [ glGetProgramiv_ p GL_INFO_LOG_LENGTH;
      glGetProgramInfoLog_ p
        (info_log_length
           (program_log env (build_stages vertexSource fragmentSource))) ]
    ++ shader_diagnostics env vs GL_VERTEX_SHADER vertexSource
    ++ shader_diagnostics env fs GL_FRAGMENT_SHADER fragmentSource
  else [].

(** All calls of [createProgram], for the names GL gives to the vertex
    shader, the fragment shader and the program. *)
Definition build_calls (env : Env) (vs fs p : N)
    (vertexSource fragmentSource : string) : list Call :=
  [ glCreateShader_ GL_VERTEX_SHADER;
    glShaderSource_ vs 1 (c_str vertexSource);
    glCompileShader_ vs;
    glCreateShader_ GL_FRAGMENT_SHADER;
    glShaderSource_ fs 1 (c_str fragmentSource);
    glCompileShader_ fs;
    glCreateProgram_;
    glAttachShader_ p vs;
    glAttachShader_ p fs;
    glLinkProgram_ p;
    glGetProgramiv_ p GL_LINK_STATUS ]
  ++ diagnostics env vs fs p vertexSource fragmentSource
  ++ [ glDetachShader_ p vs;
       glDetachShader_ p fs;
       glDeleteShader_ vs;
       glDeleteShader_ fs ].

(** A step that only writes to the call log and to [std::cerr]. *)
Definition only_reports (w w' : World) : Prop :=
  should_close w' = should_close w ∧
  key_callback w' = key_callback w ∧
  error_callback w' = error_callback w ∧
  objects w' = objects w ∧
  vertex_arrays w' = vertex_arrays w ∧
  cout w' = cout w ∧
  polls w' = polls w.

(** The two sources [initializeGL] reads. *)
Definition vertex_source (env : Env) : string :=
  readFile (files env) "shaders/main.vert".

Definition fragment_source (env : Env) : string :=
  readFile (files env) "shaders/main.frag".

(** The build of [initializeGL] succeeds. *)
Definition build_succeeds (env : Env) : bool :=
  link_succeeds env (vertex_source env) (fragment_source env).

(** The calls that set a window up: none tears anything down, releases or
    uses a handle of [ProgramData], or retrieves an information log. *)
Definition harmless (c : Call) : Prop :=
  is_teardown_call c = false ∧ released_by c = None ∧ used_by c = None ∧
  is_info_log_call c = false ∧ is_draw_call c = false.

(** A call that neither tears down nor releases a handle. *)
Definition keeps_all (c : Call) : Prop :=
  is_teardown_call c = false ∧ released_by c = None.

(** A call the frame loop may make for a given [ProgramData]: it keeps
    everything, and the handle it uses, if any, is one of the two. *)
Definition loop_call (programData : ProgramData) (c : Call) : Prop :=
  keeps_all c ∧
  ∀ h, used_by c = Some h →
       h = ProgramHandle (program programData) ∨
       h = VertexArrayHandle (vao programData).

(** A handle is live in a state when it names an object of GL there. *)
Definition live (h : Handle) (w : World) : bool :=
  match h with
  | ProgramHandle p => bool_decide (p ∈ dom (objects w))
  | VertexArrayHandle a => bool_decide (a ∈ vertex_arrays w)
  end.

(** The two handles a [ProgramData] holds. *)
Definition handles (programData : ProgramData) : list Handle :=
  [ProgramHandle (program programData); VertexArrayHandle (vao programData)].


(** The calls of [cleanUp]. *)
Definition cleanUp_calls (window : N) (programData : ProgramData) : list Call :=
  [glfwDestroyWindow_ window; glDeleteVertexArrays_ 1 (vao programData);
   glfwTerminate_].

(** The message of the exception of [createProgram]. *)
Definition build_error : string := "Error creating GL program".

(** ** Example surroundings, for the concrete runs below *)

(** A GL that links every program whose stages all have some source. *)
Definition links_unless_empty (st : list (Z * string)) : bool :=
  forallb (λ '(_, source), negb (is_empty source)) st.

(** A release build with both shader files in place, a window of handle
    7, and the press of control+Q delivered by the third poll. *)
Definition example_env : Env :=
  mkEnv false false "201703L"
    {[ "shaders/main.vert" := "void main() { gl_Position = vec4(0); }";
       "shaders/main.frag" := "void main() { }" ]}
    true 7%N "no display" false "3.3"
    (λ _ _, true) links_unless_empty (λ _, "no main") (λ _ _, "")
    (λ _, (640, 480))
    (λ n, if (n =? 2)%nat then [KeyEvent GLFW_KEY_Q 0 Press GLFW_MOD_CONTROL]
          else []).

(** The same surroundings with other answers. *)
Definition with_build (debug : bool) (env : Env) : Env :=
  mkEnv debug (APPLE env) (cplusplus env) (files env) (glfwInit_succeeds env)
    (created_window env) (glfw_error env) (ARB_debug_output env)
    (gl_version env) (compiles env) (links env) (program_log env)
    (shader_log env) (framebuffer_size env) (events env).

Definition with_files (fs : gmap string string) (env : Env) : Env :=
  mkEnv (DEBUG env) (APPLE env) (cplusplus env) fs (glfwInit_succeeds env)
    (created_window env) (glfw_error env) (ARB_debug_output env)
    (gl_version env) (compiles env) (links env) (program_log env)
    (shader_log env) (framebuffer_size env) (events env).

Definition with_glfw (init_ok : bool) (window : N) (env : Env) : Env :=
  mkEnv (DEBUG env) (APPLE env) (cplusplus env) (files env) init_ok
    window (glfw_error env) (ARB_debug_output env)
    (gl_version env) (compiles env) (links env) (program_log env)
    (shader_log env) (framebuffer_size env) (events env).

Definition with_links (l : list (Z * string) → bool) (env : Env) : Env :=
  mkEnv (DEBUG env) (APPLE env) (cplusplus env) (files env)
    (glfwInit_succeeds env) (created_window env) (glfw_error env)
    (ARB_debug_output env) (gl_version env) (compiles env) l
    (program_log env) (shader_log env) (framebuffer_size env) (events env).

(** The state in which [main] enters the frame loop in [example_env], and
    the [ProgramData] it holds then. *)
Definition example_programData : ProgramData := mkProgramData 3 1 3.

Definition example_loop_entry : World :=
  final_world ((initializeWindow example_env;; initializeGL example_env)
                 initial_world).

(** The state of that run after two frames, at the head of the loop. *)
Definition example_after_two_frames : World :=
  final_world (mainLoop 2 example_env 7 example_programData example_loop_entry).

(** The state of that run when the window is set up. *)
Definition example_window_ready : World :=
  final_world (initializeWindow example_env initial_world).

(** A release build in which neither shader file can be read. *)
Definition example_no_files : Env := with_files ∅ example_env.

(** The same, with a GL that links whatever it is given. *)
Definition example_lenient_GL : Env := with_links (λ _, true) example_no_files.

(** A release build in which GLFW fails to initialize. *)
Definition example_no_glfw : Env := with_glfw false 7 example_env.

(** The state in which the run in [example_env] ends. *)
Definition example_end : World := final_world (run 10 example_env).

(** The state in which that run leaves the frame loop. *)
Definition example_loop_exit : World :=
  final_world (mainLoop 10 example_env 7 example_programData example_loop_entry).

(** ** Notions for the further properties *)

(** The test of [keyCallback], for any [int] arguments. *)
Definition keyCallback_test (key action mods : Z) : bool :=
  nonzero (Z.land action GLFW_KEY_UP) &&
  ((nonzero (Z.land mods GLFW_MOD_CONTROL) &&
    ((key =? GLFW_KEY_Q) || (key =? GLFW_KEY_W)))
   || (nonzero (Z.land mods GLFW_MOD_ALT) && (key =? GLFW_KEY_F4))).

(** What [initializeWindow] returns: the window GLFW created, which is
    the null pointer when it created none, and the null pointer when
    GLFW did not initialize. *)
Definition window_result (env : Env) : N :=
  if glfwInit_succeeds env then created_window env else 0%N.

(** GLFW initializes and creates the window. *)
Definition window_ready (env : Env) : bool :=
  glfwInit_succeeds env && negb (created_window env =? 0)%N.

(** The calls of [initializeWindow], in order. *)
Definition initializeWindow_calls (env : Env) : list Call :=
  glfwInit_ ::
  (if glfwInit_succeeds env then
     (if DEBUG env then [glfwSetErrorCallback_] else [])
     ++ [ glfwWindowHint_ GLFW_CONTEXT_VERSION_MAJOR 3;
          glfwWindowHint_ GLFW_CONTEXT_VERSION_MINOR 3;
          glfwWindowHint_ GLFW_OPENGL_PROFILE GLFW_OPENGL_CORE_PROFILE;
          glfwWindowHint_ GLFW_DECORATED 1 ]
     ++ (if DEBUG env then [glfwWindowHint_ GLFW_OPENGL_DEBUG_CONTEXT 1] else [])
     ++ (if APPLE env
         then [glfwWindowHint_ GLFW_OPENGL_FORWARD_COMPAT GL_TRUE] else [])
     ++ [glfwCreateWindow_ 640 480 "3D Flying Camera Test" 0 0]
     ++ (if (created_window env =? 0)%N then [glfwTerminate_]
         else
           [glfwMakeContextCurrent_ (created_window env); gladLoadGL_]
           ++ (if DEBUG env && ARB_debug_output env
               then [ glEnable_ GL_DEBUG_OUTPUT_SYNCHRONOUS_ARB;
                      glDebugMessageCallbackARB_ ]
               else [])
           ++ (if DEBUG env then [glGetString_ GL_VERSION] else [])
           ++ [ glfwSwapInterval_ 1;
                glfwSetKeyCallback_ (created_window env) ])
   else []).

(** What [initializeWindow] writes to [std::cout] and to [std::cerr]. *)
Definition initializeWindow_cout (env : Env) : string :=
  if window_ready env && DEBUG env then
    ((if ARB_debug_output env
      then "GL extension GL_ARB_debug_output available"
      else "GL extension GL_ARB_debug_output unavailable") +:+ endl)
    +:+ (("C++ version: " +:+ cplusplus env) +:+ endl)
    +:+ (("OpenGL version: " +:+ gl_version env) +:+ endl)
  else EmptyString.

Definition initializeWindow_cerr (env : Env) : string :=
  if DEBUG env && negb (window_ready env) then
    ("GLFW error: "
     +:+ (if glfwInit_succeeds env then glfw_error env
          else "Initialization failed")) +:+ endl
  else EmptyString.

Definition is_glfwInit (c : Call) : bool :=
  match c with glfwInit_ => true | _ => false end.

Definition is_glfwTerminate (c : Call) : bool :=
  match c with glfwTerminate_ => true | _ => false end.

Definition is_glfwWindowHint (c : Call) : bool :=
  match c with glfwWindowHint_ _ _ => true | _ => false end.

Definition is_glfwCreateWindow (c : Call) : bool :=
  match c with glfwCreateWindow_ _ _ _ _ _ => true | _ => false end.

Definition is_glfwMakeContextCurrent (c : Call) : bool :=
  match c with glfwMakeContextCurrent_ _ => true | _ => false end.

(** A check along a sequence of calls: [seen] says whether a call that
    satisfies [mark] came before, and each call has to pass [ok] for the
    value [seen] has when it is reached. *)
Fixpoint ordered (ok : bool → Call → bool) (mark : Call → bool) (seen : bool)
    (cs : list Call) : bool :=
  match cs with
  | [] => true
  | c :: cs => ok seen c && ordered ok mark (seen || mark c) cs
  end.

(** Every call that satisfies [later] has a call that satisfies [earlier]
    somewhere before it. *)
Definition comes_after (later earlier : Call → bool) (cs : list Call) : Prop :=
  ∀ before c after,
    cs = before ++ c :: after → later c = true →
    Exists (λ c', earlier c' = true) before.

(** No call that satisfies [later] has a call that satisfies [earlier]
    anywhere before it. *)
Definition never_after (later earlier : Call → bool) (cs : list Call) : Prop :=
  ∀ before c after,
    cs = before ++ c :: after → later c = true →
    Forall (λ c', earlier c' = false) before.

(** The text holds a NUL character. *)
Fixpoint has_NUL (s : string) : bool :=
  match s with
  | EmptyString => false
  | String c rest => Ascii.eqb c NUL || has_NUL rest
  end.

(** What is printed of a log: the buffer it was retrieved into, which
    holds the log and its terminating NUL, or nothing for an empty log. *)
Definition log_text (log : string) : string :=
  if is_empty log then EmptyString else log +:+ String NUL EmptyString.

(** A state in which a program with two shaders attached failed to link. *)
Definition example_failed_link : World :=
  set_objects
    (<[3%N := ProgramObject [1%N; 2%N] false "no main"]>
       (<[2%N := ShaderObject GL_FRAGMENT_SHADER "" true false ""]>
          (<[1%N := ShaderObject GL_VERTEX_SHADER "x" false false "syntax error"]>
             ∅)))
    initial_world.

(** The states after one and after two builds in [example_env], and the
    name the second program gets. *)
Definition example_one_program : World :=
  final_world (createProgram example_env "a" "b" initial_world).

Definition example_second_name : N :=
  match createProgram example_env "c" "d" example_one_program with
  | Returned p _ => p
  | _ => 0%N
  end.

Definition example_two_programs : World :=
  final_world (createProgram example_env "c" "d" example_one_program).

(** The calls on vertex arrays. *)
Definition is_vertex_array_call (c : Call) : bool :=
  match c with
  | glGenVertexArrays_ _ | glBindVertexArray_ _ | glDeleteVertexArrays_ _ _ =>
      true
  | _ => false
  end.

(** The calls with which [initializeGL] makes its vertex array: it is
    generated, bound, and unbound again. *)
Definition vertex_array_calls (array : N) : list Call :=
  [glGenVertexArrays_ 1; glBindVertexArray_ array; glBindVertexArray_ 0%N].

(** The files of [example_env] beside a file the program does not read. *)
Definition example_files : gmap string string :=
  <["README.md" := "3D Flying Camera Test"]> (files example_env).

(** The calls the frame loop makes once for each evaluation of its
    condition, and once for each frame. *)
Definition is_glfwWindowShouldClose (c : Call) : bool :=
  match c with glfwWindowShouldClose_ _ => true | _ => false end.

Definition is_glfwSwapBuffers (c : Call) : bool :=
  match c with glfwSwapBuffers_ _ => true | _ => false end.

Definition is_glfwPollEvents (c : Call) : bool :=
  match c with glfwPollEvents_ => true | _ => false end.

(** A poll none of whose events asks for the window to be closed. *)
Definition quiet (installed : option N) (evs : list Event) : Prop :=
  Forall (λ ev, ¬ closes_window installed ev) evs.

(** Surroundings with other events. *)
Definition with_events (evs : nat → list Event) (env : Env) : Env :=
  mkEnv (DEBUG env) (APPLE env) (cplusplus env) (files env)
    (glfwInit_succeeds env) (created_window env) (glfw_error env)
    (ARB_debug_output env) (gl_version env) (compiles env) (links env)
    (program_log env) (shader_log env) (framebuffer_size env) evs.

(** Surroundings in which keys are pressed and released at every poll,
    but never a quit chord, and the window is never asked to close. *)
Definition example_typing : Env :=
  with_events (λ _, [KeyEvent GLFW_KEY_Q 0 Press 0;
                      KeyEvent GLFW_KEY_Q 0 Release GLFW_MOD_CONTROL;
                      OtherEvent]) example_env.




(** Any call at all. *)
Definition any_call (c : Call) : bool := true.

(** How [main] ends, as far as the surroundings decide it before the
    frame loop. *)
Definition termination_before_loop (env : Env) : option Termination :=
  if negb (window_ready env) then Some (ExitStatus EXIT_FAILURE)
  else if negb (build_succeeds env) then Some (Aborted build_error)
  else None.

(** * Theorems *)

(** ** [readFile] *)

Module TextFacts.
Import Text.

Example readFile_two_lines :
  readFile {[ "f" := String "a" (String LF (String "b" EmptyString)) ]} "f"
  = String "a" (String LF (String "b" (String LF EmptyString))).
Proof. vm_compute. reflexivity. Qed.

Example readFile_missing : readFile ∅ "f" = "".
Proof. vm_compute. reflexivity. Qed.

Lemma append_nil (b : string) : EmptyString +:+ b = b.
Proof. reflexivity. Qed.

Lemma append_cons c (a b : string) : String c a +:+ b = String c (a +:+ b).
Proof. reflexivity. Qed.

Lemma append_assoc (a b c : string) : (a +:+ b) +:+ c = a +:+ (b +:+ c).
Proof.
  induction a as [|x a IH]; [reflexivity|].
  rewrite !append_cons. by f_equal.
Qed.

Lemma append_empty_r (a : string) : a +:+ EmptyString = a.
Proof.
  induction a as [|x a IH]; [reflexivity|].
  rewrite append_cons. by f_equal.
Qed.

(** What [extract_line] returns, in terms of the lines of the input. *)
Lemma extract_line_lines input :
  match extract_line input with
  | (line, Some rest) => file_lines input = line :: file_lines rest
  | (line, None) =>
      line = input ∧ file_lines input = if is_empty line then [] else [line]
  end.
Proof.
  induction input as [|c input IH]; simpl; [done|].
  destruct (Ascii.eqb c LF); [done|].
  destruct (extract_line input) as [line [rest|]].
  - by rewrite IH.
  - destruct IH as [-> ->]. split; [done|]. by destruct input.
Qed.

Lemma extract_line_rest_lt input line rest :
  extract_line input = (line, Some rest) →
  (String.length rest < String.length input)%nat.
Proof.
  revert line rest. induction input as [|c input IH]; intros line rest; simpl.
  - discriminate.
  - destruct (Ascii.eqb c LF).
    + intros [= _ <-]. lia.
    + destruct (extract_line input) as [l r] eqn:E.
      intros [= _ ->]. specialize (IH _ _ eq_refl). lia.
Qed.

Lemma readFile_loop_unfold streamIn s streamOut :
  readFile_loop streamIn s streamOut =
  match getline streamIn s with
  | (streamIn', s', true) => readFile_loop streamIn' s' (streamOut +:+ s' +:+ endl)
  | (_, _, false) => streamOut
  end.
Proof.
  funelim (readFile_loop streamIn s streamOut);
    match goal with e : getline _ _ = _ |- _ => by rewrite e end.
Qed.

(** A stream with a state bit set ends the loop at once. *)
Lemma readFile_loop_not_good content eof fail s streamOut :
  eof || fail = true →
  readFile_loop (Ifstream content eof fail) s streamOut = streamOut.
Proof.
  intros bad. rewrite readFile_loop_unfold. unfold getline. simpl.
  by rewrite bad.
Qed.

(** On a good stream the loop appends every line of the remaining input,
    each followed by a line feed. *)
Lemma readFile_loop_good content : ∀ s streamOut,
  readFile_loop (Ifstream content false false) s streamOut
  = streamOut +:+ terminate_lines (file_lines content).
Proof.
  remember (String.length content) as n eqn:Hn. revert content Hn.
  induction n as [n IH] using lt_wf_ind. intros content -> s streamOut.
  rewrite readFile_loop_unfold. unfold getline. simpl.
  pose proof (extract_line_lines content) as Hl.
  pose proof (λ line rest, extract_line_rest_lt content line rest) as Hlt.
  destruct (extract_line content) as [line [rest|]]; simpl.
  - rewrite Hl. simpl.
    rewrite (IH (String.length rest)); [| by eapply Hlt | done].
    by rewrite !append_assoc.
  - destruct Hl as [-> ->]. destruct content as [|c content]; simpl.
    + by rewrite append_empty_r.
    + rewrite readFile_loop_not_good; [|done].
      by rewrite append_empty_r.
Qed.

Lemma terminate_lines_cons c rest :
  terminate_lines (file_lines (String c rest)) =
  String c (if is_empty rest && negb (Ascii.eqb c LF) then endl
            else terminate_lines (file_lines rest)).
Proof.
  simpl. destruct (Ascii.eqb c LF) eqn:E.
  - apply Ascii.eqb_eq in E as ->. simpl. rewrite andb_false_r. reflexivity.
  - rewrite andb_true_r. destruct rest as [|d rest]; [reflexivity|].
    simpl is_empty. cbv iota.
    destruct (file_lines (String d rest)) as [|line lines] eqn:El.
    + exfalso. simpl in El. destruct (Ascii.eqb d LF); [done|].
      by destruct (file_lines rest).
    + reflexivity.
Qed.

(** The lines put together again are the text itself, with a line feed
    added when the last line had none. *)
Lemma terminate_lines_file_lines content :
  terminate_lines (file_lines content) = with_final_LF content.
Proof.
  induction content as [|c rest IH]; [reflexivity|].
  rewrite terminate_lines_cons, IH. unfold with_final_LF.
  destruct rest as [|d rest].
  - simpl. destruct (Ascii.eqb c LF); reflexivity.
  - simpl is_empty. rewrite !orb_false_l, andb_false_l.
    change (ends_with_LF (String c (String d rest)))
      with (ends_with_LF (String d rest)).
    by destruct (ends_with_LF (String d rest)).
Qed.

Lemma file_lines_no_LF content :
  Forall (λ line, has_LF line = false) (file_lines content).
Proof.
  induction content as [|c rest IH]; simpl; [constructor|].
  destruct (Ascii.eqb c LF) eqn:E; [by constructor|].
  destruct (file_lines rest) as [|line lines].
  - constructor; [|constructor]. simpl. by rewrite E.
  - inversion IH; subst. constructor; [|done]. simpl. by rewrite E.
Qed.

Lemma readFile_unreadable (fs : gmap string string) (fileName : string) :
  fs !! fileName = None → readFile fs fileName = EmptyString.
Proof.
  intros Hnone. unfold readFile, ifstream_open. rewrite Hnone.
  by apply readFile_loop_not_good.
Qed.

(** C10, as amended. [readFile] is total. For a file that can be read it
    returns the lines of the file, each followed by exactly one line feed
    (no line holds a line feed itself), which is the text of the file with
    a line feed added when the last line has none: every character read,
    a carriage return included, is kept. For a file that cannot be opened
    it returns the empty string, and no error is signalled. *)
Theorem readFile_lines_or_empty (fs : gmap string string) (fileName : string) :
  match fs !! fileName with
  | Some content =>
      readFile fs fileName = terminate_lines (file_lines content)
      ∧ Forall (λ line, has_LF line = false) (file_lines content)
      ∧ readFile fs fileName = with_final_LF content
  | None => readFile fs fileName = EmptyString
  end.
Proof.
  unfold readFile, ifstream_open. destruct (fs !! fileName) as [content|].
  - rewrite readFile_loop_good, append_nil.
    auto using file_lines_no_LF, terminate_lines_file_lines.
  - by apply readFile_loop_not_good.
Qed.

(** C10, the counterexample: a file whose line ends in a carriage return
    and a line feed is returned character for character. *)
Lemma readFile_keeps_CRLF :
  has_CRLF crlf_text = true ∧
  readFile {[ "shaders/main.vert" := crlf_text ]} "shaders/main.vert" = crlf_text.
Proof. split; vm_compute; reflexivity. Qed.

End TextFacts.

(** ** [keyCallback] *)

Section KeyCallback.

(** Masking with a single bit and testing the result against zero reads
    that bit. *)
Lemma nonzero_land_bit (mods : Z) (n : Z) :
  0 ≤ n → nonzero (Z.land mods (2 ^ n)) = Z.testbit mods n.
Proof.
  intros Hn. unfold nonzero.
  destruct (Z.testbit mods n) eqn:Hbit.
  - apply negb_true_iff, Z.eqb_neq. intros Hzero.
    assert (Z.testbit (Z.land mods (2 ^ n)) n = true) as Hone.
    { rewrite Z.land_spec, Hbit, Z.pow2_bits_true; done. }
    rewrite Hzero, Z.bits_0 in Hone. discriminate.
  - apply negb_false_iff, Z.eqb_eq, Z.bits_inj'. intros k Hk.
    rewrite Z.land_spec, Z.bits_0.
    destruct (decide (k = n)) as [->|Hne].
    + by rewrite Hbit.
    + rewrite (Z.pow2_bits_false n k); [apply andb_false_r | lia].
Qed.

(** [action & GLFW_KEY_UP] is non-zero for a press and for no other of
    the three actions: the key code 265 has bit 0 set and bit 1 clear. *)
Lemma keyUp_is_press (action : KeyAction) :
  nonzero (Z.land (action_code action) GLFW_KEY_UP)
  = match action with Press => true | _ => false end.
Proof. by destruct action. Qed.

Lemma keyCallback_condition key action mods :
  nonzero (Z.land (action_code action) GLFW_KEY_UP) &&
  ((nonzero (Z.land mods GLFW_MOD_CONTROL) &&
    ((key =? GLFW_KEY_Q) || (key =? GLFW_KEY_W)))
   || (nonzero (Z.land mods GLFW_MOD_ALT) && (key =? GLFW_KEY_F4)))
  = quit_chord_pressed key action mods.
Proof.
  rewrite keyUp_is_press.
  change GLFW_MOD_CONTROL with (2 ^ 1). change GLFW_MOD_ALT with (2 ^ 2).
  rewrite !nonzero_land_bit by lia.
  by destruct action.
Qed.

(** C4. For every key event GLFW delivers, [keyCallback] returns, and it
    sets the close flag of the window exactly when the event is the press
    of control+Q, control+W or alt+F4: the flag is then set, by one
    [glfwSetWindowShouldClose(window, true)] on the window of the event,
    and nothing else changes. Every other key event leaves the close flag
    and the whole state as they were. *)
Theorem keyCallback_closes_on_quit_chords_only
    (window : N) (key scancode : Z) (action : KeyAction) (mods : Z) (w : World) :
  ∃ w' : World,
    keyCallback window key scancode (action_code action) mods w
    = Returned () w' ∧
    (quit_chord_pressed key action mods = true →
     should_close w' = true ∧
     calls w' = calls w ++ [glfwSetWindowShouldClose_ window true] ∧
     key_callback w' = key_callback w ∧
     error_callback w' = error_callback w ∧
     objects w' = objects w ∧
     vertex_arrays w' = vertex_arrays w ∧
     cout w' = cout w ∧
     cerr w' = cerr w ∧
     polls w' = polls w) ∧
    (quit_chord_pressed key action mods = false → w' = w) ∧
    (should_close w = false →
     (should_close w' = true ↔ quit_chord_pressed key action mods = true)).
Proof.
  unfold keyCallback. rewrite keyCallback_condition.
  destruct (quit_chord_pressed key action mods).
  - eexists. split; [reflexivity|]. cbn. by repeat split.
  - exists w. split; [reflexivity|]. split; [done|]. split; [done|].
    intros ->. by split.
Qed.

(** Control+Q and alt+F4 pressed, control+shift+W pressed; Q alone, and
    control+Q released or repeated. *)
Example quit_chords_pressed :
  quit_chord_pressed GLFW_KEY_Q Press GLFW_MOD_CONTROL = true ∧
  quit_chord_pressed GLFW_KEY_F4 Press GLFW_MOD_ALT = true ∧
  quit_chord_pressed GLFW_KEY_W Press (GLFW_MOD_CONTROL + GLFW_MOD_SHIFT) = true ∧
  quit_chord_pressed GLFW_KEY_Q Press 0 = false ∧
  quit_chord_pressed GLFW_KEY_Q Release GLFW_MOD_CONTROL = false ∧
  quit_chord_pressed GLFW_KEY_Q Repeat GLFW_MOD_CONTROL = false.
Proof. by repeat split. Qed.

Example keyCallback_control_Q :
  should_close
    (final_world (keyCallback 7 GLFW_KEY_Q 0 (action_code Press)
                    GLFW_MOD_CONTROL initial_world)) = true ∧
  keyCallback 7 GLFW_KEY_Q 0 (action_code Release) GLFW_MOD_CONTROL
    initial_world = Returned () initial_world.
Proof. by split. Qed.

End KeyCallback.

(** ** Running computations *)

(** Unfolds the operations of [M], so that a computation applied to a
    state reduces to its outcome. *)
Ltac run_M :=
  unfold mbind, M_bind, mret, M_ret, call, modify, gets, throw, std_exit,
    out_of_fuel, when, update_objects, DEBUG_LOG_LINE, DEBUG_ERROR_LINE in *;
  cbn beta iota zeta in *.

(** ** The frame loop *)

Section FrameLoop.

Variable env : Env.
Variable window : N.
Variable programData : ProgramData.

Lemma handlers_ran_refl w : handlers_ran w w.
Proof.
  unfold handlers_ran. repeat split; try done.
  exists []. by rewrite app_nil_r.
Qed.

Lemma handlers_ran_trans w1 w2 w3 :
  handlers_ran w1 w2 → handlers_ran w2 w3 → handlers_ran w1 w3.
Proof.
  unfold handlers_ran.
  intros (?&?&?&?&?&?&?&?&cs1&?&?) (?&?&?&?&?&?&?&?&cs2&?&?).
  repeat split; try congruence; [auto|].
  exists (cs1 ++ cs2). split; [|by apply Forall_app].
  rewrite app_assoc. congruence.
Qed.

(** A key event reaches [keyCallback] with the code of its action. *)
Lemma deliver_key_event key scancode action mods w :
  deliver (KeyEvent key scancode action mods) w =
  match key_callback w with
  | Some win =>
      if quit_chord_pressed key action mods
      then Returned () (set_should_close true
                          (log_call (glfwSetWindowShouldClose_ win true) w))
      else Returned () w
  | None => Returned () w
  end.
Proof.
  unfold deliver, keyCallback. rewrite keyCallback_condition.
  run_M. destruct (key_callback w); [|done].
  by destruct (quit_chord_pressed key action mods).
Qed.

Lemma deliver_handlers_ran ev w :
  ∃ w', deliver ev w = Returned () w' ∧ handlers_ran w w'.
Proof.
  destruct ev as [key scancode action mods| |].
  - rewrite deliver_key_event.
    destruct (key_callback w) as [win|]; [|eauto using handlers_ran_refl].
    destruct (quit_chord_pressed key action mods);
      [|eauto using handlers_ran_refl].
    eexists. split; [done|]. unfold handlers_ran. cbn.
    repeat split; try done. eexists. split; [done|]. by repeat constructor.
  - eexists. split; [done|]. unfold handlers_ran. run_M.
    repeat split; try done. exists []. by rewrite app_nil_r.
  - eauto using handlers_ran_refl.
Qed.

Lemma deliver_all_handlers_ran evs : ∀ w,
  ∃ w', deliver_all evs w = Returned () w' ∧ handlers_ran w w'.
Proof.
  induction evs as [|ev evs IH]; intros w.
  - eauto using handlers_ran_refl.
  - destruct (deliver_handlers_ran ev w) as (w1 & Hev & H1).
    destruct (IH w1) as (w2 & Hevs & H2).
    exists w2. split; [|by eapply handlers_ran_trans].
    cbn [deliver_all]. run_M. by rewrite Hev.
Qed.

(** Either way of asking sets the flag: a poll that delivers the close
    request of the window system, or the press of a quit chord while
    [keyCallback] is installed, ends with the close flag set. *)
Lemma deliver_all_sets_close_flag evs : ∀ w,
  Exists (closes_window (key_callback w)) evs →
  should_close (final_world (deliver_all evs w)) = true.
Proof.
  induction evs as [|ev evs IH]; intros w Hev; [by apply Exists_nil in Hev|].
  destruct (deliver_handlers_ran ev w)
    as (w1 & Hrun1 & Hkey & _ & _ & _ & _ & _ & _ & _ & _).
  destruct (deliver_all_handlers_ran evs w1)
    as (w2 & Hrun2 & _ & _ & _ & _ & _ & _ & _ & Hkeep & _).
  cbn [deliver_all]. unfold mbind, M_bind. rewrite Hrun1.
  apply Exists_cons in Hev as [Hev|Hev].
  - rewrite Hrun2. cbn. apply Hkeep.
    destruct ev as [key scancode action mods| |]; [| |done].
    + rewrite deliver_key_event in Hrun1.
      destruct Hev as [[win Hwin] Hquit]. rewrite Hwin, Hquit in Hrun1.
      by injection Hrun1 as <-.
    + by injection Hrun1 as <-.
  - apply IH. by rewrite Hkey.
Qed.

(** One frame: it returns, it issues the calls of [frame_calls] followed
    by the close requests of the handlers, it counts one poll, and but for
    the close flag it changes nothing else. *)
Lemma frame_runs w :
  ∃ w' cs,
    frame env window programData w = Returned () w' ∧
    calls w' = calls w
               ++ frame_calls window (framebuffer_size env (polls w)) programData
               ++ cs ∧
    Forall (λ c, is_close_request c = true) cs ∧
    polls w' = S (polls w) ∧
    (should_close w = true → should_close w' = true) ∧
    key_callback w' = key_callback w ∧
    error_callback w' = error_callback w ∧
    objects w' = objects w ∧
    vertex_arrays w' = vertex_arrays w ∧
    cout w' = cout w ∧
    cerr w' = cerr w.
Proof.
  unfold frame, glfwGetFramebufferSize, glfwPollEvents. run_M. cbn.
  destruct (framebuffer_size env (polls w)) as [width height] eqn:Hsize.
  cbn.
  match goal with |- context [deliver_all ?evs ?w0] =>
    destruct (deliver_all_handlers_ran evs w0)
      as (w' & -> & ?&?&?&?&?&?&?&?& cs &Hcs&?)
  end.
  cbn in *. exists w', cs. rewrite Hcs, <- !app_assoc. by repeat split.
Qed.

Lemma frame_sets_close_flag w :
  Exists (closes_window (key_callback w)) (events env (polls w)) →
  should_close (final_world (frame env window programData w)) = true.
Proof.
  intros Hev. unfold frame, glfwGetFramebufferSize, glfwPollEvents. run_M. cbn.
  destruct (framebuffer_size env (polls w)) as [width height]. cbn.
  by apply deliver_all_sets_close_flag.
Qed.

End FrameLoop.

Section MainLoop.

Variable env : Env.
Variable window : N.
Variable programData : ProgramData.

Lemma mainLoop_exit fuel w :
  should_close w = true →
  mainLoop (S fuel) env window programData w
  = Returned () (log_call (glfwWindowShouldClose_ window) w).
Proof.
  intros Hflag. cbn [mainLoop]. unfold glfwWindowShouldClose. run_M.
  cbn. by rewrite Hflag.
Qed.

Lemma mainLoop_iterate fuel w w' :
  should_close w = false →
  frame env window programData (log_call (glfwWindowShouldClose_ window) w)
  = Returned () w' →
  mainLoop (S fuel) env window programData w
  = mainLoop fuel env window programData w'.
Proof.
  intros Hflag Hframe. cbn [mainLoop]. unfold glfwWindowShouldClose. run_M.
  cbn. rewrite Hflag. cbn. by rewrite Hframe.
Qed.

(** A loop that is still running after [k] evaluations of its condition
    goes on, with more fuel, from the state it was in. *)
Lemma mainLoop_resume k : ∀ w w_k n,
  mainLoop k env window programData w = OutOfFuel w_k →
  mainLoop (k + n) env window programData w
  = mainLoop n env window programData w_k.
Proof.
  induction k as [|k IH]; intros w w_k n.
  - by intros [= ->].
  - destruct (should_close w) eqn:Hflag.
    + by rewrite mainLoop_exit.
    + destruct (frame_runs env window programData
                  (log_call (glfwWindowShouldClose_ window) w))
        as (w' & cs & Hframe & _).
      rewrite (mainLoop_iterate k w w' Hflag Hframe).
      change (S k + n)%nat with (S (k + n)).
      rewrite (mainLoop_iterate (k + n) w w' Hflag Hframe). apply IH.
Qed.

(** Whatever the loop goes on to do, the calls made so far stay in the
    log. *)
Lemma mainLoop_extends_calls fuel : ∀ w,
  ∃ cs,
    calls (final_world (mainLoop fuel env window programData w))
    = calls w ++ cs.
Proof.
  induction fuel as [|fuel IH]; intros w.
  - exists []. by rewrite app_nil_r.
  - destruct (should_close w) eqn:Hflag.
    + rewrite mainLoop_exit by done. by eexists.
    + destruct (frame_runs env window programData
                  (log_call (glfwWindowShouldClose_ window) w))
        as (w' & cs & Hframe & Hcalls & _).
      rewrite (mainLoop_iterate fuel w w' Hflag Hframe).
      destruct (IH w') as (rest & ->). rewrite Hcalls. cbn.
      eexists. by rewrite <- !app_assoc.
Qed.

(** C2. Take any execution of the frame loop that has made [k] iterations
    and is about to evaluate its condition. If the close flag is set then,
    or is set by the end of the next iteration (by the key handler or by
    the close request of the window system: the statement looks at the
    flag alone), the loop makes [n] further iterations, [n] being at most
    one, and returns with the flag set. [polls] counts the iterations. *)
Theorem mainLoop_ends_once_close_flag_set (k : nat) (w w_k : World) :
  mainLoop k env window programData w = OutOfFuel w_k →
  should_close w_k = true ∨
  should_close
    (final_world (frame env window programData
                    (log_call (glfwWindowShouldClose_ window) w_k))) = true →
  ∃ (n : nat) (w_end : World),
    (n ≤ 1)%nat ∧
    polls w_end = (polls w_k + n)%nat ∧
    should_close w_end = true ∧
    ∀ fuel, mainLoop (k + (n + S fuel)) env window programData w
            = Returned () w_end.
Proof.
  intros Hk Hset.
  destruct (should_close w_k) eqn:Hflag.
  - exists 0%nat, (log_call (glfwWindowShouldClose_ window) w_k).
    cbn. repeat split; [lia | lia | done |].
    intros fuel. rewrite (mainLoop_resume k w w_k _ Hk).
    by apply mainLoop_exit.
  - destruct Hset as [|Hset]; [done|].
    destruct (frame_runs env window programData
                (log_call (glfwWindowShouldClose_ window) w_k))
      as (w' & cs & Hframe & _ & _ & Hpolls & _).
    rewrite Hframe in Hset. cbn in Hset, Hpolls.
    exists 1%nat, (log_call (glfwWindowShouldClose_ window) w').
    cbn. repeat split; [lia | lia | done |].
    intros fuel. rewrite (mainLoop_resume k w w_k _ Hk).
    rewrite (mainLoop_iterate _ w_k w' Hflag Hframe).
    by apply mainLoop_exit.
Qed.

End MainLoop.

Lemma mainLoop_ends_once_close_flag_set_witness :
  mainLoop 2 example_env 7 example_programData example_loop_entry
  = OutOfFuel example_after_two_frames ∧
  should_close
    (final_world (frame example_env 7 example_programData
                    (log_call (glfwWindowShouldClose_ 7)
                       example_after_two_frames))) = true ∧
  ∃ (n : nat) (w_end : World),
    (n ≤ 1)%nat ∧
    polls w_end = (polls example_after_two_frames + n)%nat ∧
    should_close w_end = true ∧
    ∀ fuel, mainLoop (2 + (n + S fuel)) example_env 7 example_programData
              example_loop_entry
            = Returned () w_end.
Proof.
  split; [vm_compute; reflexivity|].
  split; [vm_compute; reflexivity|].
  apply (mainLoop_ends_once_close_flag_set example_env 7 example_programData
           2 example_loop_entry example_after_two_frames).
  - vm_compute. reflexivity.
  - right. vm_compute. reflexivity.
Defined.

(** ** [initializeGL] and the calls of an iteration *)

Section Iteration.

Variable env : Env.

(** [initializeGL] returns a [ProgramData] whose vertex count is 3. *)
Lemma initializeGL_vertexCount w0 programData w1 :
  initializeGL env w0 = Returned programData w1 →
  vertexCount programData = 3.
Proof.
  unfold initializeGL, glGenVertexArrays. run_M.
  destruct (createProgram env _ _ w0); [|done..].
  cbn. by intros [= <- _].
Qed.

Lemma close_requests_draw_nothing cs :
  Forall (λ c, is_close_request c = true) cs →
  List.filter is_draw_call cs = [].
Proof.
  induction 1 as [|c cs Hc _ IH]; [done|].
  cbn. rewrite IH. by destruct c.
Qed.

(** C3. In every iteration of the frame loop (the condition found the
    close flag clear) the program queries the framebuffer size, sets the
    viewport to it, clears the colour buffer, binds the program and the
    vertex array, issues one draw call, of 3 vertices as triangles,
    presents the frame and polls the events; the handlers run by the poll
    add close requests only. These calls are what the iteration does: a
    loop stopped after it is in the state [w'] whose log they extend, the
    iteration counts one poll, the loop goes on from [w'], and whatever
    follows, the calls stay in the log of the run. *)
Theorem every_iteration_draws_one_triangle
    (window : N) (w0 w1 : World) (programData : ProgramData)
    (fuel : nat) (w : World) :
  initializeGL env w0 = Returned programData w1 →
  should_close w = false →
  ∃ (w' : World) (handler_calls rest : list Call),
    let size := framebuffer_size env (polls w) in
    let iteration :=
      [ glfwWindowShouldClose_ window;
        glfwGetFramebufferSize_ window;
        glViewport_ 0 0 (fst size) (snd size);
        glClearColor_ 0%Q (1 # 2)%Q 1%Q 1%Q;
        glClear_ GL_COLOR_BUFFER_BIT;
        glUseProgram_ (program programData);
        glBindVertexArray_ (vao programData);
        glDrawArrays_ GL_TRIANGLES 0 3;
        glfwSwapBuffers_ window;
        glfwPollEvents_ ] ++ handler_calls in
    mainLoop 1 env window programData w = OutOfFuel w' ∧
    frame env window programData (log_call (glfwWindowShouldClose_ window) w)
    = Returned () w' ∧
    calls w' = calls w ++ iteration ∧
    polls w' = S (polls w) ∧
    Forall (λ c, is_close_request c = true) handler_calls ∧
    count_calls is_draw_call iteration = 1%nat ∧
    mainLoop (S fuel) env window programData w
    = mainLoop fuel env window programData w' ∧
    calls (final_world (mainLoop (S fuel) env window programData w))
    = calls w ++ iteration ++ rest.
Proof.
  intros Hinit Hflag.
  destruct (frame_runs env window programData
              (log_call (glfwWindowShouldClose_ window) w))
    as (w' & cs & Hframe & Hcalls & Hcs & Hpolls & _).
  destruct (mainLoop_extends_calls env window programData fuel w')
    as (rest & Hrest).
  assert (calls w' =
          calls w ++ [ glfwWindowShouldClose_ window;
                       glfwGetFramebufferSize_ window;
                       glViewport_ 0 0 (fst (framebuffer_size env (polls w)))
                         (snd (framebuffer_size env (polls w)));
                       glClearColor_ 0%Q (1 # 2)%Q 1%Q 1%Q;
                       glClear_ GL_COLOR_BUFFER_BIT;
                       glUseProgram_ (program programData);
                       glBindVertexArray_ (vao programData);
                       glDrawArrays_ GL_TRIANGLES 0 3;
                       glfwSwapBuffers_ window;
                       glfwPollEvents_ ] ++ cs) as Hiteration.
  { rewrite Hcalls. cbn. rewrite <- app_assoc.
    by rewrite (initializeGL_vertexCount _ _ _ Hinit). }
  exists w', cs, rest. cbn zeta.
  split; [by rewrite (mainLoop_iterate env window programData 0 w w')|].
  split; [done|]. split; [done|]. split; [done|]. split; [done|].
  split.
  { unfold count_calls. cbn. by rewrite (close_requests_draw_nothing _ Hcs). }
  split; [by apply mainLoop_iterate|].
  rewrite (mainLoop_iterate env window programData fuel w w' Hflag Hframe).
  by rewrite Hrest, Hiteration, <- app_assoc.
Qed.

End Iteration.

Lemma every_iteration_draws_one_triangle_witness :
  initializeGL example_env example_window_ready
  = Returned example_programData example_loop_entry ∧
  should_close example_loop_entry = false ∧
  ∃ (w' : World) (handler_calls rest : list Call),
    let iteration :=
      [ glfwWindowShouldClose_ 7;
        glfwGetFramebufferSize_ 7;
        glViewport_ 0 0 640 480;
        glClearColor_ 0%Q (1 # 2)%Q 1%Q 1%Q;
        glClear_ GL_COLOR_BUFFER_BIT;
        glUseProgram_ 3;
        glBindVertexArray_ 1;
        glDrawArrays_ GL_TRIANGLES 0 3;
        glfwSwapBuffers_ 7;
        glfwPollEvents_ ] ++ handler_calls in
    mainLoop 1 example_env 7 example_programData example_loop_entry
    = OutOfFuel w' ∧
    frame example_env 7 example_programData
      (log_call (glfwWindowShouldClose_ 7) example_loop_entry)
    = Returned () w' ∧
    calls w' = calls example_loop_entry ++ iteration ∧
    polls w' = S (polls example_loop_entry) ∧
    Forall (λ c, is_close_request c = true) handler_calls ∧
    count_calls is_draw_call iteration = 1%nat ∧
    mainLoop 10 example_env 7 example_programData example_loop_entry
    = mainLoop 9 example_env 7 example_programData w' ∧
    calls (final_world (mainLoop 10 example_env 7 example_programData
                          example_loop_entry))
    = calls example_loop_entry ++ iteration ++ rest.
Proof.
  split; [vm_compute; reflexivity|].
  split; [vm_compute; reflexivity|].
  apply (every_iteration_draws_one_triangle example_env 7
           example_window_ready example_loop_entry example_programData
           9 example_loop_entry).
  - vm_compute. reflexivity.
  - vm_compute. reflexivity.
Defined.

(** ** [initializeWindow] *)

Section InitializeWindow.

Variable env : Env.

Ltac run_initializeWindow :=
  unfold initializeWindow, glfwInit, glfwCreateWindow, errorCallbackGLFW;
  run_M.

(** When GLFW initializes and creates the window, [initializeWindow]
    returns the window with [keyCallback] installed on it, and leaves the
    close flag and the GL objects as they were. *)
Lemma initializeWindow_succeeds w :
  glfwInit_succeeds env = true →
  created_window env ≠ 0%N →
  ∃ w' cs,
    initializeWindow env w = Returned (created_window env) w' ∧
    calls w' = calls w ++ cs ∧
    Forall harmless cs ∧
    key_callback w' = Some (created_window env) ∧
    should_close w' = should_close w ∧
    objects w' = objects w ∧
    vertex_arrays w' = vertex_arrays w ∧
    cerr w' = cerr w ∧
    polls w' = polls w.
Proof.
  intros Hinit Hwindow%N.eqb_neq. run_initializeWindow.
  rewrite Hinit. cbn. 
  destruct (DEBUG env), (APPLE env), (ARB_debug_output env);
    cbn; rewrite ?Hwindow; cbn; rewrite ?Hwindow; cbn;
    (eexists; eexists; split; [reflexivity|]; cbn;
     split; [rewrite <- !app_assoc; cbn; reflexivity|];
     split; [by repeat constructor | done]).
Qed.

(** When GLFW fails to initialize or to create the window,
    [initializeWindow] returns the null pointer; it has called nothing of
    GL, and it has written a message, to [std::cerr], exactly when [DEBUG]
    is defined. *)
Lemma initializeWindow_fails w :
  glfwInit_succeeds env = false ∨ created_window env = 0%N →
  ∃ w' cs,
    initializeWindow env w = Returned 0%N w' ∧
    calls w' = calls w ++ cs ∧
    Forall (λ c, is_gl_call c = false) cs ∧
    cout w' = cout w ∧
    (if DEBUG env
     then ∃ message, cerr w' = cerr w +:+ ("GLFW error: " +:+ message) +:+ endl
     else cerr w' = cerr w).
Proof.
  intros Hfail. run_initializeWindow.
  destruct (glfwInit_succeeds env) eqn:Hinit; cbn.
  - destruct Hfail as [|Hwindow]; [done|]. rewrite Hwindow. cbn.
    destruct (DEBUG env), (APPLE env);
      cbn; rewrite ?Hwindow; cbn; destruct (error_callback w); cbn;
      (eexists; eexists; split; [reflexivity|]; cbn;
       split; [rewrite <- !app_assoc; cbn; reflexivity|];
       split; [by repeat constructor|]; split; [done|]; eauto).
  - destruct (DEBUG env); cbn;
      (eexists; eexists; split; [reflexivity|]; cbn;
       split; [reflexivity|];
       split; [by repeat constructor|]; split; [done|]; eauto).
Qed.

End InitializeWindow.

(** ** [createShader] and [createProgram] *)

Section Build.

Variable env : Env.

Lemma new_name_nonzero (used : gset N) : new_name used ≠ 0%N.
Proof.
  unfold new_name. pose proof (is_fresh ({[0%N]} ∪ used)). set_solver.
Qed.

Lemma new_name_fresh (used : gset N) : new_name used ∉ used.
Proof.
  unfold new_name. pose proof (is_fresh ({[0%N]} ∪ used)). set_solver.
Qed.

Lemma new_name_no_object (m : gmap N GLObject) : m !! new_name (dom m) = None.
Proof. apply not_elem_of_dom, new_name_fresh. Qed.

(** The three names a build is given are new, distinct and not [0]. *)
Lemma build_names (m : gmap N GLObject) :
  let vs := new_name (dom m) in
  let fs := new_name ({[vs]} ∪ dom m) in
  let p := new_name ({[fs]} ∪ ({[vs]} ∪ dom m)) in
  m !! vs = None ∧ m !! fs = None ∧ m !! p = None ∧
  vs ≠ fs ∧ vs ≠ p ∧ fs ≠ p ∧ p ≠ 0%N.
Proof.
  intros vs fs p.
  assert (vs ∉ dom m) as Hvs by apply new_name_fresh.
  assert (fs ∉ {[vs]} ∪ dom m) as Hfs by apply new_name_fresh.
  assert (p ∉ {[fs]} ∪ ({[vs]} ∪ dom m)) as Hp by apply new_name_fresh.
  rewrite <- !not_elem_of_dom.
  repeat split; [set_solver..|apply new_name_nonzero].
Qed.

(** A computation that returns hands its value and state to the rest. *)
Lemma bind_Returned {A B} (m : M A) (k : A → M B) w a w' :
  m w = Returned a w' → (m ≫= k) w = k a w'.
Proof. intros H. unfold mbind, M_bind. by rewrite H. Qed.

Lemma createShader_runs type source w :
  let shader := new_name (dom (objects w)) in
  createShader env type source w =
  Returned shader
    (set_objects (<[shader := compiled_shader env type source]> (objects w))
       (log_call (glCompileShader_ shader)
          (log_call (glShaderSource_ shader 1 (c_str source))
             (log_call (glCreateShader_ type) w)))).
Proof.
  intros shader.
  unfold createShader, glCreateShader, glShaderSource, glCompileShader.
  run_M. cbn. fold shader. unfold set_objects, log_call. cbn. do 2 f_equal.
  rewrite !alter_insert_eq. reflexivity.
Qed.

Lemma glCreateProgram_runs w :
  let name := new_name (dom (objects w)) in
  glCreateProgram w =
  Returned name
    (set_objects (<[name := ProgramObject [] false EmptyString]> (objects w))
       (log_call glCreateProgram_ w)).
Proof. reflexivity. Qed.

Lemma glAttachShader_runs p s w :
  glAttachShader p s w =
  Returned ()
    (set_objects
       (alter (λ o, match o with
                    | ProgramObject attached linked log =>
                        ProgramObject (attached ++ [s]) linked log
                    | _ => o
                    end) p (objects w))
       (log_call (glAttachShader_ p s) w)).
Proof. reflexivity. Qed.

Lemma glLinkProgram_runs p w :
  glLinkProgram env p w =
  Returned ()
    (set_objects
       (alter (λ o, match o with
                    | ProgramObject attached _ _ =>
                        ProgramObject attached
                          (all_compiled (objects w) attached &&
                           links env (stages (objects w) attached))
                          (program_log env (stages (objects w) attached))
                    | _ => o
                    end) p (objects w))
       (log_call (glLinkProgram_ p) w)).
Proof. reflexivity. Qed.

Lemma glGet_runs {A} (c : Call) (read : option GLObject → A) (name : N) w :
  (call c;; o ← gets (λ w, objects w !! name); mret (read o)) w =
  Returned (read (objects w !! name)) (log_call c w).
Proof. reflexivity. Qed.

Lemma glDetachShader_runs p s w :
  glDetachShader p s w =
  Returned ()
    (set_objects
       (collect s
          (alter (λ o, match o with
                       | ProgramObject attached linked log =>
                           ProgramObject (remove_one s attached) linked log
                       | _ => o
                       end) p (objects w)))
       (log_call (glDetachShader_ p s) w)).
Proof. reflexivity. Qed.

Lemma glDeleteShader_runs s w :
  glDeleteShader s w =
  Returned ()
    (set_objects
       (collect s (alter flag_for_deletion s (objects w)))
       (log_call (glDeleteShader_ s) w)).
Proof. reflexivity. Qed.

(** *** The objects during a build *)

Section Objects.

Variables (m0 : gmap N GLObject) (vs fs p : N) (v f : string).
Hypothesis vs_fresh : m0 !! vs = None.
Hypothesis fs_fresh : m0 !! fs = None.
Hypothesis p_fresh : m0 !! p = None.
Hypothesis vs_fs : vs ≠ fs.
Hypothesis vs_p : vs ≠ p.
Hypothesis fs_p : fs ≠ p.

Let shaders : gmap N GLObject :=
  <[fs := compiled_shader env GL_FRAGMENT_SHADER f]>
    (<[vs := compiled_shader env GL_VERTEX_SHADER v]> m0).

Lemma stages_of_build o :
  stages (<[p := o]> shaders) [vs; fs] = build_stages v f.
Proof.
  unfold stages, shaders, build_stages, compiled_shader. cbn.
  by simplify_map_eq.
Qed.

Lemma all_compiled_of_build o :
  all_compiled (<[p := o]> shaders) [vs; fs] =
  compiles env GL_VERTEX_SHADER (c_str v) &&
  compiles env GL_FRAGMENT_SHADER (c_str f).
Proof.
  unfold all_compiled, shaders, compiled_shader. cbn.
  simplify_map_eq. by rewrite andb_true_r.
Qed.

(** A shader that no program has attached is attached nowhere. *)
Lemma not_attached_somewhere (m : gmap N GLObject) (shader : N) :
  (∀ name attached linked log,
     m !! name = Some (ProgramObject attached linked log) →
     shader ∉ attached) →
  attached_somewhere m shader = false.
Proof.
  intros Hnone. apply bool_decide_eq_false.
  intros (name & o & Hname & Hattached).
  destruct o as [|attached linked log]; [done|].
  apply bool_decide_eq_true in Hattached.
  by eapply Hnone.
Qed.

(** Detaching a shader that is not flagged for deletion deletes nothing. *)
Lemma collect_unflagged (m : gmap N GLObject) shader type source compiled log :
  m !! shader = Some (ShaderObject type source compiled false log) →
  collect shader m = m.
Proof. intros H. unfold collect. by rewrite H. Qed.

Lemma detach_both linked plog :
  collect fs
    (alter (λ o, match o with
                 | ProgramObject attached linked log =>
                     ProgramObject (remove_one fs attached) linked log
                 | _ => o
                 end) p
       (collect vs
          (alter (λ o, match o with
                       | ProgramObject attached linked log =>
                           ProgramObject (remove_one vs attached) linked log
                       | _ => o
                       end) p
             (<[p := ProgramObject [vs; fs] linked plog]> shaders))))
  = <[p := ProgramObject [] linked plog]> shaders.
Proof.
  rewrite alter_insert_eq.
  erewrite (collect_unflagged _ vs);
    [|unfold shaders, compiled_shader; by simplify_map_eq].
  rewrite alter_insert_eq.
  erewrite (collect_unflagged _ fs);
    [|unfold shaders, compiled_shader; by simplify_map_eq].
  unfold remove_one. cbn.
  destruct (N.eq_dec vs vs); [|done]. destruct (N.eq_dec vs fs); [done|].
  cbn. by destruct (N.eq_dec fs fs).
Qed.

(** Deleting the two shaders, detached from the one program that had
    them, removes them: [attachments_live] says that no other program has
    a name attached that GL has just handed out. *)
Lemma delete_both linked plog :
  attachments_live m0 →
  collect fs
    (alter flag_for_deletion fs
       (collect vs
          (alter flag_for_deletion vs
             (<[p := ProgramObject [] linked plog]> shaders))))
  = <[p := ProgramObject [] linked plog]> m0.
Proof.
  intros Hlive.
  assert (∀ shader, m0 !! shader = None →
          ∀ (m : gmap N GLObject),
            (∀ name, name ≠ p → m !! name = None ∨ m !! name = m0 !! name ∨
                     ∃ t s c fl l, m !! name = Some (ShaderObject t s c fl l)) →
            attached_somewhere (<[p := ProgramObject [] linked plog]> m) shader
            = false) as Hnowhere.
  { intros shader Hshader m Hm. apply not_attached_somewhere.
    intros name attached linked' log' Hname.
    destruct (decide (name = p)) as [->|Hne].
    - rewrite lookup_insert_eq in Hname. injection Hname as <- _ _.
      apply not_elem_of_nil.
    - rewrite lookup_insert_ne in Hname by done.
      destruct (Hm name Hne) as [Hnone|[Hsame|(?&?&?&?&?&Hsh)]];
        [congruence| |congruence].
      rewrite Hsame in Hname. intros Hin.
      apply (Hlive _ _ _ _ _ Hname), elem_of_dom in Hin.
      rewrite Hshader in Hin. by destruct Hin. }
  unfold shaders, compiled_shader.
  rewrite (alter_insert_ne _ vs p) by done.
  rewrite (alter_insert_ne _ vs fs) by done.
  rewrite alter_insert_eq. cbn [flag_for_deletion].
  unfold collect at 2. rewrite lookup_insert_ne by done.
  rewrite lookup_insert_ne by done. rewrite lookup_insert_eq.
  rewrite Hnowhere; [|done|]; cycle 1.
  { intros name _. destruct (decide (name = fs)) as [->|];
      [right; right; rewrite lookup_insert_eq; eauto 10|].
    rewrite lookup_insert_ne by done.
    destruct (decide (name = vs)) as [->|];
      [right; right; rewrite lookup_insert_eq; eauto 10|].
    right; left. by rewrite lookup_insert_ne. }
  rewrite (delete_insert_ne _ vs p) by done.
  rewrite (delete_insert_ne _ vs fs) by done.
  rewrite delete_insert_eq, (delete_id m0 vs) by done.
  rewrite (alter_insert_ne _ fs p) by done.
  rewrite alter_insert_eq. cbn [flag_for_deletion].
  unfold collect. rewrite lookup_insert_ne by done. rewrite lookup_insert_eq.
  rewrite Hnowhere; [|done|]; cycle 1.
  { intros name _. destruct (decide (name = fs)) as [->|];
      [right; right; rewrite lookup_insert_eq; eauto 10|].
    right; left. by rewrite lookup_insert_ne. }
  rewrite (delete_insert_ne _ fs p) by done.
  by rewrite delete_insert_eq, (delete_id m0 fs).
Qed.

(** *** The diagnostics of a failed build *)

Lemma report_shader_log_runs shader type source label w :
  objects w !! shader = Some (compiled_shader env type source) →
  ∃ w',
    report_shader_log env shader label w = Returned () w' ∧
    only_reports w w' ∧
    calls w' = calls w ++ shader_diagnostics env shader type source ∧
    (DEBUG env = false → cerr w' = cerr w).
Proof.
  intros Hshader.
  unfold report_shader_log, glGetShaderiv, glGetShaderInfoLog,
    shader_diagnostics.
  run_M. cbn. rewrite Hshader. cbn.
  destruct (0 <? info_log_length (shader_log env type (c_str source))); cbn.
  - rewrite Hshader. destruct (DEBUG env); cbn;
      (eexists; split; [reflexivity|]; cbn; split; [done|];
       split; [by rewrite <- app_assoc | done]).
  - eexists; split; [reflexivity|]; cbn. by split.
Qed.

Lemma report_build_failure_runs w attached :
  objects w !! p
  = Some (ProgramObject attached (link_succeeds env v f)
            (program_log env (build_stages v f))) →
  objects w !! vs = Some (compiled_shader env GL_VERTEX_SHADER v) →
  objects w !! fs = Some (compiled_shader env GL_FRAGMENT_SHADER f) →
  ∃ w',
    when (DEBUG env && negb (link_succeeds env v f))
      (report_build_failure env p vs fs) w = Returned () w' ∧
    only_reports w w' ∧
    calls w' = calls w ++ diagnostics env vs fs p v f ∧
    (DEBUG env = false → cerr w' = cerr w).
Proof.
  intros Hp Hvs Hfs. unfold diagnostics.
  destruct (DEBUG env && negb (link_succeeds env v f)) eqn:Hreport; cycle 1.
  { exists w. cbn. rewrite app_nil_r. by repeat split. }
  cbn [when]. unfold report_build_failure.
  erewrite bind_Returned; [|apply glGet_runs]. cbn [objects log_call].
  rewrite Hp. cbn.
  unfold glGetProgramInfoLog.
  erewrite bind_Returned; [|apply glGet_runs]. cbn [objects log_call].
  rewrite Hp.
  match goal with |- context [(DEBUG_ERROR_LINE env ?text ≫= ?k) ?w0] =>
    assert (∃ w1, DEBUG_ERROR_LINE env text w0 = Returned () w1 ∧
                  only_reports w0 w1 ∧ calls w1 = calls w0 ∧
                  (DEBUG env = false → cerr w1 = cerr w0))
      as (w1 & Hrun & Hsame1 & Hcalls1 & Hcerr1)
  end.
  { run_M. destruct (DEBUG env); eexists; (split; [reflexivity|]); by cbn. }
  erewrite bind_Returned; [|exact Hrun].
  destruct Hsame1 as (?&?&?& Hobj1 &?&?&?).
  cbn in Hobj1, Hcalls1, Hcerr1.
  destruct (report_shader_log_runs vs GL_VERTEX_SHADER v
              "GL vertex shader error: " w1)
    as (w2 & Hrun2 & (?&?&?& Hobj2 &?&?&?) & Hcalls2 & Hcerr2);
    [by rewrite Hobj1|].
  erewrite bind_Returned; [|exact Hrun2].
  destruct (report_shader_log_runs fs GL_FRAGMENT_SHADER f
              "GL fragment shader error: " w2)
    as (w3 & Hrun3 & (?&?&?& Hobj3 &?&?&?) & Hcalls3 & Hcerr3);
    [by rewrite Hobj2, Hobj1|].
  exists w3. split; [exact Hrun3|]. cbn in *.
  split; [unfold only_reports; repeat split; congruence|].
  split.
  - rewrite Hcalls3, Hcalls2, Hcalls1, <- !app_assoc. reflexivity.
  - intros Hrelease. rewrite Hcerr3, Hcerr2, Hcerr1; done.
Qed.

End Objects.

Lemma nonzero_status (linked : bool) :
  nonzero (if linked then GL_TRUE else 0) = linked.
Proof. by destruct linked. Qed.

(** What [createProgram] does, for any state it is called in: it returns
    the name of the program when the link status is success and throws
    otherwise; it issues the calls of [build_calls]; it writes nothing to
    [std::cerr] unless [DEBUG] is defined; and of the objects it created,
    the program alone, with nothing attached, is left. *)
Lemma createProgram_runs v f w :
  let vs := new_name (dom (objects w)) in
  let fs := new_name ({[vs]} ∪ dom (objects w)) in
  let p := new_name ({[fs]} ∪ ({[vs]} ∪ dom (objects w))) in
  ∃ w',
    createProgram env v f w =
    (if link_succeeds env v f then Returned p w'
     else Thrown "Error creating GL program" w') ∧
    calls w' = calls w ++ build_calls env vs fs p v f ∧
    should_close w' = should_close w ∧
    key_callback w' = key_callback w ∧
    error_callback w' = error_callback w ∧
    vertex_arrays w' = vertex_arrays w ∧
    cout w' = cout w ∧
    polls w' = polls w ∧
    (DEBUG env = false → cerr w' = cerr w) ∧
    (attachments_live (objects w) →
     objects w' =
     <[p := ProgramObject [] (link_succeeds env v f)
              (program_log env (build_stages v f))]> (objects w)).
Proof.
  intros vs fs p.
  destruct (build_names (objects w)) as (Hvs & Hfs & Hp & ? & ? & ? & _).
  fold vs in Hvs, Hfs, Hp. fold fs in Hfs, Hp. fold p in Hp.
  unfold createProgram.
  erewrite bind_Returned; [|apply createShader_runs]. fold vs.
  erewrite bind_Returned; [|apply createShader_runs].
  cbn [objects set_objects log_call]. rewrite dom_insert_L. fold fs.
  erewrite bind_Returned; [|apply glCreateProgram_runs].
  cbn [objects set_objects log_call]. rewrite !dom_insert_L. fold p.
  erewrite bind_Returned; [|apply glAttachShader_runs].
  cbn [objects set_objects log_call]. rewrite alter_insert_eq.
  erewrite bind_Returned; [|apply glAttachShader_runs].
  cbn [objects set_objects log_call]. rewrite alter_insert_eq.
  erewrite bind_Returned; [|apply glLinkProgram_runs].
  cbn [objects set_objects log_call app]. rewrite alter_insert_eq.
  rewrite stages_of_build, all_compiled_of_build by done.
  fold (link_succeeds env v f).
  unfold glGetProgramiv.
  erewrite bind_Returned; [|apply glGet_runs].
  cbn [objects set_objects log_call]. rewrite lookup_insert_eq.
  change (GL_LINK_STATUS =? GL_LINK_STATUS) with true. cbv iota.
  rewrite nonzero_status.
  match goal with |- context [(when _ _ ≫= _) ?w0] => set (w1 := w0) end.
  assert (objects w1 =
          <[p := ProgramObject [vs; fs] (link_succeeds env v f)
                   (program_log env (build_stages v f))]>
            (<[fs := compiled_shader env GL_FRAGMENT_SHADER f]>
               (<[vs := compiled_shader env GL_VERTEX_SHADER v]> (objects w))))
    as Hobj1 by reflexivity.
  edestruct (report_build_failure_runs vs fs p v f w1)
    as (w2 & Hrun2 & (?&?&?& Hobj2 &?&?&?) & Hcalls2 & Hcerr2).
  { rewrite Hobj1. apply lookup_insert_eq. }
  { rewrite Hobj1. by simplify_map_eq. }
  { rewrite Hobj1. by simplify_map_eq. }
  erewrite bind_Returned; [|exact Hrun2].
  erewrite bind_Returned; [|apply glDetachShader_runs].
  erewrite bind_Returned; [|apply glDetachShader_runs].
  cbn [objects set_objects log_call]. rewrite Hobj2, Hobj1.
  rewrite detach_both by done.
  erewrite bind_Returned; [|apply glDeleteShader_runs].
  erewrite bind_Returned; [|apply glDeleteShader_runs].
  cbn [objects set_objects log_call].
  match goal with |- ∃ w', _ ?w0 = _ ∧ _ => exists w0 end.
  split; [by destruct (link_succeeds env v f)|].
  cbn. rewrite Hcalls2. subst w1. cbn in *.
  split; [unfold build_calls; by rewrite <- !app_assoc|].
  repeat (split; [congruence|]).
  split; [intros Hrelease; by rewrite Hcerr2|].
  intros Hlive. by apply delete_both.
Qed.

End Build.

(** ** [initializeGL] *)

Section InitializeGL.

Variable env : Env.

Lemma build_calls_keep_all vs fs p v f :
  Forall (λ c, keeps_all c ∧ is_draw_call c = false)
    (build_calls env vs fs p v f).
Proof.
  unfold build_calls, diagnostics, shader_diagnostics, keeps_all.
  destruct (DEBUG env && negb (link_succeeds env v f));
    [destruct (0 <? info_log_length (shader_log env GL_VERTEX_SHADER (c_str v))),
       (0 <? info_log_length (shader_log env GL_FRAGMENT_SHADER (c_str f)))|];
    cbn; by repeat constructor.
Qed.

(** In a release build no information log is retrieved. *)
Lemma build_calls_release vs fs p v f :
  DEBUG env = false →
  Forall (λ c, is_info_log_call c = false) (build_calls env vs fs p v f).
Proof.
  intros Hrelease. unfold build_calls, diagnostics. rewrite Hrelease.
  cbn. by repeat constructor.
Qed.

(** In a debug build the log of the program is retrieved when the link
    status is failure. *)
Lemma build_calls_debug vs fs p v f :
  DEBUG env = true → link_succeeds env v f = false →
  glGetProgramInfoLog_ p
    (info_log_length (program_log env (build_stages v f)))
  ∈ build_calls env vs fs p v f.
Proof.
  intros Hdebug Hfail. unfold build_calls, diagnostics.
  rewrite Hdebug, Hfail. cbn. set_solver.
Qed.

Lemma initializeGL_fails w :
  build_succeeds env = false →
  ∃ w' cs,
    initializeGL env w = Thrown build_error w' ∧
    createProgram env (vertex_source env) (fragment_source env) w
    = Thrown build_error w' ∧
    calls w' = calls w ++ cs ∧
    Forall keeps_all cs ∧
    cout w' = cout w ∧
    (if DEBUG env
     then ∃ p len, glGetProgramInfoLog_ p len ∈ cs
     else Forall (λ c, is_info_log_call c = false) cs ∧ cerr w' = cerr w).
Proof.
  intros Hfail. unfold build_succeeds in Hfail.
  destruct (createProgram_runs env (vertex_source env) (fragment_source env) w)
    as (w' & Hrun & Hcalls & _ & _ & _ & _ & Hcout & _ & Hcerr & _).
  rewrite Hfail in Hrun. exists w'. eexists.
  split; [|split; [exact Hrun|]].
  { unfold initializeGL. fold (vertex_source env) (fragment_source env).
    unfold mbind, M_bind. by rewrite Hrun. }
  split; [exact Hcalls|].
  split; [eapply Forall_impl; [apply build_calls_keep_all|]; by intros ? []|].
  split; [done|].
  destruct (DEBUG env) eqn:Hdebug.
  - eauto using build_calls_debug.
  - auto using build_calls_release.
Qed.

Lemma initializeGL_succeeds w :
  build_succeeds env = true →
  attachments_live (objects w) →
  ∃ programData w' cs,
    initializeGL env w = Returned programData w' ∧
    vertexCount programData = 3 ∧
    calls w' = calls w ++ cs ∧
    Forall keeps_all cs ∧
    is_Some (objects w' !! program programData) ∧
    vao programData ∈ vertex_arrays w' ∧
    should_close w' = should_close w ∧
    key_callback w' = key_callback w ∧
    polls w' = polls w.
Proof.
  intros Hok Hlive. unfold build_succeeds in Hok.
  destruct (createProgram_runs env (vertex_source env) (fragment_source env) w)
    as (w1 & Hrun & Hcalls & Hclose & Hkey & _ & _ & _ & Hpolls & _ & Hobj).
  rewrite Hok in Hrun. specialize (Hobj Hlive).
  unfold initializeGL. fold (vertex_source env) (fragment_source env).
  erewrite bind_Returned; [|exact Hrun].
  unfold glGenVertexArrays. run_M. cbn.
  do 3 eexists. split; [reflexivity|]. cbn.
  split; [done|]. rewrite Hcalls, <- !app_assoc.
  split; [reflexivity|].
  split.
  { apply Forall_app. split.
    - eapply Forall_impl; [apply build_calls_keep_all|]. by intros ? [].
    - unfold keeps_all. by repeat constructor. }
  split; [rewrite Hobj, lookup_insert_eq; eauto|].
  split; [set_solver|]. done.
Qed.

End InitializeGL.

(** ** The whole loop, and [main] *)

Section Main.

Variable env : Env.

Lemma close_request_loop_call programData c :
  is_close_request c = true → loop_call programData c.
Proof. by destruct c. Qed.

Ltac solve_loop_call :=
  split; [by split|];
  let h := fresh "h" in let Hh := fresh "Hh" in
  intros h Hh; cbn in Hh; first [discriminate Hh | injection Hh as <-; auto].

(** The frame loop returns or is still running; it leaves the GL objects
    alone, and each of its calls is a [loop_call]. *)
Lemma mainLoop_runs window programData fuel : ∀ w,
  ∃ w' cs,
    (mainLoop fuel env window programData w = Returned () w' ∨
     mainLoop fuel env window programData w = OutOfFuel w') ∧
    calls w' = calls w ++ cs ∧
    Forall (loop_call programData) cs ∧
    objects w' = objects w ∧
    vertex_arrays w' = vertex_arrays w.
Proof.
  induction fuel as [|fuel IH]; intros w.
  - exists w, []. rewrite app_nil_r. split; [by right|done].
  - destruct (should_close w) eqn:Hflag.
    + rewrite mainLoop_exit by done. eexists _, [_]. split; [by left|].
      cbn. split; [done|]. split; [|done].
      constructor; [solve_loop_call | constructor].
    + destruct (frame_runs env window programData
                  (log_call (glfwWindowShouldClose_ window) w))
        as (w1 & cs1 & Hframe & Hcalls1 & Hcs1 & _ & _ & _ & _ & Hobj1 & Hvao1 & _).
      rewrite (mainLoop_iterate _ _ _ fuel w w1 Hflag Hframe).
      destruct (IH w1) as (w2 & cs2 & Hrun & Hcalls2 & Hcs2 & Hobj2 & Hvao2).
      exists w2. eexists. split; [exact Hrun|].
      rewrite Hcalls2, Hcalls1, Hobj2, Hobj1, Hvao2, Hvao1. cbn.
      rewrite <- !app_assoc. split; [reflexivity|]. split; [|done].
      cbn. repeat (constructor; [solve_loop_call|]).
      apply Forall_app. split; [|done].
      eapply Forall_impl; [exact Hcs1|]. apply close_request_loop_call.
Qed.

(** [main] when the window cannot be set up. *)
Lemma main_without_window fuel :
  glfwInit_succeeds env = false ∨ created_window env = 0%N →
  ∃ w',
    run fuel env = Exited EXIT_FAILURE w' ∧
    Forall (λ c, is_gl_call c = false) (calls w') ∧
    cout w' = EmptyString ∧
    (if DEBUG env
     then ∃ message, cerr w' = ("GLFW error: " +:+ message) +:+ endl
     else cerr w' = EmptyString).
Proof.
  intros Hfail.
  destruct (initializeWindow_fails env initial_world Hfail)
    as (w' & cs & Hrun & Hcalls & Hcs & Hcout & Hcerr).
  exists w'. unfold run, main. erewrite bind_Returned; [|exact Hrun].
  cbn in *. rewrite Hcalls. by repeat split.
Qed.

(** [main] when the window is set up and the build fails. *)
Lemma main_with_failed_build fuel :
  glfwInit_succeeds env = true →
  created_window env ≠ 0%N →
  build_succeeds env = false →
  ∃ w1 w' cs,
    initializeWindow env initial_world = Returned (created_window env) w1 ∧
    initializeGL env w1 = Thrown build_error w' ∧
    createProgram env (vertex_source env) (fragment_source env) w1
    = Thrown build_error w' ∧
    run fuel env = Thrown build_error w' ∧
    Forall keeps_all (calls w') ∧
    calls w' = calls w1 ++ cs ∧
    (if DEBUG env
     then ∃ p len, glGetProgramInfoLog_ p len ∈ cs
     else Forall (λ c, is_info_log_call c = false) (calls w') ∧
          cerr w' = EmptyString).
Proof.
  intros Hinit Hwindow Hfail.
  destruct (initializeWindow_succeeds env initial_world Hinit Hwindow)
    as (w1 & cs1 & Hrun1 & Hcalls1 & Hcs1 & _ & _ & _ & _ & Hcerr1 & _).
  destruct (initializeGL_fails env w1 Hfail)
    as (w' & cs & Hrun & Hbuild & Hcalls & Hcs & _ & Hreport).
  exists w1, w', cs. split; [done|]. split; [done|]. split; [done|].
  split.
  { unfold run, main. erewrite bind_Returned; [|exact Hrun1].
    apply N.eqb_neq in Hwindow. rewrite Hwindow.
    unfold mbind, M_bind. by rewrite Hrun. }
  cbn in Hcalls1, Hcerr1. rewrite Hcalls, Hcalls1.
  split.
  { apply Forall_app. split; [|done].
    eapply Forall_impl; [exact Hcs1|]. unfold harmless, keeps_all. tauto. }
  split; [done|].
  destruct (DEBUG env); [done|]. destruct Hreport as [Hnone ->].
  split; [|done]. apply Forall_app. split; [|done].
  eapply Forall_impl; [exact Hcs1|]. unfold harmless. tauto.
Qed.

End Main.

(** ** Releases *)

Section Releases.

Lemma count_calls_none (test : Call → bool) cs :
  Forall (λ c, test c = false) cs → count_calls test cs = 0%nat.
Proof.
  unfold count_calls. induction 1 as [|c cs Hc _ IH]; [done|].
  cbn. by rewrite Hc.
Qed.



(** The three steps of [cleanUp]: the destruction of the window leaves
    no GL object, so that [glDeleteVertexArrays] changes nothing. *)
Lemma cleanUp_runs window programData w :
  ∃ w_destroyed w_deleted w_end,
    glfwDestroyWindow window w = Returned () w_destroyed ∧
    glDeleteVertexArrays 1 (vao programData) w_destroyed
    = Returned () w_deleted ∧
    call glfwTerminate_ w_deleted = Returned () w_end ∧
    cleanUp window programData w = Returned () w_end ∧
    calls w_end = calls w ++ cleanUp_calls window programData ∧
    polls w_end = polls w ∧
    (objects w_destroyed = ∅ ∧ vertex_arrays w_destroyed = ∅) ∧
    (objects w_deleted = ∅ ∧ vertex_arrays w_deleted = ∅) ∧
    (objects w_end = ∅ ∧ vertex_arrays w_end = ∅).
Proof.
  eexists _, _, _. split; [reflexivity|]. split; [reflexivity|].
  split; [reflexivity|]. split; [reflexivity|]. cbn.
  rewrite <- !app_assoc.
  assert ((∅ : gset N) ∖ {[vao programData]} = ∅) as ->.
  { apply set_eq. intros x. rewrite elem_of_difference.
    split; [by intros []|]. by intros ?%not_elem_of_empty. }
  by repeat split.
Qed.

End Releases.

Section MainWithBuild.

Variable env : Env.


End MainWithBuild.

(** ** The claims about the whole program *)

Section Program.



(** The run in [example_env]: the loop returns in the fourth evaluation
    of its condition, both handles are live then and gone after
    [glfwDestroyWindow]; with fuel for two frames the loop is still
    running and both are live. *)
Example handles_in_the_example_run :
  run 10 example_env = Returned 0 example_end ∧
  Forall (λ h, live h example_loop_exit = true ∧ live h example_end = false)
    (handles example_programData) ∧
  Forall (λ h, live h example_after_two_frames = true)
    (handles example_programData) ∧
  calls example_end
  = calls example_loop_exit
    ++ [glfwDestroyWindow_ 7; glDeleteVertexArrays_ 1 1; glfwTerminate_].
Proof.
  split; [vm_compute; reflexivity|].
  split; [by repeat constructor|].
  split; [by repeat constructor|].
  vm_compute. reflexivity.
Qed.

(** C5, as amended. If GLFW fails to initialize or to create the window,
    the process exits with [EXIT_FAILURE] before any call into GL; it
    reports the error, on [std::cerr], when [DEBUG] is defined, and writes
    nothing in a release build. *)
Theorem window_failure_exits_before_any_GL_call (fuel : nat) (env : Env) :
  glfwInit_succeeds env = false ∨ created_window env = 0%N →
  ∃ w' : World,
    run fuel env = Exited EXIT_FAILURE w' ∧
    termination (run fuel env) = ExitStatus EXIT_FAILURE ∧
    Forall (λ c, is_gl_call c = false) (calls w') ∧
    cout w' = EmptyString ∧
    (if DEBUG env
     then ∃ message, cerr w' = ("GLFW error: " +:+ message) +:+ endl
     else cerr w' = EmptyString).
Proof.
  intros Hfail.
  destruct (main_without_window env fuel Hfail) as (w' & Hrun & Hrest).
  exists w'. split; [done|]. split; [by rewrite Hrun|done].
Qed.

Lemma window_failure_exits_before_any_GL_call_witness :
  glfwInit_succeeds example_no_glfw = false ∧
  ∃ w' : World,
    run 10 example_no_glfw = Exited EXIT_FAILURE w' ∧
    termination (run 10 example_no_glfw) = ExitStatus EXIT_FAILURE ∧
    Forall (λ c, is_gl_call c = false) (calls w') ∧
    cout w' = EmptyString ∧
    (if DEBUG example_no_glfw
     then ∃ message, cerr w' = ("GLFW error: " +:+ message) +:+ endl
     else cerr w' = EmptyString).
Proof.
  split; [reflexivity|].
  apply (window_failure_exits_before_any_GL_call 10 example_no_glfw).
  left. reflexivity.
Defined.

(** C5, the counterexample: a release build in which [glfwInit] fails
    exits with [EXIT_FAILURE] and has reported nothing, on either
    stream. *)
Lemma window_failure_unreported_in_release_build :
  DEBUG example_no_glfw = false ∧
  glfwInit_succeeds example_no_glfw = false ∧
  termination (run 10 example_no_glfw) = ExitStatus EXIT_FAILURE ∧
  cerr (final_world (run 10 example_no_glfw)) = EmptyString ∧
  cout (final_world (run 10 example_no_glfw)) = EmptyString.
Proof.
  split; [reflexivity|]. split; [reflexivity|].
  split; [vm_compute; reflexivity|].
  split; vm_compute; reflexivity.
Qed.

(** C6, as amended. If a shader fails to compile or the program fails to
    link, the build step throws the runtime error and returns no handle,
    and the exception, caught nowhere, aborts the process. The
    information log is retrieved when [DEBUG] is defined; a release build
    retrieves none and writes nothing. *)
Theorem failed_build_throws_and_aborts (fuel : nat) (env : Env) :
  glfwInit_succeeds env = true →
  created_window env ≠ 0%N →
  compiles env GL_VERTEX_SHADER (c_str (vertex_source env)) = false ∨
  compiles env GL_FRAGMENT_SHADER (c_str (fragment_source env)) = false ∨
  links env (build_stages (vertex_source env) (fragment_source env)) = false →
  ∃ (w1 w' : World) (new_calls : list Call),
    initializeWindow env initial_world = Returned (created_window env) w1 ∧
    createProgram env (vertex_source env) (fragment_source env) w1
    = Thrown build_error w' ∧
    run fuel env = Thrown build_error w' ∧
    termination (run fuel env) = Aborted build_error ∧
    calls w' = calls w1 ++ new_calls ∧
    (if DEBUG env
     then ∃ p len, glGetProgramInfoLog_ p len ∈ new_calls
     else Forall (λ c, is_info_log_call c = false) (calls w') ∧
          cerr w' = EmptyString).
Proof.
  intros Hinit Hwindow Hfail.
  assert (build_succeeds env = false) as Hbuild.
  { unfold build_succeeds, link_succeeds.
    destruct Hfail as [-> | [-> | ->]];
      [done | by rewrite andb_false_r | by rewrite andb_false_r]. }
  destruct (main_with_failed_build env fuel Hinit Hwindow Hbuild)
    as (w1 & w' & cs & Hrun1 & _ & Hcreate & Hrun & _ & Hcalls & Hreport).
  exists w1, w', cs. repeat (split; [done|]).
  split; [by rewrite Hrun|done].
Qed.

Lemma failed_build_throws_and_aborts_witness :
  links example_no_files
    (build_stages (vertex_source example_no_files)
       (fragment_source example_no_files)) = false ∧
  ∃ (w1 w' : World) (new_calls : list Call),
    initializeWindow example_no_files initial_world
    = Returned (created_window example_no_files) w1 ∧
    createProgram example_no_files (vertex_source example_no_files)
      (fragment_source example_no_files) w1
    = Thrown build_error w' ∧
    run 10 example_no_files = Thrown build_error w' ∧
    termination (run 10 example_no_files) = Aborted build_error ∧
    calls w' = calls w1 ++ new_calls ∧
    (if DEBUG example_no_files
     then ∃ p len, glGetProgramInfoLog_ p len ∈ new_calls
     else Forall (λ c, is_info_log_call c = false) (calls w') ∧
          cerr w' = EmptyString).
Proof.
  split; [vm_compute; reflexivity|].
  apply (failed_build_throws_and_aborts 10 example_no_files).
  - reflexivity.
  - vm_compute. discriminate.
  - right. right. vm_compute. reflexivity.
Defined.

(** C6, the counterexample: in a release build whose link fails the
    process is aborted by the exception, and no information log has been
    retrieved and nothing has been written. *)
Lemma failed_build_retrieves_no_log_in_release_build :
  DEBUG example_no_files = false ∧
  termination (run 10 example_no_files) = Aborted build_error ∧
  count_calls is_info_log_call (calls (final_world (run 10 example_no_files)))
  = 0%nat ∧
  cerr (final_world (run 10 example_no_files)) = EmptyString.
Proof.
  split; [reflexivity|].
  split; [vm_compute; reflexivity|].
  split; vm_compute; reflexivity.
Qed.

(** C7, as amended. The program does not look at the result of the read:
    for a shader source file that cannot be read [readFile] hands the
    empty string to the build. The failure is fatal through the build
    alone: with a GL that refuses to link a stage without source,
    [initializeGL] throws instead of returning and the process is
    aborted. *)
Theorem unreadable_shader_file_is_fatal (fuel : nat) (env : Env) :
  glfwInit_succeeds env = true →
  created_window env ≠ 0%N →
  (∀ st type, (type, EmptyString) ∈ st → links env st = false) →
  files env !! "shaders/main.vert" = None ∨
  files env !! "shaders/main.frag" = None →
  ∃ w1 w' : World,
    initializeWindow env initial_world = Returned (created_window env) w1 ∧
    initializeGL env w1 = Thrown build_error w' ∧
    run fuel env = Thrown build_error w' ∧
    termination (run fuel env) = Aborted build_error.
Proof.
  intros Hinit Hwindow Hgl Hmissing.
  assert (build_succeeds env = false) as Hbuild.
  { unfold build_succeeds, link_succeeds. apply andb_false_intro2.
    unfold build_stages.
    destruct Hmissing as [Hnone|Hnone].
    - apply (Hgl _ GL_VERTEX_SHADER). unfold vertex_source.
      rewrite (TextFacts.readFile_unreadable _ _ Hnone). cbn. set_solver.
    - apply (Hgl _ GL_FRAGMENT_SHADER). unfold fragment_source.
      rewrite (TextFacts.readFile_unreadable _ _ Hnone). cbn. set_solver. }
  destruct (main_with_failed_build env fuel Hinit Hwindow Hbuild)
    as (w1 & w' & cs & Hrun1 & Hgl' & _ & Hrun & _).
  exists w1, w'. repeat (split; [done|]). by rewrite Hrun.
Qed.

Lemma links_unless_empty_rejects (st : list (Z * string)) (type : Z) :
  (type, EmptyString) ∈ st → links_unless_empty st = false.
Proof.
  unfold links_unless_empty.
  induction st as [|[type' source] st IH]; intros Hin.
  - by apply elem_of_nil in Hin.
  - apply elem_of_cons in Hin as [[= <- <-]|Hin]; cbn; [done|].
    by rewrite IH, andb_false_r.
Qed.

Lemma unreadable_shader_file_is_fatal_witness :
  files example_no_files !! "shaders/main.vert" = None ∧
  ∃ w1 w' : World,
    initializeWindow example_no_files initial_world
    = Returned (created_window example_no_files) w1 ∧
    initializeGL example_no_files w1 = Thrown build_error w' ∧
    run 10 example_no_files = Thrown build_error w' ∧
    termination (run 10 example_no_files) = Aborted build_error.
Proof.
  split; [reflexivity|].
  apply (unreadable_shader_file_is_fatal 10 example_no_files).
  - reflexivity.
  - vm_compute. discriminate.
  - apply links_unless_empty_rejects.
  - left. reflexivity.
Defined.

(** C7, the counterexample: neither shader file can be read, and with a
    GL that links stages without source nothing is fatal: [readFile]
    returns the empty string twice, [initializeGL] returns a
    [ProgramData], the run goes on to the frame loop and [main]
    returns 0. *)
Lemma unreadable_shader_files_are_not_fatal :
  files example_lenient_GL !! "shaders/main.vert" = None ∧
  files example_lenient_GL !! "shaders/main.frag" = None ∧
  vertex_source example_lenient_GL = EmptyString ∧
  fragment_source example_lenient_GL = EmptyString ∧
  initializeWindow example_lenient_GL initial_world
  = Returned 7%N example_window_ready ∧
  initializeGL example_lenient_GL example_window_ready
  = Returned example_programData
      (final_world (initializeGL example_lenient_GL example_window_ready)) ∧
  run 10 example_lenient_GL
  = Returned 0 (final_world (run 10 example_lenient_GL)) ∧
  termination (run 10 example_lenient_GL) = ExitStatus 0.
Proof.
  split; [reflexivity|].
  split; [reflexivity|].
  split; [vm_compute; reflexivity|].
  split; [vm_compute; reflexivity|].
  split; [vm_compute; reflexivity|].
  split; [vm_compute; reflexivity|].
  split; [vm_compute; reflexivity|].
  vm_compute. reflexivity.
Qed.

(** C8. When the link succeeds, [createProgram] has detached both shaders
    from the program and deleted them before it returns, and what it
    returns is the name of the one object it leaves: the GL objects are
    those there were, and the linked program with nothing attached. *)
Theorem createProgram_leaves_only_the_program
    (env : Env) (vertexSource fragmentSource : string) (w : World) :
  attachments_live (objects w) →
  link_succeeds env vertexSource fragmentSource = true →
  ∃ (vs fs p : N) (w' : World) (earlier : list Call),
    createProgram env vertexSource fragmentSource w = Returned p w' ∧
    calls w' = calls w ++ earlier ++ [ glDetachShader_ p vs;
                                       glDetachShader_ p fs;
                                       glDeleteShader_ vs;
                                       glDeleteShader_ fs ] ∧
    glCreateShader_ GL_VERTEX_SHADER ∈ earlier ∧
    glCreateShader_ GL_FRAGMENT_SHADER ∈ earlier ∧
    p ≠ 0%N ∧
    objects w !! p = None ∧
    objects w' =
      <[p := ProgramObject [] true
               (program_log env (build_stages vertexSource fragmentSource))]>
        (objects w) ∧
    objects w' !! vs = None ∧
    objects w' !! fs = None ∧
    vertex_arrays w' = vertex_arrays w.
Proof.
  intros Hlive Hlink.
  destruct (createProgram_runs env vertexSource fragmentSource w)
    as (w' & Hrun & Hcalls & _ & _ & _ & Hvaos & _ & _ & _ & Hobj).
  destruct (build_names (objects w))
    as (Hvs & Hfs & Hp & Hvs_fs & Hvs_p & Hfs_p & Hnonzero).
  rewrite Hlink in Hrun, Hobj. specialize (Hobj Hlive).
  set (vs := new_name (dom (objects w))) in *.
  set (fs := new_name ({[vs]} ∪ dom (objects w))) in *.
  set (p := new_name ({[fs]} ∪ ({[vs]} ∪ dom (objects w)))) in *.
  exists vs, fs, p, w'.
  exists ([ glCreateShader_ GL_VERTEX_SHADER;
            glShaderSource_ vs 1 (c_str vertexSource);
            glCompileShader_ vs;
            glCreateShader_ GL_FRAGMENT_SHADER;
            glShaderSource_ fs 1 (c_str fragmentSource);
            glCompileShader_ fs;
            glCreateProgram_;
            glAttachShader_ p vs;
            glAttachShader_ p fs;
            glLinkProgram_ p;
            glGetProgramiv_ p GL_LINK_STATUS ]
          ++ diagnostics env vs fs p vertexSource fragmentSource).
  split; [exact Hrun|].
  split; [rewrite Hcalls; unfold build_calls; by rewrite <- !app_assoc|].
  split; [apply elem_of_app; left; repeat constructor|].
  split; [apply elem_of_app; left; repeat constructor|].
  repeat (split; [done|]). rewrite Hobj.
  split; [by rewrite lookup_insert_ne|].
  split; [by rewrite lookup_insert_ne|done].
Qed.

Lemma attachments_live_empty : attachments_live ∅.
Proof. intros name attached linked log shader Hname. by rewrite lookup_empty in Hname. Qed.

Lemma createProgram_leaves_only_the_program_witness :
  link_succeeds example_env (vertex_source example_env)
    (fragment_source example_env) = true ∧
  ∃ (vs fs p : N) (w' : World) (earlier : list Call),
    createProgram example_env (vertex_source example_env)
      (fragment_source example_env) initial_world = Returned p w' ∧
    calls w' = calls initial_world ++ earlier ++ [ glDetachShader_ p vs;
                                                   glDetachShader_ p fs;
                                                   glDeleteShader_ vs;
                                                   glDeleteShader_ fs ] ∧
    glCreateShader_ GL_VERTEX_SHADER ∈ earlier ∧
    glCreateShader_ GL_FRAGMENT_SHADER ∈ earlier ∧
    p ≠ 0%N ∧
    objects initial_world !! p = None ∧
    objects w' =
      <[p := ProgramObject [] true
               (program_log example_env
                  (build_stages (vertex_source example_env)
                     (fragment_source example_env)))]>
        (objects initial_world) ∧
    objects w' !! vs = None ∧
    objects w' !! fs = None ∧
    vertex_arrays w' = vertex_arrays initial_world.
Proof.
  split; [vm_compute; reflexivity|].
  apply (createProgram_leaves_only_the_program example_env
           (vertex_source example_env) (fragment_source example_env)
           initial_world).
  - apply attachments_live_empty.
  - vm_compute. reflexivity.
Defined.

(** C9. On the path on which the build fails, the process is aborted by
    the exception and [cleanUp] has not run: no call has destroyed the
    window or terminated GLFW. *)
Theorem failed_build_skips_teardown (fuel : nat) (env : Env) :
  glfwInit_succeeds env = true →
  created_window env ≠ 0%N →
  build_succeeds env = false →
  ∃ w' : World,
    run fuel env = Thrown build_error w' ∧
    termination (run fuel env) = Aborted build_error ∧
    Forall (λ c, is_teardown_call c = false) (calls w') ∧
    count_calls is_teardown_call (calls w') = 0%nat.
Proof.
  intros Hinit Hwindow Hbuild.
  destruct (main_with_failed_build env fuel Hinit Hwindow Hbuild)
    as (w1 & w' & cs & _ & _ & _ & Hrun & Hkept & _).
  exists w'. split; [done|]. split; [by rewrite Hrun|].
  assert (Forall (λ c, is_teardown_call c = false) (calls w')) as Hnone.
  { eapply Forall_impl; [exact Hkept|]. by intros ? []. }
  split; [done|]. by apply count_calls_none.
Qed.

Lemma failed_build_skips_teardown_witness :
  build_succeeds example_no_files = false ∧
  ∃ w' : World,
    run 10 example_no_files = Thrown build_error w' ∧
    termination (run 10 example_no_files) = Aborted build_error ∧
    Forall (λ c, is_teardown_call c = false) (calls w') ∧
    count_calls is_teardown_call (calls w') = 0%nat.
Proof.
  split; [vm_compute; reflexivity|].
  apply (failed_build_skips_teardown 10 example_no_files).
  - reflexivity.
  - vm_compute. discriminate.
  - vm_compute. reflexivity.
Defined.

(** A debug build reports the failure of [glfwInit]. *)
Example debug_build_reports_window_failure :
  cerr (final_world (run 10 (with_build true example_no_glfw)))
  = "GLFW error: Initialization failed" +:+ endl.
Proof. vm_compute. reflexivity. Qed.

(** A debug build retrieves the log of the program that failed to link. *)
Example debug_build_retrieves_the_program_log :
  count_calls is_info_log_call
    (calls (final_world (run 10 (with_build true example_no_files)))) = 1%nat.
Proof. vm_compute. reflexivity. Qed.

End Program.

(** * Further properties of the code *)

(** ** [readFile], continued *)

Section ReadFileMore.
Import Text.

Lemma readFile_readable (fs : gmap string string) fileName content :
  fs !! fileName = Some content →
  readFile fs fileName = with_final_LF content.
Proof.
  intros Hfile. unfold readFile, ifstream_open. rewrite Hfile.
  rewrite TextFacts.readFile_loop_good, TextFacts.append_nil.
  apply TextFacts.terminate_lines_file_lines.
Qed.

Lemma ends_with_LF_append_endl (s : string) : ends_with_LF (s +:+ endl) = true.
Proof.
  induction s as [|c s IH]; [done|].
  rewrite TextFacts.append_cons. destruct s as [|d s]; [done|].
  rewrite TextFacts.append_cons in *. exact IH.
Qed.

Lemma with_final_LF_empty (content : string) :
  with_final_LF content = EmptyString → content = EmptyString.
Proof.
  unfold with_final_LF. destruct content as [|c content]; [done|].
  cbn [is_empty orb]. destruct (ends_with_LF (String c content)); [done|].
  by rewrite TextFacts.append_cons.
Qed.

Lemma with_final_LF_ends (content : string) :
  with_final_LF content = EmptyString ∨
  ends_with_LF (with_final_LF content) = true.
Proof.
  unfold with_final_LF. destruct content as [|c content]; [by left|].
  right. cbn [is_empty orb].
  destruct (ends_with_LF (String c content)) eqn:Hends; [done|].
  apply ends_with_LF_append_endl.
Qed.

Lemma with_final_LF_idempotent (content : string) :
  with_final_LF (with_final_LF content) = with_final_LF content.
Proof.
  destruct (with_final_LF_ends content) as [Hempty|Hends].
  - by rewrite Hempty.
  - unfold with_final_LF at 1. by rewrite Hends, orb_true_r.
Qed.

(** X1. [readFile] returns the empty string for exactly two kinds of file:
    one that cannot be opened and one that is empty. The caller cannot
    tell them apart. *)
Theorem readFile_empty_iff (fs : gmap string string) (fileName : string) :
  readFile fs fileName = EmptyString ↔
  fs !! fileName = None ∨ fs !! fileName = Some EmptyString.
Proof.
  destruct (fs !! fileName) as [content|] eqn:Hfile.
  - rewrite (readFile_readable _ _ _ Hfile). split.
    + intros Hempty%with_final_LF_empty. right. by rewrite Hempty.
    + by intros [|[= ->]].
  - rewrite (TextFacts.readFile_unreadable _ _ Hfile). by split; [left|].
Qed.

(** X2. Reading back what [readFile] returned gives the same text: a file
    written with the result of a read, under any path and beside any other
    files, is read unchanged. *)
Theorem readFile_of_its_result (fs fs' : gmap string string)
    (fileName copy : string) :
  readFile (<[copy := readFile fs fileName]> fs') copy = readFile fs fileName.
Proof.
  rewrite (readFile_readable _ copy (readFile fs fileName))
    by apply lookup_insert_eq.
  destruct (fs !! fileName) as [content|] eqn:Hfile.
  - rewrite (readFile_readable _ _ _ Hfile). apply with_final_LF_idempotent.
  - by rewrite (TextFacts.readFile_unreadable _ _ Hfile).
Qed.

(** X3. What [readFile] returns is empty or ends in a line feed, and it is
    at most one character longer than the file. *)
Theorem readFile_ends_in_line_feed (fs : gmap string string) (fileName : string) :
  (readFile fs fileName = EmptyString ∨
   ends_with_LF (readFile fs fileName) = true) ∧
  (String.length (readFile fs fileName)
   ≤ S (String.length (default EmptyString (fs !! fileName))))%nat.
Proof.
  destruct (fs !! fileName) as [content|] eqn:Hfile.
  - rewrite (readFile_readable _ _ _ Hfile). split.
    + apply with_final_LF_ends.
    + change (default EmptyString (Some content)) with content.
      unfold with_final_LF.
      destruct (is_empty content || ends_with_LF content); [lia|].
      clear. induction content as [|c content IH]; [vm_compute; lia|].
      rewrite TextFacts.append_cons.
      cbn [String.length] in *. lia.
  - rewrite (TextFacts.readFile_unreadable _ _ Hfile). split; [by left|cbn; lia].
Qed.

End ReadFileMore.

(** ** [keyCallback], continued *)

Section KeyCallbackMore.

Lemma log_call_changes c w : log_call c w ≠ w.
Proof.
  intros Heq. apply (f_equal (λ w, List.length (calls w))) in Heq.
  cbn in Heq. rewrite length_app in Heq. cbn in Heq. lia.
Qed.

Lemma closed_state_differs window w :
  set_should_close true (log_call (glfwSetWindowShouldClose_ window true) w) ≠ w.
Proof.
  intros Heq. apply (f_equal (λ w, List.length (calls w))) in Heq.
  cbn in Heq. rewrite length_app in Heq. cbn in Heq. lia.
Qed.

Lemma keyCallback_by_test window key scancode action mods w :
  keyCallback window key scancode action mods w =
  if keyCallback_test key action mods
  then Returned () (set_should_close true
                      (log_call (glfwSetWindowShouldClose_ window true) w))
  else Returned () w.
Proof.
  unfold keyCallback. fold (keyCallback_test key action mods).
  by destruct (keyCallback_test key action mods).
Qed.

Lemma keyCallback_test_bits key action mods :
  keyCallback_test key action mods =
  nonzero (Z.land action GLFW_KEY_UP) &&
  ((control_held mods && ((key =? GLFW_KEY_Q) || (key =? GLFW_KEY_W)))
   || (alt_held mods && (key =? GLFW_KEY_F4))).
Proof.
  unfold keyCallback_test, control_held, alt_held.
  change GLFW_MOD_CONTROL with (2 ^ 1). change GLFW_MOD_ALT with (2 ^ 2).
  by rewrite !nonzero_land_bit by lia.
Qed.

(** X4. Whatever [int] values it is called with, also outside the key
    codes, actions and modifier bits of GLFW, [keyCallback] returns
    normally and does one of two things: nothing at all, or one
    [glfwSetWindowShouldClose(window, true)] on the window it was called
    with, after which the close flag is set. It never clears the close
    flag and leaves the rest of the state as it was. *)
Theorem keyCallback_any_arguments
    (window : N) (key scancode action mods : Z) (w : World) :
  ∃ w' : World,
    keyCallback window key scancode action mods w = Returned () w' ∧
    (w' = w ∨
     should_close w' = true ∧
     calls w' = calls w ++ [glfwSetWindowShouldClose_ window true]) ∧
    (should_close w = true → should_close w' = true) ∧
    key_callback w' = key_callback w ∧
    error_callback w' = error_callback w ∧
    objects w' = objects w ∧
    vertex_arrays w' = vertex_arrays w ∧
    cout w' = cout w ∧
    cerr w' = cerr w ∧
    polls w' = polls w.
Proof.
  rewrite keyCallback_by_test.
  destruct (keyCallback_test key action mods).
  - eexists. split; [done|]. cbn. split; [by right|]. by repeat split.
  - exists w. split; [done|]. split; [by left|]. by repeat split.
Qed.

(** X5. Holding further modifiers does not disable a chord: a key event
    that makes [keyCallback] close the window still does so when more
    modifier bits are set (control+shift+Q, control+alt+W, ...). *)
Theorem keyCallback_with_more_modifiers
    (window : N) (key scancode action mods more : Z) (w : World) :
  keyCallback window key scancode action mods w =
  Returned () (set_should_close true
                 (log_call (glfwSetWindowShouldClose_ window true) w)) →
  keyCallback window key scancode action (Z.lor mods more) w =
  Returned () (set_should_close true
                 (log_call (glfwSetWindowShouldClose_ window true) w)).
Proof.
  rewrite !keyCallback_by_test.
  destruct (keyCallback_test key action mods) eqn:Htest; cycle 1.
  { intros [= Heq]. symmetry in Heq. by apply closed_state_differs in Heq. }
  intros _.
  assert (keyCallback_test key action (Z.lor mods more) = true) as ->; [|done].
  rewrite keyCallback_test_bits in *. unfold control_held, alt_held in *.
  rewrite !Z.lor_spec.
  destruct (nonzero (Z.land action GLFW_KEY_UP)); [|done].
  destruct (Z.testbit mods 1), (Z.testbit mods 2),
    ((key =? GLFW_KEY_Q) || (key =? GLFW_KEY_W)), (key =? GLFW_KEY_F4);
    cbn in *; try done; by rewrite ?orb_true_r.
Qed.

Lemma keyCallback_with_more_modifiers_witness :
  keyCallback 7 GLFW_KEY_Q 0 GLFW_PRESS
    (Z.lor GLFW_MOD_CONTROL GLFW_MOD_SHIFT) initial_world =
  Returned () (set_should_close true
                 (log_call (glfwSetWindowShouldClose_ 7 true) initial_world)).
Proof.
  apply (keyCallback_with_more_modifiers 7 GLFW_KEY_Q 0 GLFW_PRESS
           GLFW_MOD_CONTROL GLFW_MOD_SHIFT initial_world).
  reflexivity.
Defined.

Lemma nonzero_lor (a b : Z) :
  nonzero (Z.lor a b) = nonzero a || nonzero b.
Proof.
  unfold nonzero.
  destruct (Z.eqb_spec (Z.lor a b) 0) as [Hzero|Hnonzero].
  - apply Z.lor_eq_0_iff in Hzero as [-> ->]. done.
  - by destruct (Z.eqb_spec a 0) as [->|?], (Z.eqb_spec b 0) as [->|?].
Qed.

(** The mask of the action is the key code 265: bits 0, 3 and 8. *)
Lemma keyUp_bits (action : Z) :
  nonzero (Z.land action GLFW_KEY_UP)
  = Z.testbit action 0 || Z.testbit action 3 || Z.testbit action 8.
Proof.
  change GLFW_KEY_UP with (Z.lor (Z.lor (2 ^ 0) (2 ^ 3)) (2 ^ 8)).
  rewrite !Z.land_lor_distr_r, !nonzero_lor.
  by rewrite !nonzero_land_bit by lia.
Qed.

(** X6. [keyCallback] does nothing at all in exactly these cases: the
    action has none of the bits of [GLFW_KEY_UP] (265: bits 0, 3 and 8),
    as a release (0) and a repeat (2) have; or the key is Q or W without
    control, or F4 without alt, or none of the three. So the modifiers are
    not interchangeable (alt+Q, control+F4 do nothing), while an action
    such as 8 or 256, which GLFW does not send, passes for a press. *)
Theorem keyCallback_ignores_other_combinations
    (window : N) (key scancode action mods : Z) (w : World) :
  keyCallback window key scancode action mods w = Returned () w ↔
  (Z.testbit action 0 = false ∧ Z.testbit action 3 = false ∧
   Z.testbit action 8 = false) ∨
  (key ≠ GLFW_KEY_F4 ∧ control_held mods = false) ∨
  (key ≠ GLFW_KEY_Q ∧ key ≠ GLFW_KEY_W ∧ alt_held mods = false) ∨
  (key ≠ GLFW_KEY_Q ∧ key ≠ GLFW_KEY_W ∧ key ≠ GLFW_KEY_F4).
Proof.
  rewrite keyCallback_by_test, keyCallback_test_bits, keyUp_bits.
  set (up := Z.testbit action 0 || Z.testbit action 3 || Z.testbit action 8).
  assert (up = false ↔
          Z.testbit action 0 = false ∧ Z.testbit action 3 = false ∧
          Z.testbit action 8 = false) as Hup.
  { unfold up. rewrite !orb_false_iff. tauto. }
  rewrite <- Hup. clear Hup. split.
  - destruct (up && _) eqn:Htest.
    { intros [= Hsame]. by apply closed_state_differs in Hsame. }
    intros _. destruct up; [|by left]. right.
    destruct (control_held mods), (alt_held mods),
      (Z.eqb_spec key GLFW_KEY_Q), (Z.eqb_spec key GLFW_KEY_W),
      (Z.eqb_spec key GLFW_KEY_F4); subst; cbn in Htest; try discriminate;
      first [ left; split; [done|reflexivity]
            | right; left; repeat split; done
            | right; right; repeat split; done ].
  - intros Hcase.
    assert (up && ((control_held mods
                    && ((key =? GLFW_KEY_Q) || (key =? GLFW_KEY_W)))
                   || (alt_held mods && (key =? GLFW_KEY_F4))) = false) as ->;
      [|done].
    destruct Hcase as [->|[[HF4 ->]|[(HQ & HW & ->)|(HQ & HW & HF4)]]];
      [done|..].
    + apply Z.eqb_neq in HF4. by rewrite HF4, !andb_false_r.
    + apply Z.eqb_neq in HQ, HW. by rewrite HQ, HW, !andb_false_r.
    + apply Z.eqb_neq in HQ, HW, HF4. by rewrite HQ, HW, HF4, !andb_false_r.
Qed.

Lemma keyCallback_ignores_other_combinations_witness :
  keyCallback 7 GLFW_KEY_Q 0 GLFW_PRESS GLFW_MOD_ALT initial_world
  = Returned () initial_world.
Proof.
  apply (proj2 (keyCallback_ignores_other_combinations 7 GLFW_KEY_Q 0
                  GLFW_PRESS GLFW_MOD_ALT initial_world)).
  right. left. split; [discriminate | reflexivity].
Defined.

(** What GLFW does not send: the action 8 with control+W closes the
    window, and so does 256. *)
Example keyCallback_action_8 :
  should_close
    (final_world (keyCallback 7 GLFW_KEY_W 0 8 GLFW_MOD_CONTROL initial_world))
  = true ∧
  should_close
    (final_world (keyCallback 7 GLFW_KEY_Q 0 256 GLFW_MOD_CONTROL
                    initial_world))
  = true.
Proof. by split. Qed.

End KeyCallbackMore.

(** ** The order of calls *)

Section Order.

Lemma ordered_sound ok mark cs : ∀ seen,
  ordered ok mark seen cs = true →
  ∀ before c after,
    cs = before ++ c :: after →
    ok (seen || existsb mark before) c = true.
Proof.
  induction cs as [|c0 cs IH]; intros seen Hordered before c after Hsplit.
  - by destruct before.
  - cbn in Hordered. apply andb_true_iff in Hordered as [Hok Hrest].
    destruct before as [|b before]; cbn in Hsplit; injection Hsplit as -> ->.
    + by rewrite orb_false_r.
    + cbn. rewrite orb_assoc. by eapply IH.
Qed.

Lemma ordered_app ok mark cs1 : ∀ seen cs2,
  ordered ok mark seen (cs1 ++ cs2) =
  ordered ok mark seen cs1 &&
  ordered ok mark (seen || existsb mark cs1) cs2.
Proof.
  induction cs1 as [|c cs1 IH]; intros seen cs2; cbn.
  - by rewrite orb_false_r.
  - by rewrite IH, orb_assoc, andb_assoc.
Qed.

Lemma existsb_Exists (test : Call → bool) cs :
  existsb test cs = true → Exists (λ c, test c = true) cs.
Proof.
  intros (c & Hin & Hc)%existsb_exists. apply Exists_exists.
  exists c. by rewrite list_elem_of_In.
Qed.

Lemma not_existsb_Forall (test : Call → bool) cs :
  existsb test cs = false → Forall (λ c, test c = false) cs.
Proof.
  induction cs as [|c cs IH]; cbn; [by constructor|].
  intros [Hc Hcs]%orb_false_iff. constructor; auto.
Qed.

(** The check for [comes_after]. *)
Lemma comes_after_checked later earlier cs :
  ordered (λ seen c, negb (later c) || seen) earlier false cs = true →
  comes_after later earlier cs.
Proof.
  intros Hordered before c after Hsplit Hlater.
  pose proof (ordered_sound _ _ _ _ Hordered _ _ _ Hsplit) as Hok.
  cbn in Hok. rewrite Hlater in Hok. by apply existsb_Exists.
Qed.

(** The check for [never_after]. *)
Lemma never_after_checked later earlier cs :
  ordered (λ seen c, negb (seen && later c)) earlier false cs = true →
  never_after later earlier cs.
Proof.
  intros Hordered before c after Hsplit Hlater.
  pose proof (ordered_sound _ _ _ _ Hordered _ _ _ Hsplit) as Hok.
  cbn in Hok. rewrite Hlater, andb_true_r in Hok.
  apply not_existsb_Forall. by apply negb_true_iff.
Qed.

End Order.

(** ** [initializeWindow], continued *)

Section InitializeWindowMore.

Variable env : Env.

(** All of what [initializeWindow] does. *)
Lemma initializeWindow_runs w :
  ∃ w',
    initializeWindow env w = Returned (window_result env) w' ∧
    calls w' = calls w ++ initializeWindow_calls env ∧
    cout w' = cout w +:+ initializeWindow_cout env ∧
    cerr w' = cerr w +:+ initializeWindow_cerr env ∧
    key_callback w' =
      (if window_ready env then Some (created_window env) else key_callback w) ∧
    error_callback w' =
      (if glfwInit_succeeds env && DEBUG env then true else error_callback w) ∧
    should_close w' = should_close w ∧
    objects w' = objects w ∧
    vertex_arrays w' = vertex_arrays w ∧
    polls w' = polls w.
Proof.
  unfold initializeWindow, glfwInit, glfwCreateWindow, errorCallbackGLFW,
    window_result, initializeWindow_calls, initializeWindow_cout,
    initializeWindow_cerr, window_ready.
  run_M.
  destruct (decide (created_window env = 0%N)) as [Hwindow|Hwindow];
    [rewrite ?Hwindow | apply N.eqb_neq in Hwindow];
    destruct (glfwInit_succeeds env), (DEBUG env), (APPLE env),
      (ARB_debug_output env);
    cbn; rewrite ?Hwindow; cbn; destruct (error_callback w) eqn:Hcallback; cbn;
    rewrite ?Hwindow; cbn;
    (eexists; split; [reflexivity|]; cbn;
     rewrite <- ?app_assoc, ?TextFacts.append_assoc, ?TextFacts.append_empty_r,
       ?Hcallback;
     by repeat split).
Qed.

(** X7. [initializeWindow] always returns (it neither throws nor exits).
    It returns the null pointer exactly when [glfwInit] or
    [glfwCreateWindow] failed, and otherwise the window GLFW created, with
    [keyCallback] installed on it; after a failure no key callback has
    been installed. The close flag and the GL objects are as before. *)
Theorem initializeWindow_null_iff_failed (w : World) :
  ∃ (window : N) (w' : World),
    initializeWindow env w = Returned window w' ∧
    (window = 0%N ↔
     glfwInit_succeeds env = false ∨ created_window env = 0%N) ∧
    (window ≠ 0%N →
     window = created_window env ∧ key_callback w' = Some window) ∧
    (window = 0%N → key_callback w' = key_callback w) ∧
    should_close w' = should_close w ∧
    objects w' = objects w ∧
    vertex_arrays w' = vertex_arrays w ∧
    polls w' = polls w.
Proof.
  destruct (initializeWindow_runs w)
    as (w' & Hrun & _ & _ & _ & Hkey & _ & Hclose & Hobj & Hvao & Hpolls).
  exists (window_result env), w'. split; [done|].
  unfold window_result, window_ready in *.
  destruct (glfwInit_succeeds env); cbn in *.
  - destruct (N.eqb_spec (created_window env) 0) as [Hnull|Hwindow];
      cbn in Hkey; repeat split; try done; intuition congruence.
  - repeat split; try done; auto.
Qed.

(** X8. [initializeWindow] calls [glfwInit] once. It creates at most one
    window, and only after [glfwInit] succeeded. It calls [glfwTerminate]
    once when the window could not be created, and not at all otherwise:
    not when [glfwInit] itself failed, and not when the window is
    returned. *)
Theorem initializeWindow_terminates_only_without_window (w : World) :
  ∃ (window : N) (w' : World) (new_calls : list Call),
    initializeWindow env w = Returned window w' ∧
    calls w' = calls w ++ new_calls ∧
    count_calls is_glfwInit new_calls = 1%nat ∧
    count_calls is_glfwCreateWindow new_calls
    = (if glfwInit_succeeds env then 1 else 0)%nat ∧
    count_calls is_glfwTerminate new_calls
    = (if glfwInit_succeeds env && (created_window env =? 0)%N
       then 1 else 0)%nat.
Proof.
  destruct (initializeWindow_runs w) as (w' & Hrun & Hcalls & _).
  exists (window_result env), w', (initializeWindow_calls env).
  split; [done|]. split; [done|].
  unfold initializeWindow_calls, count_calls.
  by destruct (glfwInit_succeeds env), (DEBUG env), (APPLE env),
    (ARB_debug_output env), (created_window env =? 0)%N.
Qed.

(** X9. Inside [initializeWindow] every window hint is given before the
    window is created (none after), and every call into GL comes after
    the context of the window was made current. *)
Theorem initializeWindow_order (w : World) :
  ∃ (window : N) (w' : World) (new_calls : list Call),
    initializeWindow env w = Returned window w' ∧
    calls w' = calls w ++ new_calls ∧
    never_after is_glfwWindowHint is_glfwCreateWindow new_calls ∧
    comes_after is_gl_call is_glfwMakeContextCurrent new_calls.
Proof.
  destruct (initializeWindow_runs w) as (w' & Hrun & Hcalls & _).
  exists (window_result env), w', (initializeWindow_calls env).
  split; [done|]. split; [done|]. split.
  - apply never_after_checked. unfold initializeWindow_calls.
    by destruct (glfwInit_succeeds env), (DEBUG env), (APPLE env),
      (ARB_debug_output env), (created_window env =? 0)%N.
  - apply comes_after_checked. unfold initializeWindow_calls.
    by destruct (glfwInit_succeeds env), (DEBUG env), (APPLE env),
      (ARB_debug_output env), (created_window env =? 0)%N.
Qed.

(** X10. In a build without [DEBUG], [initializeWindow] writes nothing to
    [std::cout] or [std::cerr], installs no error callback, and its only
    call on the side of GL is the loading of the GL functions. *)
Theorem initializeWindow_release_build_is_silent (w : World) :
  DEBUG env = false →
  ∃ (window : N) (w' : World) (new_calls : list Call),
    initializeWindow env w = Returned window w' ∧
    calls w' = calls w ++ new_calls ∧
    cout w' = cout w ∧
    cerr w' = cerr w ∧
    error_callback w' = error_callback w ∧
    Forall (λ c, is_gl_call c = true → c = gladLoadGL_) new_calls.
Proof.
  intros Hrelease.
  destruct (initializeWindow_runs w)
    as (w' & Hrun & Hcalls & Hcout & Hcerr & _ & Hcallback & _).
  exists (window_result env), w', (initializeWindow_calls env).
  unfold initializeWindow_cout, initializeWindow_cerr in *.
  rewrite Hrelease, ?andb_false_r in *. cbn in Hcerr.
  rewrite TextFacts.append_empty_r in Hcout, Hcerr.
  repeat (split; [done|]).
  unfold initializeWindow_calls. rewrite Hrelease.
  destruct (glfwInit_succeeds env), (APPLE env),
    (created_window env =? 0)%N; cbn;
    repeat constructor; done.
Qed.

(** X11. In a build with [DEBUG]: when the window is returned, three lines
    go to [std::cout] (whether the debug extension is available, the C++
    version, the OpenGL version) and nothing to [std::cerr]; when it is
    not, nothing goes to [std::cout] and one line goes to [std::cerr],
    through [errorCallbackGLFW] with the description GLFW gave of its
    error when the window was not created, and with the fixed text when
    [glfwInit] failed (the callback is not installed yet). *)
Theorem initializeWindow_debug_build_output (w : World) :
  DEBUG env = true →
  ∃ (window : N) (w' : World),
    initializeWindow env w = Returned window w' ∧
    (window ≠ 0%N →
     cerr w' = cerr w ∧
     cout w' =
       cout w
       +:+ ((if ARB_debug_output env
             then "GL extension GL_ARB_debug_output available"
             else "GL extension GL_ARB_debug_output unavailable") +:+ endl)
       +:+ (("C++ version: " +:+ cplusplus env) +:+ endl)
       +:+ (("OpenGL version: " +:+ gl_version env) +:+ endl)) ∧
    (window = 0%N →
     cout w' = cout w ∧
     cerr w' =
       cerr w
       +:+ ("GLFW error: "
            +:+ (if glfwInit_succeeds env then glfw_error env
                 else "Initialization failed")) +:+ endl).
Proof.
  intros Hdebug.
  destruct (initializeWindow_runs w) as (w' & Hrun & _ & Hcout & Hcerr & _).
  exists (window_result env), w'. split; [done|].
  unfold initializeWindow_cout, initializeWindow_cerr, window_ready,
    window_result in *.
  rewrite Hdebug, ?andb_true_r in *. rewrite Hcout, Hcerr.
  destruct (glfwInit_succeeds env); cbn.
  - destruct (N.eqb_spec (created_window env) 0) as [Hnull|Hwindow]; cbn.
    + split; [done|]. intros _. by rewrite TextFacts.append_empty_r.
    + split; [|done]. intros _. by rewrite TextFacts.append_empty_r.
  - split; [done|]. intros _. by rewrite TextFacts.append_empty_r.
Qed.

End InitializeWindowMore.

Lemma initializeWindow_release_build_is_silent_witness :
  ∃ (window : N) (w' : World) (new_calls : list Call),
    initializeWindow example_env initial_world = Returned window w' ∧
    calls w' = calls initial_world ++ new_calls ∧
    cout w' = cout initial_world ∧
    cerr w' = cerr initial_world ∧
    error_callback w' = error_callback initial_world ∧
    Forall (λ c, is_gl_call c = true → c = gladLoadGL_) new_calls.
Proof.
  apply (initializeWindow_release_build_is_silent example_env initial_world).
  reflexivity.
Defined.

Lemma initializeWindow_debug_build_output_witness :
  ∃ (window : N) (w' : World),
    initializeWindow (with_build true example_no_glfw) initial_world
    = Returned window w' ∧
    (window ≠ 0%N →
     cerr w' = cerr initial_world ∧
     cout w' =
       cout initial_world
       +:+ ((if ARB_debug_output (with_build true example_no_glfw)
             then "GL extension GL_ARB_debug_output available"
             else "GL extension GL_ARB_debug_output unavailable") +:+ endl)
       +:+ (("C++ version: " +:+ cplusplus (with_build true example_no_glfw))
            +:+ endl)
       +:+ (("OpenGL version: " +:+ gl_version (with_build true example_no_glfw))
            +:+ endl)) ∧
    (window = 0%N →
     cout w' = cout initial_world ∧
     cerr w' =
       cerr initial_world
       +:+ ("GLFW error: "
            +:+ (if glfwInit_succeeds (with_build true example_no_glfw)
                 then glfw_error (with_build true example_no_glfw)
                 else "Initialization failed")) +:+ endl).
Proof.
  apply (initializeWindow_debug_build_output (with_build true example_no_glfw)
           initial_world).
  reflexivity.
Defined.


(** ** [createShader] and [createProgram], continued *)

Section BuildMore.

Variable env : Env.

Lemma c_str_no_NUL (s : string) : has_NUL (c_str s) = false.
Proof.
  induction s as [|c s IH]; [done|]. cbn.
  destruct (Ascii.eqb c NUL) eqn:Hc; [done|]. cbn. by rewrite Hc.
Qed.

(** [c_str] stops at the end of the text or at a NUL. *)
Lemma c_str_split (s : string) :
  ∃ rest,
    s = c_str s +:+ rest ∧
    (rest = EmptyString ∨ ∃ rest', rest = String NUL rest').
Proof.
  induction s as [|c s (rest & IH & Hrest)]; [exists EmptyString; auto|]. cbn.
  destruct (Ascii.eqb c NUL) eqn:Hc.
  - apply Ascii.eqb_eq in Hc as ->. exists (String NUL s). eauto.
  - exists rest. rewrite TextFacts.append_cons. split; [by f_equal|done].
Qed.

Lemma c_str_without_NUL (s : string) : has_NUL s = false → c_str s = s.
Proof.
  induction s as [|c s IH]; [done|]. cbn.
  destruct (Ascii.eqb c NUL); [done|]. cbn. intros Hs. by rewrite IH.
Qed.

(** X12. [createShader] always returns, whether or not the shader
    compiled: it does not look at the compile status. The name it returns
    is not [0] and was not in use; the one object added under it is the
    shader of the given stage, and no other object is changed. It makes
    the three calls create, source, compile, in that order. *)
Theorem createShader_adds_one_shader (type : Z) (source : string) (w : World) :
  ∃ (shader : N) (w' : World),
    createShader env type source w = Returned shader w' ∧
    shader ≠ 0%N ∧
    objects w !! shader = None ∧
    objects w' =
      <[shader := ShaderObject type (c_str source)
                    (compiles env type (c_str source)) false
                    (shader_log env type (c_str source))]> (objects w) ∧
    calls w' = calls w ++ [ glCreateShader_ type;
                            glShaderSource_ shader 1 (c_str source);
                            glCompileShader_ shader ].
Proof.
  eexists _, _. split; [apply createShader_runs|].
  split; [apply new_name_nonzero|].
  split; [apply new_name_no_object|].
  split; [done|]. cbn. by rewrite <- !app_assoc.
Qed.

(** X13. The source reaches GL as a NUL-terminated string: what
    [createShader] hands to [glShaderSource], and what the shader stores,
    is the text up to the first NUL character. It holds no NUL, the source
    is this text followed by nothing or by a NUL and more, and it is the
    whole text when that holds no NUL. *)
Theorem createShader_source_ends_at_NUL (type : Z) (source : string) (w : World) :
  ∃ (shader : N) (w' : World) (stored : string) (compiled : bool)
    (log : string),
    createShader env type source w = Returned shader w' ∧
    objects w' !! shader = Some (ShaderObject type stored compiled false log) ∧
    glShaderSource_ shader 1 stored ∈ calls w' ∧
    has_NUL stored = false ∧
    (∃ rest, source = stored +:+ rest ∧
             (rest = EmptyString ∨ ∃ rest', rest = String NUL rest')) ∧
    (has_NUL source = false → stored = source).
Proof.
  eexists _, _, (c_str source), _, _.
  split; [apply createShader_runs|].
  split; [cbn; apply lookup_insert_eq|].
  split; [cbn; set_solver|].
  auto using c_str_no_NUL, c_str_split, c_str_without_NUL.
Qed.

(** A source with a NUL in it: GL gets the text before the NUL. *)
Example createShader_source_with_NUL :
  glShaderSource_ 1 1 "ab"
  ∈ calls (final_world
             (createShader example_env GL_VERTEX_SHADER
                ("ab" +:+ String NUL "c") initial_world)).
Proof. vm_compute. set_solver. Qed.

Lemma fill_buffer_length (size : nat) : ∀ log,
  String.length (fill_buffer size log) = size.
Proof.
  induction size as [|size IH]; intros log; [done|].
  cbn [fill_buffer]. destruct size as [|size], log as [|c log];
    cbn [String.length]; by rewrite ?IH.
Qed.

Lemma fill_buffer_whole (log : string) :
  fill_buffer (S (String.length log)) log = log +:+ String NUL EmptyString.
Proof.
  induction log as [|c log IH]; [done|].
  cbn [String.length fill_buffer]. rewrite TextFacts.append_cons. by f_equal.
Qed.

(** The buffer sized by [GL_INFO_LOG_LENGTH] takes the whole log. *)
Lemma info_log_buffer (log : string) :
  fill_buffer (Z.to_nat (info_log_length log)) log = log_text log.
Proof.
  unfold info_log_length, log_text. destruct log as [|c log]; [done|].
  cbn [is_empty].
  replace (Z.to_nat (Z.of_nat (String.length (String c log)) + 1))
    with (S (String.length (String c log))) by lia.
  apply fill_buffer_whole.
Qed.

Lemma info_log_length_positive (log : string) :
  (0 <? info_log_length log) = negb (is_empty log).
Proof.
  unfold info_log_length. destruct log as [|c log]; [done|].
  cbn [is_empty negb]. apply Z.ltb_lt. lia.
Qed.

(** X14. What the [#ifdef DEBUG] block of [createProgram] writes for a
    failed link, in a build with [DEBUG]: one line with the log of the
    program, always, also when that log is empty; then one line for the
    vertex shader and one for the fragment shader, each only when the log
    of that shader is not empty. Each log is written whole (the buffer
    sized from [GL_INFO_LOG_LENGTH] cuts nothing off), with the
    terminating NUL GL put after it. Nothing goes to [std::cout] and no
    object changes. *)
Theorem report_build_failure_text
    (p vs fs : N) (w : World) (attached : list N) (linked : bool)
    (plog : string) (vtype ftype : Z) (vsource fsource : string)
    (vcompiled vflagged fcompiled fflagged : bool) (vlog flog : string) :
  DEBUG env = true →
  objects w !! p = Some (ProgramObject attached linked plog) →
  objects w !! vs = Some (ShaderObject vtype vsource vcompiled vflagged vlog) →
  objects w !! fs = Some (ShaderObject ftype fsource fcompiled fflagged flog) →
  ∃ w' : World,
    report_build_failure env p vs fs w = Returned () w' ∧
    cerr w' =
      cerr w
      +:+ (("GL program error: " +:+ log_text plog) +:+ endl)
      +:+ (if is_empty vlog then EmptyString
           else ("GL vertex shader error: " +:+ log_text vlog) +:+ endl)
      +:+ (if is_empty flog then EmptyString
           else ("GL fragment shader error: " +:+ log_text flog) +:+ endl) ∧
    cout w' = cout w ∧
    objects w' = objects w.
Proof.
  intros Hdebug Hp Hvs Hfs.
  unfold report_build_failure, report_shader_log, glGetProgramiv,
    glGetProgramInfoLog, glGetShaderiv, glGetShaderInfoLog.
  run_M. rewrite Hdebug.
  destruct (is_empty vlog) eqn:Hvempty, (is_empty flog) eqn:Hfempty;
    repeat (progress (cbn; rewrite ?Hp, ?Hvs, ?Hfs, ?info_log_buffer,
                        ?info_log_length_positive, ?Hvempty, ?Hfempty));
    (eexists; split; [reflexivity|]; cbn;
     rewrite ?TextFacts.append_assoc, ?TextFacts.append_empty_r; done).
Qed.

Lemma attachments_live_insert_program (m : gmap N GLObject) p linked log :
  attachments_live m →
  attachments_live (<[p := ProgramObject [] linked log]> m).
Proof.
  intros Hlive name attached linked' log' shader Hname Hin.
  destruct (decide (p = name)) as [->|Hne].
  - rewrite lookup_insert_eq in Hname. injection Hname as <- _ _.
    by apply elem_of_nil in Hin.
  - rewrite lookup_insert_ne in Hname by done.
    rewrite dom_insert_L. apply elem_of_union. right. by eapply Hlive.
Qed.

(** The objects [createProgram] leaves, whatever the link status. *)
Lemma createProgram_objects v f w :
  attachments_live (objects w) →
  ∃ p,
    p ≠ 0%N ∧ objects w !! p = None ∧
    createProgram env v f w =
      (if link_succeeds env v f
       then Returned p (final_world (createProgram env v f w))
       else Thrown build_error (final_world (createProgram env v f w))) ∧
    objects (final_world (createProgram env v f w)) =
      <[p := ProgramObject [] (link_succeeds env v f)
               (program_log env (build_stages v f))]> (objects w).
Proof.
  intros Hlive.
  destruct (createProgram_runs env v f w)
    as (w' & Hrun & _ & _ & _ & _ & _ & _ & _ & _ & Hobj).
  destruct (build_names (objects w)) as (_ & _ & Hp & _ & _ & _ & Hnonzero).
  eexists. split; [exact Hnonzero|]. split; [exact Hp|].
  rewrite Hrun. destruct (link_succeeds env v f); cbn; auto.
Qed.

(** X15. When the link fails, [createProgram] has deleted both shaders
    but not the program: the exception leaves behind the program object
    that failed to link, with nothing attached, under a name the caller
    never gets. Every other object is as it was. *)
Theorem createProgram_failure_leaves_the_program
    (vertexSource fragmentSource : string) (w : World) :
  attachments_live (objects w) →
  link_succeeds env vertexSource fragmentSource = false →
  ∃ (p : N) (w' : World),
    createProgram env vertexSource fragmentSource w = Thrown build_error w' ∧
    p ≠ 0%N ∧
    objects w !! p = None ∧
    objects w' =
      <[p := ProgramObject [] false
               (program_log env (build_stages vertexSource fragmentSource))]>
        (objects w).
Proof.
  intros Hlive Hfail.
  destruct (createProgram_objects vertexSource fragmentSource w Hlive)
    as (p & Hnonzero & Hp & Hrun & Hobj).
  rewrite Hfail in Hrun, Hobj. by eexists _, _.
Qed.

(** X16. [createProgram] keeps the GL objects well formed: if every shader
    attached to a program is a live object before the call, the same holds
    after it, whether it returned or threw. *)
Theorem createProgram_keeps_attachments_live
    (vertexSource fragmentSource : string) (w : World) :
  attachments_live (objects w) →
  attachments_live
    (objects (final_world (createProgram env vertexSource fragmentSource w))).
Proof.
  intros Hlive.
  destruct (createProgram_objects vertexSource fragmentSource w Hlive)
    as (p & _ & _ & _ & ->).
  by apply attachments_live_insert_program.
Qed.

(** X17. Builds compose: a second [createProgram] after a first one that
    returned gives a different program name, and both programs are live
    afterwards (the names of the deleted shaders may be used again, the
    name of a program is not). *)
Theorem createProgram_twice
    (v1 f1 v2 f2 : string) (w w1 w2 : World) (p1 p2 : N) :
  attachments_live (objects w) →
  createProgram env v1 f1 w = Returned p1 w1 →
  createProgram env v2 f2 w1 = Returned p2 w2 →
  p1 ≠ p2 ∧
  is_Some (objects w2 !! p1) ∧
  is_Some (objects w2 !! p2) ∧
  dom (objects w2) = {[p1; p2]} ∪ dom (objects w).
Proof.
  intros Hlive Hfirst Hsecond.
  destruct (createProgram_objects v1 f1 w Hlive)
    as (q1 & _ & Hq1 & Hrun1 & Hobj1).
  rewrite Hfirst in Hrun1, Hobj1. cbn in Hrun1, Hobj1.
  destruct (link_succeeds env v1 f1); [|done].
  assert (p1 = q1) as <- by congruence.
  assert (attachments_live (objects w1)) as Hlive1.
  { rewrite Hobj1. by apply attachments_live_insert_program. }
  destruct (createProgram_objects v2 f2 w1 Hlive1)
    as (q2 & _ & Hq2 & Hrun2 & Hobj2).
  rewrite Hsecond in Hrun2, Hobj2. cbn in Hrun2, Hobj2.
  destruct (link_succeeds env v2 f2); [|done].
  assert (p2 = q2) as <- by congruence.
  assert (p1 ≠ p2) as Hne.
  { intros ->. rewrite Hobj1, lookup_insert_eq in Hq2. done. }
  split; [done|]. rewrite Hobj2, Hobj1.
  split; [rewrite lookup_insert_ne, lookup_insert_eq by done; eauto|].
  split; [rewrite lookup_insert_eq; eauto|].
  rewrite !dom_insert_L.
  by rewrite (assoc_L (∪)), (comm_L (∪) {[p2]}).
Qed.

End BuildMore.

Lemma report_build_failure_text_witness :
  ∃ w' : World,
    report_build_failure (with_build true example_env) 3 1 2
      example_failed_link = Returned () w' ∧
    cerr w' =
      cerr example_failed_link
      +:+ (("GL program error: " +:+ log_text "no main") +:+ endl)
      +:+ (if is_empty "syntax error" then EmptyString
           else ("GL vertex shader error: " +:+ log_text "syntax error")
                +:+ endl)
      +:+ (if is_empty "" then EmptyString
           else ("GL fragment shader error: " +:+ log_text "") +:+ endl) ∧
    cout w' = cout example_failed_link ∧
    objects w' = objects example_failed_link.
Proof.
  apply (report_build_failure_text (with_build true example_env) 3 1 2
           example_failed_link [1%N; 2%N] false "no main"
           GL_VERTEX_SHADER GL_FRAGMENT_SHADER "x" ""
           false false true false "syntax error" "").
  - reflexivity.
  - vm_compute. reflexivity.
  - vm_compute. reflexivity.
  - vm_compute. reflexivity.
Defined.

Lemma createProgram_failure_leaves_the_program_witness :
  ∃ (p : N) (w' : World),
    createProgram example_no_files (vertex_source example_no_files)
      (fragment_source example_no_files) initial_world
    = Thrown build_error w' ∧
    p ≠ 0%N ∧
    objects initial_world !! p = None ∧
    objects w' =
      <[p := ProgramObject [] false
               (program_log example_no_files
                  (build_stages (vertex_source example_no_files)
                     (fragment_source example_no_files)))]>
        (objects initial_world).
Proof.
  apply (createProgram_failure_leaves_the_program example_no_files
           (vertex_source example_no_files) (fragment_source example_no_files)
           initial_world).
  - apply attachments_live_empty.
  - vm_compute. reflexivity.
Defined.

Lemma createProgram_keeps_attachments_live_witness :
  attachments_live
    (objects (final_world
                (createProgram example_env (vertex_source example_env)
                   (fragment_source example_env) initial_world))).
Proof.
  apply (createProgram_keeps_attachments_live example_env
           (vertex_source example_env) (fragment_source example_env)
           initial_world).
  apply attachments_live_empty.
Defined.

Lemma createProgram_twice_witness :
  createProgram example_env "a" "b" initial_world
  = Returned 3%N example_one_program ∧
  createProgram example_env "c" "d" example_one_program
  = Returned example_second_name example_two_programs ∧
  3%N ≠ example_second_name ∧
  is_Some (objects example_two_programs !! 3%N) ∧
  is_Some (objects example_two_programs !! example_second_name) ∧
  dom (objects example_two_programs)
  = {[3%N; example_second_name]} ∪ dom (objects initial_world).
Proof.
  split; [vm_compute; reflexivity|].
  split; [vm_compute; reflexivity|].
  apply (createProgram_twice example_env "a" "b" "c" "d" initial_world
           example_one_program example_two_programs 3 example_second_name).
  - apply attachments_live_empty.
  - vm_compute. reflexivity.
  - vm_compute. reflexivity.
Defined.

(** ** [initializeGL], continued *)

Section InitializeGLMore.

Variable env : Env.

Lemma build_calls_no_vertex_array vs fs p v f :
  Forall (λ c, is_vertex_array_call c = false) (build_calls env vs fs p v f).
Proof.
  unfold build_calls, diagnostics, shader_diagnostics.
  destruct (DEBUG env && negb (link_succeeds env v f));
    [destruct (0 <? info_log_length (shader_log env GL_VERTEX_SHADER (c_str v))),
       (0 <? info_log_length (shader_log env GL_FRAGMENT_SHADER (c_str f)))|];
    cbn; by repeat constructor.
Qed.

(** All of what [initializeGL] does to the vertex arrays and the log. *)
Lemma initializeGL_runs w :
  ∃ p build w',
    p ≠ 0%N ∧ objects w !! p = None ∧
    Forall (λ c, is_vertex_array_call c = false) build ∧
    initializeGL env w =
      (if build_succeeds env
       then Returned (mkProgramData p (new_name (vertex_arrays w)) 3) w'
       else Thrown build_error w') ∧
    calls w' =
      calls w ++ build
      ++ (if build_succeeds env
          then vertex_array_calls (new_name (vertex_arrays w)) else []) ∧
    vertex_arrays w' =
      (if build_succeeds env
       then {[new_name (vertex_arrays w)]} ∪ vertex_arrays w
       else vertex_arrays w).
Proof.
  destruct (createProgram_runs env (vertex_source env) (fragment_source env) w)
    as (w1 & Hrun & Hcalls & _ & _ & _ & Hvao & _).
  destruct (build_names (objects w)) as (_ & _ & Hp & _ & _ & _ & Hnonzero).
  unfold initializeGL, build_succeeds.
  fold (vertex_source env) (fragment_source env).
  destruct (link_succeeds env (vertex_source env) (fragment_source env)).
  - erewrite bind_Returned; [|exact Hrun].
    unfold glGenVertexArrays. run_M. cbn. rewrite Hvao.
    match type of Hcalls with _ = _ ++ ?build => eexists _, build, _ end.
    split; [exact Hnonzero|]. split; [exact Hp|].
    split; [apply build_calls_no_vertex_array|].
    split; [reflexivity|].
    cbn [calls vertex_arrays log_call set_vertex_arrays].
    split; [|done].
    unfold vertex_array_calls. by rewrite Hcalls, <- !app_assoc.
  - unfold mbind, M_bind. rewrite Hrun.
    match type of Hcalls with _ = _ ++ ?build => eexists _, build, _ end.
    split; [exact Hnonzero|]. split; [exact Hp|].
    split; [apply build_calls_no_vertex_array|].
    split; [reflexivity|]. split; [|done]. by rewrite app_nil_r.
Qed.

(** X18. When the build fails, [initializeGL] throws before it comes to
    the vertex array: none is generated or bound, and the vertex arrays
    are as they were. *)
Theorem initializeGL_failure_makes_no_vertex_array (w : World) :
  build_succeeds env = false →
  ∃ (w' : World) (new_calls : list Call),
    initializeGL env w = Thrown build_error w' ∧
    calls w' = calls w ++ new_calls ∧
    Forall (λ c, is_vertex_array_call c = false) new_calls ∧
    vertex_arrays w' = vertex_arrays w.
Proof.
  intros Hfail.
  destruct (initializeGL_runs w)
    as (p & build & w' & _ & _ & Hbuild & Hrun & Hcalls & Hvao).
  rewrite Hfail in Hrun, Hcalls, Hvao. rewrite app_nil_r in Hcalls.
  by exists w', build.
Qed.

(** X19. When the build succeeds, [initializeGL] returns a program name
    and a vertex array name that are not null and were not in use, with
    vertex count 3. The vertex array is the one new vertex array; it is
    made after the whole build, by the last three calls: generated, bound
    and unbound again, so that no vertex array is bound on return. *)
Theorem initializeGL_makes_one_vertex_array (w : World) :
  build_succeeds env = true →
  ∃ (programData : ProgramData) (w' : World) (build : list Call),
    initializeGL env w = Returned programData w' ∧
    calls w' = calls w ++ build ++ vertex_array_calls (vao programData) ∧
    Forall (λ c, is_vertex_array_call c = false) build ∧
    vao programData ≠ 0%N ∧
    (vao programData ∉ vertex_arrays w) ∧
    vertex_arrays w' = ({[vao programData]} ∪ vertex_arrays w) ∧
    program programData ≠ 0%N ∧
    objects w !! program programData = None ∧
    vertexCount programData = 3.
Proof.
  intros Hok.
  destruct (initializeGL_runs w)
    as (p & build & w' & Hnonzero & Hp & Hbuild & Hrun & Hcalls & Hvao).
  rewrite Hok in Hrun, Hcalls, Hvao.
  eexists _, w', build. split; [exact Hrun|]. cbn.
  split; [done|]. split; [done|].
  split; [apply new_name_nonzero|]. split; [apply new_name_fresh|]. done.
Qed.

Lemma readFile_by_lookup (fs1 fs2 : gmap string string) fileName :
  fs1 !! fileName = fs2 !! fileName →
  Text.readFile fs1 fileName = Text.readFile fs2 fileName.
Proof.
  intros Hsame. destruct (fs2 !! fileName) as [content|] eqn:Hfile.
  - by rewrite (readFile_readable fs1 _ content),
      (readFile_readable fs2 _ content).
  - by rewrite !TextFacts.readFile_unreadable.
Qed.

(** X20. Of the files, [initializeGL] depends on [shaders/main.vert] and
    [shaders/main.frag] only: with two sets of files that agree on these
    two paths it does the same. *)
Theorem initializeGL_reads_two_files
    (files1 files2 : gmap string string) (w : World) :
  files1 !! "shaders/main.vert" = files2 !! "shaders/main.vert" →
  files1 !! "shaders/main.frag" = files2 !! "shaders/main.frag" →
  initializeGL (with_files files1 env) w
  = initializeGL (with_files files2 env) w.
Proof.
  intros Hvert Hfrag. unfold initializeGL. cbn [files with_files].
  rewrite (readFile_by_lookup files1 files2 _ Hvert),
    (readFile_by_lookup files1 files2 _ Hfrag).
  reflexivity.
Qed.

End InitializeGLMore.

Lemma initializeGL_failure_makes_no_vertex_array_witness :
  ∃ (w' : World) (new_calls : list Call),
    initializeGL example_no_files example_window_ready
    = Thrown build_error w' ∧
    calls w' = calls example_window_ready ++ new_calls ∧
    Forall (λ c, is_vertex_array_call c = false) new_calls ∧
    vertex_arrays w' = vertex_arrays example_window_ready.
Proof.
  apply (initializeGL_failure_makes_no_vertex_array example_no_files
           example_window_ready).
  vm_compute. reflexivity.
Defined.

Lemma initializeGL_makes_one_vertex_array_witness :
  ∃ (programData : ProgramData) (w' : World) (build : list Call),
    initializeGL example_env example_window_ready = Returned programData w' ∧
    calls w' = calls example_window_ready ++ build
               ++ vertex_array_calls (vao programData) ∧
    Forall (λ c, is_vertex_array_call c = false) build ∧
    vao programData ≠ 0%N ∧
    (vao programData ∉ vertex_arrays example_window_ready) ∧
    vertex_arrays w'
    = ({[vao programData]} ∪ vertex_arrays example_window_ready) ∧
    program programData ≠ 0%N ∧
    objects example_window_ready !! program programData = None ∧
    vertexCount programData = 3.
Proof.
  apply (initializeGL_makes_one_vertex_array example_env example_window_ready).
  vm_compute. reflexivity.
Defined.

Lemma initializeGL_reads_two_files_witness :
  initializeGL (with_files example_files example_env) initial_world
  = initializeGL (with_files (files example_env) example_env) initial_world.
Proof.
  apply (initializeGL_reads_two_files example_env
           example_files (files example_env) initial_world).
  - vm_compute. reflexivity.
  - vm_compute. reflexivity.
Defined.

(** ** The frame loop, continued *)

Section LoopMore.

Variable env : Env.
Variable window : N.
Variable programData : ProgramData.

Lemma count_calls_app (test : Call → bool) cs1 cs2 :
  count_calls test (cs1 ++ cs2)
  = (count_calls test cs1 + count_calls test cs2)%nat.
Proof. unfold count_calls. by rewrite List.filter_app, length_app. Qed.

Lemma count_calls_close_requests (test : Call → bool) cs :
  (∀ win value, test (glfwSetWindowShouldClose_ win value) = false) →
  Forall (λ c, is_close_request c = true) cs →
  count_calls test cs = 0%nat.
Proof.
  intros Htest Hcs. apply count_calls_none.
  eapply Forall_impl; [exact Hcs|]. intros c Hc.
  destruct c; try discriminate Hc. apply Htest.
Qed.

(** An event that does not ask for the window to be closed changes
    nothing. *)
Lemma deliver_quiet ev w :
  ¬ closes_window (key_callback w) ev → deliver ev w = Returned () w.
Proof.
  destruct ev as [key scancode action mods| |]; intros Hquiet.
  - rewrite deliver_key_event.
    destruct (key_callback w) as [win|]; [|done].
    destruct (quit_chord_pressed key action mods) eqn:Hquit; [|done].
    destruct Hquiet. split; [eauto|done].
  - by destruct Hquiet.
  - done.
Qed.

Lemma deliver_all_quiet evs w :
  quiet (key_callback w) evs → deliver_all evs w = Returned () w.
Proof.
  induction evs as [|ev evs IH]; intros Hquiet; [done|].
  apply Forall_cons in Hquiet as [Hev Hevs].
  cbn [deliver_all]. unfold mbind, M_bind. rewrite deliver_quiet by done.
  by apply IH.
Qed.

(** A frame with a quiet poll leaves the close flag as it was. *)
Lemma frame_quiet w :
  quiet (key_callback w) (events env (polls w)) →
  ∃ w',
    frame env window programData w = Returned () w' ∧
    should_close w' = should_close w ∧
    polls w' = S (polls w) ∧
    key_callback w' = key_callback w.
Proof.
  intros Hquiet. unfold frame, glfwGetFramebufferSize, glfwPollEvents.
  run_M. cbn. destruct (framebuffer_size env (polls w)) as [width height].
  cbn. rewrite deliver_all_quiet by done. by eexists.
Qed.

(** The close flag is set after a poll only if it was set before, or
    one of the events asked for it. *)
Lemma deliver_all_close_flag evs : ∀ w,
  should_close (final_world (deliver_all evs w)) = true →
  should_close w = true ∨ Exists (closes_window (key_callback w)) evs.
Proof.
  induction evs as [|ev evs IH]; intros w Hflag; [by left|].
  cbn [deliver_all] in Hflag. unfold mbind, M_bind in Hflag.
  destruct ev as [key scancode action mods| |].
  - rewrite deliver_key_event in Hflag.
    destruct (key_callback w) as [win|] eqn:Hkey.
    + destruct (quit_chord_pressed key action mods) eqn:Hquit.
      * right. apply Exists_cons_hd. split; [eauto|done].
      * apply IH in Hflag as [?|?]; [by left|].
        right. apply Exists_cons_tl. by rewrite <- Hkey.
    + apply IH in Hflag as [?|?]; [by left|].
      right. apply Exists_cons_tl. by rewrite <- Hkey.
  - right. by apply Exists_cons_hd.
  - apply IH in Hflag as [?|?]; [by left|].
    right. by apply Exists_cons_tl.
Qed.

(** X21. One frame ends with the close flag set exactly when the flag was
    set before the frame, or its poll delivered an event that asks for
    the window to be closed: the close request of the window system, or
    the press of a quit chord while [keyCallback] is installed. Nothing
    else in a frame sets the flag, and nothing clears it. *)
Theorem frame_sets_close_flag_iff (w : World) :
  should_close (final_world (frame env window programData w)) = true ↔
  should_close w = true ∨
  Exists (closes_window (key_callback w)) (events env (polls w)).
Proof.
  split.
  - unfold frame, glfwGetFramebufferSize, glfwPollEvents. run_M. cbn.
    destruct (framebuffer_size env (polls w)) as [width height]. cbn.
    intros Hflag. by apply deliver_all_close_flag in Hflag.
  - intros [Hflag|Hev]; [|by apply frame_sets_close_flag].
    destruct (frame_runs env window programData w)
      as (w' & cs & Hframe & _ & _ & _ & Hkeep & _).
    rewrite Hframe. by apply Hkeep.
Qed.

(** The frames of a run of the loop, counted on its calls: the run
    returned with the flag set after one more evaluation of the condition
    than it made frames, or it is still running and has made as many
    frames as it had fuel. *)
Lemma mainLoop_frames fuel : ∀ w,
  ∃ w' n cs,
    (mainLoop fuel env window programData w = Returned () w' ∧
     should_close w' = true ∧
     count_calls is_glfwWindowShouldClose cs = S n
     ∨
     mainLoop fuel env window programData w = OutOfFuel w' ∧
     n = fuel ∧
     count_calls is_glfwWindowShouldClose cs = n) ∧
    polls w' = (polls w + n)%nat ∧
    calls w' = calls w ++ cs ∧
    count_calls is_draw_call cs = n ∧
    count_calls is_glfwSwapBuffers cs = n ∧
    count_calls is_glfwPollEvents cs = n.
Proof.
  induction fuel as [|fuel IH]; intros w.
  - exists w, 0%nat, []. rewrite app_nil_r, Nat.add_0_r.
    split; [by right|]. done.
  - destruct (should_close w) eqn:Hflag.
    + rewrite mainLoop_exit by done.
      exists (log_call (glfwWindowShouldClose_ window) w), 0%nat,
        [glfwWindowShouldClose_ window].
      cbn. rewrite Nat.add_0_r. split; [by left|]. done.
    + destruct (frame_runs env window programData
                  (log_call (glfwWindowShouldClose_ window) w))
        as (w1 & cs1 & Hframe & Hcalls1 & Hcs1 & Hpolls1 & _).
      rewrite (mainLoop_iterate env window programData fuel w w1 Hflag Hframe).
      destruct (IH w1) as (w' & n & cs & Hrun & Hpolls & Hcalls & Hcount).
      cbn in Hcalls1, Hpolls1.
      exists w', (S n),
        ([glfwWindowShouldClose_ window]
         ++ frame_calls window (framebuffer_size env (polls w)) programData
         ++ cs1 ++ cs).
      split; [|split; [rewrite Hpolls, Hpolls1; lia|]].
      * rewrite !count_calls_app,
          (count_calls_close_requests is_glfwWindowShouldClose cs1)
          by done.
        destruct Hrun as [(-> & ? & ->)|(-> & -> & ->)]; [left|right]; done.
      * split; [rewrite Hcalls, Hcalls1, <- !app_assoc; done|].
        destruct Hcount as (Hdraw & Hswap & Hpoll).
        rewrite !count_calls_app,
          (count_calls_close_requests is_draw_call cs1),
          (count_calls_close_requests is_glfwSwapBuffers cs1),
          (count_calls_close_requests is_glfwPollEvents cs1),
          Hdraw, Hswap, Hpoll by done.
        done.
Qed.

(** The loop up to the first poll that asks for the window to be
    closed. *)
Lemma mainLoop_first_closing_poll n : ∀ fuel w,
  should_close w = false →
  (∀ i, (i < n)%nat →
        quiet (key_callback w) (events env (polls w + i))) →
  Exists (closes_window (key_callback w)) (events env (polls w + n)) →
  ∃ w',
    mainLoop (n + 2 + fuel) env window programData w = Returned () w' ∧
    polls w' = (polls w + S n)%nat.
Proof.
  induction n as [|n IH]; intros fuel w Hflag Hquiet Hev.
  - rewrite Nat.add_0_r in Hev.
    destruct (frame_runs env window programData
                (log_call (glfwWindowShouldClose_ window) w))
      as (w1 & cs1 & Hframe & _ & _ & Hpolls1 & _).
    pose proof (frame_sets_close_flag env window programData
                  (log_call (glfwWindowShouldClose_ window) w) Hev) as Hset.
    rewrite Hframe in Hset. cbn in Hset, Hpolls1.
    change (0 + 2 + fuel)%nat with (S (S fuel)).
    rewrite (mainLoop_iterate env window programData _ w w1 Hflag Hframe).
    rewrite mainLoop_exit by done.
    eexists. split; [reflexivity|]. cbn. lia.
  - destruct (frame_quiet (log_call (glfwWindowShouldClose_ window) w))
      as (w1 & Hframe & Hflag1 & Hpolls1 & Hkey1).
    { cbn. rewrite <- (Nat.add_0_r (polls w)). apply Hquiet. lia. }
    cbn in Hflag1, Hpolls1, Hkey1.
    change (S n + 2 + fuel)%nat with (S (n + 2 + fuel)).
    rewrite (mainLoop_iterate env window programData _ w w1 Hflag Hframe).
    destruct (IH fuel w1) as (w' & Hrun & Hpolls).
    + congruence.
    + intros i Hi. rewrite Hkey1, Hpolls1.
      replace (S (polls w) + i)%nat with (polls w + S i)%nat by lia.
      apply Hquiet. lia.
    + rewrite Hkey1, Hpolls1.
      by replace (S (polls w) + n)%nat with (polls w + S n)%nat by lia.
    + exists w'. split; [done|]. lia.
Qed.

(** X22. The loop runs until the first poll that asks for the window to
    be closed and no further. If the close flag is clear at the head of
    the loop, the next [n] polls deliver no event that asks for the window
    to be closed and the one after them does, then the loop returns after
    exactly [n + 1] frames (given the fuel for them): it has drawn [n + 1]
    times, the frame of the closing poll included. *)
Theorem mainLoop_returns_after_first_closing_poll
    (n fuel : nat) (w : World) :
  should_close w = false →
  (∀ i, (i < n)%nat →
        quiet (key_callback w) (events env (polls w + i))) →
  Exists (closes_window (key_callback w)) (events env (polls w + n)) →
  ∃ (w' : World) (new_calls : list Call),
    mainLoop (n + 2 + fuel) env window programData w = Returned () w' ∧
    should_close w' = true ∧
    polls w' = (polls w + S n)%nat ∧
    calls w' = calls w ++ new_calls ∧
    count_calls is_draw_call new_calls = S n.
Proof.
  intros Hflag Hquiet Hev.
  destruct (mainLoop_first_closing_poll n fuel w Hflag Hquiet Hev)
    as (w' & Hrun & Hpolls).
  destruct (mainLoop_frames (n + 2 + fuel) w)
    as (w2 & m & cs & Hcase & Hpolls2 & Hcalls & Hdraw & _).
  rewrite Hrun in Hcase.
  destruct Hcase as [([= <-] & Hset & _)|(? & _)]; [|done].
  assert (m = S n) as -> by lia.
  by exists w', cs.
Qed.

(** X23. The close flag is the only way out of the loop. If the flag is
    clear at the head of the loop and no poll ever delivers an event that
    asks for the window to be closed, the loop does not return: after any
    number of frames it is still running, with the flag clear. *)
Theorem mainLoop_runs_on_without_closing_event (frames : nat) (w : World) :
  should_close w = false →
  (∀ i, quiet (key_callback w) (events env (polls w + i))) →
  ∃ (w' : World),
    mainLoop frames env window programData w = OutOfFuel w' ∧
    polls w' = (polls w + frames)%nat ∧
    should_close w' = false.
Proof.
  revert w. induction frames as [|frames IH]; intros w Hflag Hquiet.
  - exists w. by rewrite Nat.add_0_r.
  - destruct (frame_quiet (log_call (glfwWindowShouldClose_ window) w))
      as (w1 & Hframe & Hflag1 & Hpolls1 & Hkey1).
    { cbn. rewrite <- (Nat.add_0_r (polls w)). apply Hquiet. }
    cbn in Hflag1, Hpolls1, Hkey1.
    rewrite (mainLoop_iterate env window programData _ w w1 Hflag Hframe).
    destruct (IH w1) as (w' & Hrun & Hpolls & Hclear).
    + congruence.
    + intros i. rewrite Hkey1, Hpolls1.
      replace (S (polls w) + i)%nat with (polls w + S i)%nat by lia.
      apply Hquiet.
    + exists w'. split; [done|]. split; [lia|done].
Qed.

(** X24. In every run of the loop that returns, the close flag is set on
    return, and the loop has drawn, swapped the buffers and polled the
    events once for each frame, and asked for the close flag once more
    than that. *)
Theorem mainLoop_draws_swaps_polls_once_per_frame
    (fuel : nat) (w w' : World) :
  mainLoop fuel env window programData w = Returned () w' →
  should_close w' = true ∧
  ∃ (frames : nat) (new_calls : list Call),
    polls w' = (polls w + frames)%nat ∧
    calls w' = calls w ++ new_calls ∧
    count_calls is_draw_call new_calls = frames ∧
    count_calls is_glfwSwapBuffers new_calls = frames ∧
    count_calls is_glfwPollEvents new_calls = frames ∧
    count_calls is_glfwWindowShouldClose new_calls = S frames.
Proof.
  intros Hrun.
  destruct (mainLoop_frames fuel w)
    as (w2 & n & cs & Hcase & Hpolls & Hcalls & Hdraw & Hswap & Hpoll).
  rewrite Hrun in Hcase.
  destruct Hcase as [([= <-] & Hset & Hquery)|(? & _)]; [|done].
  split; [done|]. by exists n, cs.
Qed.

End LoopMore.

Lemma mainLoop_returns_after_first_closing_poll_witness :
  ∃ (w' : World) (new_calls : list Call),
    mainLoop (2 + 2 + 6) example_env 7 example_programData example_loop_entry
    = Returned () w' ∧
    should_close w' = true ∧
    polls w' = (polls example_loop_entry + 3)%nat ∧
    calls w' = calls example_loop_entry ++ new_calls ∧
    count_calls is_draw_call new_calls = 3%nat.
Proof.
  apply (mainLoop_returns_after_first_closing_poll example_env 7
           example_programData 2 6 example_loop_entry).
  - vm_compute. reflexivity.
  - intros [|[|i]] Hi; [vm_compute; constructor..|lia].
  - vm_compute. apply Exists_cons_hd. split; [by eexists|reflexivity].
Defined.

Lemma mainLoop_runs_on_without_closing_event_witness :
  ∃ (w' : World),
    mainLoop 5 example_typing 7 example_programData example_loop_entry
    = OutOfFuel w' ∧
    polls w' = (polls example_loop_entry + 5)%nat ∧
    should_close w' = false.
Proof.
  apply (mainLoop_runs_on_without_closing_event example_typing 7
           example_programData 5 example_loop_entry).
  - vm_compute. reflexivity.
  - intros i. repeat constructor.
    + intros [_ Hquit]. vm_compute in Hquit. discriminate Hquit.
    + intros [_ Hquit]. vm_compute in Hquit. discriminate Hquit.
    + intros Hother. exact Hother.
Defined.

Lemma mainLoop_draws_swaps_polls_once_per_frame_witness :
  should_close example_loop_exit = true ∧
  ∃ (frames : nat) (new_calls : list Call),
    polls example_loop_exit = (polls example_loop_entry + frames)%nat ∧
    calls example_loop_exit = calls example_loop_entry ++ new_calls ∧
    count_calls is_draw_call new_calls = frames ∧
    count_calls is_glfwSwapBuffers new_calls = frames ∧
    count_calls is_glfwPollEvents new_calls = frames ∧
    count_calls is_glfwWindowShouldClose new_calls = S frames.
Proof.
  apply (mainLoop_draws_swaps_polls_once_per_frame example_env 7
           example_programData 10 example_loop_entry example_loop_exit).
  vm_compute. reflexivity.
Defined.

(** ** [main], continued *)

Section MainMore.

Variable env : Env.

Lemma window_result_null :
  (window_result env =? 0)%N = negb (window_ready env).
Proof.
  unfold window_result, window_ready.
  destruct (glfwInit_succeeds env); [|done]. cbn. by rewrite negb_involutive.
Qed.

(** [main] up to the frame loop. *)
Lemma main_runs fuel :
  ∃ w1,
    initializeWindow env initial_world = Returned (window_result env) w1 ∧
    calls w1 = initializeWindow_calls env ∧
    if window_ready env then
      window_result env = created_window env ∧
      created_window env ≠ 0%N ∧
      if build_succeeds env then
        ∃ programData w2 build,
          initializeGL env w1 = Returned programData w2 ∧
          calls w2 = calls w1 ++ build ∧
          Forall keeps_all build ∧
          should_close w2 = false ∧
          polls w2 = 0%nat ∧
          key_callback w2 = Some (created_window env) ∧
          vao programData ∈ vertex_arrays w2 ∧
          run fuel env =
            (mainLoop fuel env (created_window env) programData;;
             cleanUp (created_window env) programData;;
             mret 0) w2
      else
        ∃ w2 build,
          run fuel env = Thrown build_error w2 ∧
          calls w2 = calls w1 ++ build ∧
          Forall keeps_all build
    else run fuel env = Exited EXIT_FAILURE w1.
Proof.
  destruct (initializeWindow_runs env initial_world)
    as (w1 & Hrun1 & Hcalls1 & _ & _ & Hkey1 & _ & Hclose1 & Hobj1 & _ & Hpolls1).
  exists w1. split; [done|]. split; [done|].
  unfold run, main. erewrite bind_Returned; [|exact Hrun1].
  rewrite window_result_null.
  unfold window_result in *.
  destruct (window_ready env) eqn:Hready; cbn [negb]; [|done].
  unfold window_ready in Hready. apply andb_true_iff in Hready as [Hinit Hw].
  apply negb_true_iff, N.eqb_neq in Hw.
  rewrite Hinit. split; [done|]. split; [done|].
  destruct (build_succeeds env) eqn:Hbuild.
  - destruct (initializeGL_succeeds env w1 Hbuild)
      as (programData & w2 & build & Hrun2 & _ & Hcalls2 & Hbuildcalls & _
          & Hvao & Hclose2 & Hkey2 & Hpolls2).
    { rewrite Hobj1. apply attachments_live_empty. }
    exists programData, w2, build.
    split; [done|]. split; [done|]. split; [done|].
    split; [by rewrite Hclose2, Hclose1|].
    split; [by rewrite Hpolls2, Hpolls1|].
    split; [by rewrite Hkey2, Hkey1|].
    split; [done|].
    by erewrite bind_Returned; [|exact Hrun2].
  - destruct (initializeGL_fails env w1 Hbuild)
      as (w2 & build & Hrun2 & _ & Hcalls2 & Hkeeps & _).
    exists w2, build. unfold mbind, M_bind. by rewrite Hrun2.
Qed.

(** [main] from the frame loop on. *)
Lemma main_from_loop fuel window programData w2 :
  ∃ w3 cs,
    calls w3 = calls w2 ++ cs ∧
    Forall keeps_all cs ∧
    (mainLoop fuel env window programData w2 = OutOfFuel w3 ∧
     (mainLoop fuel env window programData;;
      cleanUp window programData;;
      mret 0) w2 = OutOfFuel w3
     ∨
     ∃ w_end,
       mainLoop fuel env window programData w2 = Returned () w3 ∧
       (mainLoop fuel env window programData;;
        cleanUp window programData;;
        mret 0) w2 = Returned 0 w_end ∧
       calls w_end = calls w3 ++ cleanUp_calls window programData ∧
       polls w_end = polls w3).
Proof.
  destruct (mainLoop_runs env window programData fuel w2)
    as (w3 & cs & Hloop & Hcalls & Hcs & _).
  exists w3, cs. split; [done|].
  split; [eapply Forall_impl; [exact Hcs|]; by intros c []|].
  unfold mbind, M_bind.
  destruct Hloop as [Hloop|Hloop]; rewrite Hloop; [right|by left].
  destruct (cleanUp_runs window programData w3)
    as (_ & _ & w_end & _ & _ & _ & -> & Hcalls_end & Hpolls_end & _).
  by exists w_end.
Qed.

(** X25. [main] ends in one of four ways, and the surroundings decide
    which: with exit status [EXIT_FAILURE] exactly when GLFW did not
    initialize or did not create the window; with the uncaught exception of
    [createProgram] exactly when the window was set up and the build
    failed; otherwise it runs the frame loop on the window of
    [initializeWindow], with the [ProgramData] and in the state
    [initializeGL] returned, and it returns 0 exactly when that loop
    returns. No other status, and no other exception, is possible. *)
Theorem main_termination (fuel : nat) :
  match termination_before_loop env with
  | Some ending => termination (run fuel env) = ending
  | None =>
      ∃ (w1 : World) (programData : ProgramData) (w_entry : World),
        let window := created_window env in
        window ≠ 0%N ∧
        initializeWindow env initial_world = Returned window w1 ∧
        initializeGL env w1 = Returned programData w_entry ∧
        ((∃ w, mainLoop fuel env window programData w_entry = Returned () w) ∨
         (∃ w, mainLoop fuel env window programData w_entry = OutOfFuel w)) ∧
        termination (run fuel env) =
          match mainLoop fuel env window programData w_entry with
          | Returned _ _ => ExitStatus 0
          | Thrown what _ => Aborted what
          | Exited status _ => ExitStatus status
          | OutOfFuel _ => StillRunning
          end
  end.
Proof.
  destruct (main_runs fuel) as (w1 & Hrun1 & _ & Hrun).
  unfold termination_before_loop.
  destruct (window_ready env) eqn:Hready; cbn [negb]; [|by rewrite Hrun].
  destruct Hrun as (Hresult & Hwindow & Hrun). rewrite Hresult in Hrun1.
  destruct (build_succeeds env); cbn [negb].
  - destruct Hrun as (programData & w2 & build & Hrun2 & _ & _ & _ & _ & _ & _
                      & ->).
    exists w1, programData, w2. cbn zeta.
    split; [done|]. split; [done|]. split; [done|].
    destruct (main_from_loop fuel (created_window env) programData w2)
      as (w3 & cs & _ & _ & [[Hloop ->]|(w_end & Hloop & -> & _)]);
      rewrite Hloop; eauto.
  - destruct Hrun as (w2 & build & -> & _). done.
Qed.


Lemma ordered_unmarked (later mark : Call → bool) cs :
  Forall (λ c, mark c = false) cs →
  ordered (λ seen c, negb (seen && later c)) mark false cs = true ∧
  existsb mark cs = false.
Proof.
  induction 1 as [|c cs Hc _ [IH1 IH2]]; [done|].
  cbn. by rewrite Hc, IH1, IH2.
Qed.


Lemma initializeWindow_calls_terminate :
  ordered (λ seen c, negb (seen && any_call c)) is_glfwTerminate
    false (initializeWindow_calls env) = true ∧
  (window_ready env = true →
   Forall (λ c, is_glfwTerminate c = false) (initializeWindow_calls env)).
Proof.
  unfold initializeWindow_calls, window_ready.
  destruct (glfwInit_succeeds env), (DEBUG env), (APPLE env),
    (ARB_debug_output env), (created_window env =? 0)%N;
    (split; [done|]); cbn; intros; try done; by repeat constructor.
Qed.


Lemma keeps_all_not_glfwTerminate cs :
  Forall keeps_all cs → Forall (λ c, is_glfwTerminate c = false) cs.
Proof.
  intros Hcs. eapply Forall_impl; [exact Hcs|].
  intros c [Hteardown _]. by destruct c.
Qed.


(** The log of a run: the calls of [initializeWindow], then calls that
    tear nothing down, then the calls of [cleanUp] if [main] returned. *)
Lemma main_calls fuel :
  ∃ rest last,
    calls (final_world (run fuel env))
    = (initializeWindow_calls env ++ rest) ++ last ∧
    Forall keeps_all rest ∧
    (window_ready env = false → rest = [] ∧ last = []) ∧
    (last = [] ∨
     ∃ programData, last = cleanUp_calls (created_window env) programData) ∧
    match run fuel env with
    | Returned _ _ =>
        ∃ programData,
          last = cleanUp_calls (created_window env) programData
    | _ => last = []
    end.
Proof.
  destruct (main_runs fuel) as (w1 & _ & Hcalls1 & Hrun).
  destruct (window_ready env).
  - destruct Hrun as (_ & _ & Hrun). destruct (build_succeeds env).
    + destruct Hrun as (programData & w2 & build & _ & Hcalls2 & Hbuild & _ & _
                        & _ & _ & ->).
      destruct (main_from_loop fuel (created_window env) programData w2)
        as (w3 & cs & Hcalls3 & Hcs
            & [[_ ->]|(w_end & _ & -> & Hcalls_end & _)]); cbn.
      * exists (build ++ cs), [].
        rewrite Hcalls3, Hcalls2, Hcalls1, app_nil_r, <- app_assoc.
        split; [done|]. split; [by apply Forall_app|].
        split; [done|]. split; [by left|done].
      * exists (build ++ cs),
          (cleanUp_calls (created_window env) programData).
        rewrite Hcalls_end, Hcalls3, Hcalls2, Hcalls1, <- !app_assoc.
        split; [done|]. split; [by apply Forall_app|].
        split; [done|]. split; [right|]; eauto.
    + destruct Hrun as (w2 & build & -> & Hcalls2 & Hbuild). cbn.
      exists build, []. rewrite Hcalls2, Hcalls1, app_nil_r.
      split; [done|]. split; [done|]. split; [done|]. split; [by left|done].
  - rewrite Hrun. cbn. exists [], []. rewrite Hcalls1, !app_nil_r.
    split; [done|]. split; [done|]. split; [done|]. split; [by left|done].
Qed.


(** X27. In every run of [main], no call at all is made after
    [glfwTerminate]; so it is called at most once. *)
Theorem main_calls_nothing_after_glfwTerminate (fuel : nat) :
  never_after any_call is_glfwTerminate (calls (final_world (run fuel env))).
Proof.
  apply never_after_checked.
  destruct initializeWindow_calls_terminate as [Hinit Hnone].
  destruct (main_calls fuel)
    as (rest & last & -> & Hrest & Hempty & Hshape & _).
  destruct (window_ready env).
  - specialize (Hnone eq_refl). rewrite ordered_app.
    destruct (ordered_unmarked any_call is_glfwTerminate
                (initializeWindow_calls env ++ rest)) as [-> ->].
    { apply Forall_app. auto using keeps_all_not_glfwTerminate. }
    by destruct Hshape as [->|[programData ->]].
  - destruct (Hempty eq_refl) as [-> ->]. by rewrite !app_nil_r.
Qed.

(** X28. From start to end. When GLFW initializes and creates the window,
    the build succeeds, the first [n] polls deliver no event that asks for
    the window to be closed and the one after them does, [main] returns 0
    after exactly [n + 1] frames (given the fuel for them). Its last calls
    are those of [cleanUp] on the window [initializeWindow] returned and
    the [ProgramData] [initializeGL] returned: the window is destroyed,
    the vertex array that [initializeGL] generated is deleted, GLFW is
    terminated. *)
Theorem main_returns_after_first_closing_poll (n fuel : nat) :
  window_ready env = true →
  build_succeeds env = true →
  (∀ i, (i < n)%nat → quiet (Some (created_window env)) (events env i)) →
  Exists (closes_window (Some (created_window env))) (events env n) →
  ∃ (w1 : World) (programData : ProgramData) (w_entry w_exit w_end : World),
    let window := created_window env in
    initializeWindow env initial_world = Returned window w1 ∧
    initializeGL env w1 = Returned programData w_entry ∧
    vao programData ∈ vertex_arrays w_entry ∧
    mainLoop (n + 2 + fuel) env window programData w_entry
    = Returned () w_exit ∧
    run (n + 2 + fuel) env = Returned 0 w_end ∧
    polls w_end = S n ∧
    calls w_end
    = calls w_exit ++ [ glfwDestroyWindow_ window;
                        glDeleteVertexArrays_ 1 (vao programData);
                        glfwTerminate_ ].
Proof.
  intros Hready Hbuild Hquiet Hev.
  destruct (main_runs (n + 2 + fuel)) as (w1 & Hrun1 & _ & Hrun).
  rewrite Hready, Hbuild in Hrun.
  destruct Hrun as (Hresult & _ & programData & w2 & build & Hrun2 & _ & _
                    & Hclose & Hpolls & Hkey & Hvao & ->).
  rewrite Hresult in Hrun1.
  destruct (mainLoop_first_closing_poll env (created_window env) programData
              n fuel w2 Hclose) as (w3 & Hloop & Hpolls3).
  { intros i Hi. rewrite Hkey, Hpolls. by apply Hquiet. }
  { by rewrite Hkey, Hpolls. }
  destruct (main_from_loop (n + 2 + fuel) (created_window env) programData w2)
    as (w3' & cs & _ & _ & [[Hout _]|(w_end & Hloop' & -> & Hcalls & Hpolls_end)]);
    [by rewrite Hloop in Hout|].
  rewrite Hloop in Hloop'. injection Hloop' as <-.
  exists w1, programData, w2, w3, w_end. cbn zeta.
  repeat (split; [done|]).
  split; [|done]. rewrite Hpolls_end, Hpolls3, Hpolls. done.
Qed.

End MainMore.

Lemma main_returns_after_first_closing_poll_witness :
  ∃ (w1 : World) (programData : ProgramData) (w_entry w_exit w_end : World),
    let window := created_window example_env in
    initializeWindow example_env initial_world = Returned window w1 ∧
    initializeGL example_env w1 = Returned programData w_entry ∧
    vao programData ∈ vertex_arrays w_entry ∧
    mainLoop (2 + 2 + 0) example_env window programData w_entry
    = Returned () w_exit ∧
    run (2 + 2 + 0) example_env = Returned 0 w_end ∧
    polls w_end = 3%nat ∧
    calls w_end
    = calls w_exit ++ [ glfwDestroyWindow_ window;
                        glDeleteVertexArrays_ 1 (vao programData);
                        glfwTerminate_ ].
Proof.
  apply (main_returns_after_first_closing_poll example_env 2 0).
  - vm_compute. reflexivity.
  - vm_compute. reflexivity.
  - intros [|[|i]] Hi; [vm_compute; constructor..|lia].
  - vm_compute. apply Exists_cons_hd. split; [by eexists|reflexivity].
Defined.
